(** * Whether Agents: a shallow embedding of the serverless handlers

    The repository is a set of AWS Lambda handlers written in Python
    (agent orchestrator, position executor, market resolver, leaderboard
    updater, bot webhook) over a common layer ([dynamodb.py],
    [bedrock.py], [whether_api.py], [telegram.py]).  This development
    embeds the handlers as Rocq functions and proves properties of the
    embedded code.

    Conventions of the embedding.
    - Python [Decimal] and [float] values are rationals ([Q]) with exact
      arithmetic; equality of such values is [Qeq] ([==]).  Python's
      default decimal context keeps 28 significant digits and floats 53
      bits; the embedding does not round, so it describes the code
      wherever operands and results stay inside that precision.
    - Where the code depends on the run-time type of a number (the
      arithmetic of the leaderboard updater, [json.dumps] of a chat
      identifier), the number is a [Py.number], which carries its type:
      boto3 returns every number read from DynamoDB as a [Decimal].
    - [str] is [string]; [datetime] is an integer number of microseconds
      since the epoch ([Z]); [dict] tables keyed by an identifier are
      [gmap string _].
    - Stateful code runs in a state-and-exception monad over [World], the
      state of the external services (tables, queue, market API, chat);
      a raised exception keeps the effects made before it, as in Python.
    - The behaviour of the services that the repository does not own (the
      hosted model, the market API, the chat platform) is a parameter
      [Env]. *)

From Stdlib Require Import ZArith QArith Qabs Qminmax Qround Lqa Lia.
From Stdlib Require Import List String Ascii Bool.
From stdpp Require Import gmap strings pretty list fin_maps.
Import ListNotations.

Local Open Scope Z_scope.
Local Open Scope string_scope.

(** ** Python basics *)

Module Py.

(** [a < b] on numbers, as a boolean. *)
Definition Qlt_bool (a b : Q) : bool := negb (Qle_bool b a).

(** The builtin [min(a, b)]: the first argument unless the second is
    strictly smaller. *)
Definition min (a b : Q) : Q := if Qlt_bool b a then b else a.

(** The builtin [max(a, b)]: the first argument unless the second is
    strictly larger. *)
Definition max (a b : Q) : Q := if Qlt_bool a b then b else a.

(** [x in xs] for a list of strings. *)
Definition str_in (x : string) (xs : list string) : bool :=
  existsb (String.eqb x) xs.

(** Truthiness of a list: non-empty. *)
Definition truthy {A : Type} (xs : list A) : bool :=
  match xs with [] => false | _ :: _ => true end.

(** [d.get(key, default)] for an optional entry. *)
Definition get {A : Type} (entry : option A) (default : A) : A :=
  match entry with Some a => a | None => default end.

(** [abs(x)]. *)
Definition abs (x : Q) : Q := Qabs x.

(** [round(x, ndigits)]: to the nearest multiple of 10^-ndigits, ties to
    the even neighbour. *)
Definition round_half_even (x : Q) : Z :=
  let f := Qfloor x in
  let r := (x - inject_Z f)%Q in
  match (r ?= 1 # 2)%Q with
  | Lt => f
  | Gt => f + 1
  | Eq => if Z.even f then f else f + 1
  end.

Definition round (x : Q) (ndigits : nat) : Q :=
  let scale := inject_Z (10 ^ Z.of_nat ndigits) in
  (inject_Z (round_half_even (x * scale)) / scale)%Q.

(** A number together with its run-time type: an [int], a [float] or a
    [decimal.Decimal]. *)
Inductive number :=
| Int (z : Z)
| Float (q : Q)
| Decimal (q : Q).

Definition value (n : number) : Q :=
  match n with
  | Int z => inject_Z z
  | Float q => q
  | Decimal q => q
  end.

(** Truthiness of a number: it is not zero. *)
Definition nonzero (n : number) : bool := negb (Qeq_bool (value n) 0).

(** What [json.dumps] accepts: an [int] or a [float]; on a [Decimal] it
    raises TypeError (Object of type Decimal is not JSON serializable). *)
Definition json_serializable (n : number) : bool :=
  match n with
  | Decimal _ => false
  | _ => true
  end.

End Py.

(** ** common/bedrock.py and common/whether_api.py: enumerations *)

Module Bedrock.

Inductive ConfidenceLevel := LOW | MEDIUM | HIGH | VERY_HIGH.

Definition ConfidenceLevel_value (c : ConfidenceLevel) : string :=
  match c with
  | LOW => "low" | MEDIUM => "medium" | HIGH => "high"
  | VERY_HIGH => "very_high"
  end.

(** [ConfidenceLevel(s)]: the member whose value is [s], else ValueError. *)
Definition ConfidenceLevel_of (s : string) : option ConfidenceLevel :=
  if s =? "low" then Some LOW
  else if s =? "medium" then Some MEDIUM
  else if s =? "high" then Some HIGH
  else if s =? "very_high" then Some VERY_HIGH
  else None.

Inductive PositionDirection := YES | NO | DYNAMIC.

Definition PositionDirection_value (d : PositionDirection) : string :=
  match d with YES => "YES" | NO => "NO" | DYNAMIC => "dynamic" end.

Definition PositionDirection_of (s : string) : option PositionDirection :=
  if s =? "YES" then Some YES
  else if s =? "NO" then Some NO
  else if s =? "dynamic" then Some DYNAMIC
  else None.

(** The entry-condition vocabulary that STRATEGY_SYNTHESIS_PROMPT offers
    to the hosted model. *)
Definition prompt_operators : list string :=
  ["gt"; "lt"; "gte"; "lte"; "eq"; "between"].

Definition prompt_fields : list string :=
  ["market_probability"; "forecast_probability"; "edge"; "confidence";
   "temperature_delta"; "precipitation_chance"].

(** The JSON object the hosted model answers a market analysis with. *)
Record Analysis := {
  predictedProbability : Q;
  confidence : string;
  reasoning : string;
  weatherFactors : list string;
  recommendedDirection : string;
}.

(** [MarketPrediction] *)
Record MarketPrediction := {
  mp_market_id : string;
  mp_predicted_probability : Q;
  mp_confidence : ConfidenceLevel;
  mp_edge : Q;
  mp_reasoning : string;
  mp_weather_factors : list string;
  mp_recommended_direction : PositionDirection;
}.

End Bedrock.

Module WhetherApi.

Inductive MarketType := TEMPERATURE_HIGH | TEMPERATURE_LOW | PRECIPITATION | SNOW.

Definition MarketType_value (t : MarketType) : string :=
  match t with
  | TEMPERATURE_HIGH => "temperature_high"
  | TEMPERATURE_LOW => "temperature_low"
  | PRECIPITATION => "precipitation"
  | SNOW => "snow"
  end.

Inductive Location := NYC | CHI | MIA | AUS.

Definition Location_value (l : Location) : string :=
  match l with NYC => "NYC" | CHI => "CHI" | MIA => "MIA" | AUS => "AUS" end.

(** [Market]: the fields the handlers read. *)
Module Market.
Record t := {
  id : string;
  type : MarketType;
  location : Location;
  question : string;
  yes_price : Q;
  no_price : Q;
  resolution_time : Z;
  outcome : option string;
}.

(** [Market.yes_probability] *)
Definition yes_probability (m : t) : Q := (yes_price m * 100)%Q.
End Market.

(** A paper position registered with the market API. *)
Record PaperOrder := {
  po_agent_id : string;
  po_market_id : string;
  po_direction : string;
  po_amount : Q;
}.

End WhetherApi.

(** ** The strategy document

    [Agent.strategy_config] is the dictionary written by
    [SynthesizedStrategy.to_dict]; the handlers read it with [dict.get]
    and a default, so every entry may be absent. *)

Module Strategy.

Record MarketSelection := {
  types : option (list string);
  locations : option (list string);
  timeHorizon : option (list string);
}.

(** The value of an entry condition: a number or a string. *)
Inductive Value := VNum (q : Q) | VStr (s : string).

Record EntryCondition := {
  field : option string;
  operator : option string;
  value : option Value;
}.

Record PositionSizing := {
  baseSize : option Q;
  scalingRule : option string;
}.

Record RiskControls := {
  minConfidence : option string;
  minEdge : option Q;
  maxPositionSize : option Q;
  maxDailyTrades : option Z;
}.

Record t := {
  strategyName : option string;
  thesis : option string;
  marketSelection : option MarketSelection;
  entryConditions : option (list EntryCondition);
  positionDirection : option string;
  positionSizing : option PositionSizing;
  riskControls : option RiskControls;
}.

(** The strategy with another list of entry conditions. *)
Definition with_entryConditions (conditions : list EntryCondition) (s : t) : t :=
  {| strategyName := strategyName s;
     thesis := thesis s;
     marketSelection := marketSelection s;
     entryConditions := Some conditions;
     positionDirection := positionDirection s;
     positionSizing := positionSizing s;
     riskControls := riskControls s |}.

(** The empty dictionary [{}]. *)
Definition no_MarketSelection : MarketSelection :=
  {| types := None; locations := None; timeHorizon := None |}.

Definition no_PositionSizing : PositionSizing :=
  {| baseSize := None; scalingRule := None |}.

Definition no_RiskControls : RiskControls :=
  {| minConfidence := None; minEdge := None; maxPositionSize := None;
     maxDailyTrades := None |}.

End Strategy.

(** ** common/dynamodb.py: data model *)

Module Dynamodb.

Inductive AgentStatus := AGENT_PENDING | ACTIVE | PAUSED | STOPPED.

Definition AgentStatus_value (s : AgentStatus) : string :=
  match s with
  | AGENT_PENDING => "pending" | ACTIVE => "active"
  | PAUSED => "paused" | STOPPED => "stopped"
  end.

Inductive PositionStatus := PENDING | OPEN | CLOSED | CANCELLED.

Definition PositionStatus_value (s : PositionStatus) : string :=
  match s with
  | PENDING => "pending" | OPEN => "open"
  | CLOSED => "closed" | CANCELLED => "cancelled"
  end.

Definition PositionStatus_eqb (a b : PositionStatus) : bool :=
  PositionStatus_value a =? PositionStatus_value b.

Module Agent.
Record t := {
  agent_id : string;
  user_id : string;
  (* annotated [int]; a [Decimal] in a record read from the store *)
  telegram_chat_id : Py.number;
  strategy_name : string;
  strategy_config : Strategy.t;
  status : AgentStatus;
  created_at : Z;
  updated_at : Z;
  total_trades : Z;
  winning_trades : Z;
  total_pnl : Q;
}.

(** The record with another status ([agent.status = ...]). *)
Definition with_status (s : AgentStatus) (a : t) : t :=
  {| agent_id := agent_id a; user_id := user_id a;
     telegram_chat_id := telegram_chat_id a;
     strategy_name := strategy_name a; strategy_config := strategy_config a;
     status := s; created_at := created_at a; updated_at := updated_at a;
     total_trades := total_trades a; winning_trades := winning_trades a;
     total_pnl := total_pnl a |}.

End Agent.

Module Position.
Record t := {
  position_id : string;
  agent_id : string;
  market_id : string;
  direction : string;
  size : Q;
  entry_price : Q;
  status : PositionStatus;
  created_at : Z;
  updated_at : Z;
  exit_price : option Q;
  pnl : option Q;
  prediction_id : option string;
}.

Definition with_status (s : PositionStatus) (p : t) : t :=
  {| position_id := position_id p; agent_id := agent_id p;
     market_id := market_id p; direction := direction p; size := size p;
     entry_price := entry_price p; status := s;
     created_at := created_at p; updated_at := updated_at p;
     exit_price := exit_price p; pnl := pnl p;
     prediction_id := prediction_id p |}.
End Position.

Module Prediction.
Record t := {
  prediction_id : string;
  agent_id : string;
  market_id : string;
  predicted_probability : Q;
  market_probability : Q;
  confidence : string;
  edge : Q;
  reasoning : string;
  weather_factors : list string;
  recommended_direction : string;
  created_at : Z;
  was_correct : option bool;
  actual_outcome : option string;
}.
End Prediction.

Module LeaderboardEntry.
Record t := {
  agent_id : string;
  strategy_name : string;
  user_id : string;
  score : Q;
  total_trades : Z;
  win_rate : Q;
  total_pnl : Q;
  rank : Z;
  period : string;
  updated_at : Z;
}.
End LeaderboardEntry.

End Dynamodb.

(** ** The external services and the effect monad *)

Module Effects.

(** The execution request that the orchestrator serialises onto the queue
    and the executor reads back with [message["key"]] / [message.get]. A
    field is [None] when the key is absent from the JSON object. *)
Record Message := {
  agentId : option string;
  marketId : option string;
  direction : option string;
  size : option Q;
  entryPrice : option Q;
  predictionId : option string;
  telegramChatId : option Py.number;
}.

(** Messages handed to the chat platform: the calls of the bot's
    [send_message], with the chat identifier as it is passed. *)
Inductive Notification :=
| PositionOpened (chat_id : Py.number)
    (strategy_name market_id direction : string) (size entry_price : Q)
| PositionResolved (chat_id : Py.number)
    (strategy_name market_id direction : string)
    (outcome : option string) (pnl : Q)
| AgentUpdate (chat_id : Py.number) (strategy_name : string)
    (positions_queued predictions_created : Z)
| Reply (chat_id : Py.number) (text : string).

(** State of the services the handlers talk to. *)
Record World := {
  agents_table : gmap string Dynamodb.Agent.t;
  positions_table : gmap string Dynamodb.Position.t;
  (* prediction items in the order they were put; keys are fresh uuids *)
  predictions_table : list Dynamodb.Prediction.t;
  (* leaderboard items under their key (period, rank) *)
  leaderboard_table : gmap (string * Z) Dynamodb.LeaderboardEntry.t;
  position_queue : list Message;
  paper_positions : list WhetherApi.PaperOrder;
  telegram : list Notification;
  clock : Z;
  uuid_counter : nat;
}.

Inductive exn :=
| KeyError (key : string)
| ValueError (what : string)
| TypeError
| ArithmeticError
| ServiceError (service : string).

Inductive result (A : Type) :=
| Ok (a : A)
| Raised (e : exn).
Arguments Ok {A} a.
Arguments Raised {A} e.

Definition M (A : Type) : Type := World -> result A * World.

Definition ret {A} (a : A) : M A := fun w => (Ok a, w).

Definition raise {A} (e : exn) : M A := fun w => (Raised e, w).

Definition bind {A B} (m : M A) (k : A -> M B) : M B :=
  fun w =>
    match m w with
    | (Ok a, w') => k a w'
    | (Raised e, w') => (Raised e, w')
    end.

(** [try: m  except Exception as e: h e] *)
Definition try_except {A} (m : M A) (h : exn -> M A) : M A :=
  fun w =>
    match m w with
    | (Ok a, w') => (Ok a, w')
    | (Raised e, w') => h e w'
    end.

Definition modify (f : World -> World) : M unit := fun w => (Ok tt, f w).

Definition gets {A} (f : World -> A) : M A := fun w => (Ok (f w), w).

(** [d[key]]: KeyError when the key is absent. *)
Definition subscript {A} (key : string) (entry : option A) : M A :=
  match entry with Some a => ret a | None => raise (KeyError key) end.

Declare Scope py_scope.
Delimit Scope py_scope with py.
Notation "x <- c1 ;; c2" := (bind c1 (fun x => c2))
  (at level 100, c1 at next level, right associativity) : py_scope.
Notation "c1 ;; c2" := (bind c1 (fun _ => c2))
  (at level 100, right associativity) : py_scope.

Local Open Scope py_scope.

(** [for x in xs: body x] *)
Fixpoint for_each {A} (xs : list A) (body : A -> M unit) : M unit :=
  match xs with
  | [] => ret tt
  | x :: rest => body x ;; for_each rest body
  end.

(** A loop that carries local variables [acc]. *)
Fixpoint for_fold {A S} (xs : list A) (acc : S) (body : S -> A -> M S) : M S :=
  match xs with
  | [] => ret acc
  | x :: rest => acc' <- body acc x ;; for_fold rest acc' body
  end.

Definition set_positions_table (f : gmap string Dynamodb.Position.t ->
                                    gmap string Dynamodb.Position.t)
    (w : World) : World :=
  {| agents_table := agents_table w;
     positions_table := f (positions_table w);
     predictions_table := predictions_table w;
     leaderboard_table := leaderboard_table w;
     position_queue := position_queue w;
     paper_positions := paper_positions w;
     telegram := telegram w;
     clock := clock w;
     uuid_counter := uuid_counter w |}.

Definition set_agents_table (f : gmap string Dynamodb.Agent.t ->
                                 gmap string Dynamodb.Agent.t)
    (w : World) : World :=
  {| agents_table := f (agents_table w);
     positions_table := positions_table w;
     predictions_table := predictions_table w;
     leaderboard_table := leaderboard_table w;
     position_queue := position_queue w;
     paper_positions := paper_positions w;
     telegram := telegram w;
     clock := clock w;
     uuid_counter := uuid_counter w |}.

Definition set_predictions_table (f : list Dynamodb.Prediction.t ->
                                      list Dynamodb.Prediction.t)
    (w : World) : World :=
  {| agents_table := agents_table w;
     positions_table := positions_table w;
     predictions_table := f (predictions_table w);
     leaderboard_table := leaderboard_table w;
     position_queue := position_queue w;
     paper_positions := paper_positions w;
     telegram := telegram w;
     clock := clock w;
     uuid_counter := uuid_counter w |}.

Definition set_leaderboard_table
    (f : gmap (string * Z) Dynamodb.LeaderboardEntry.t ->
         gmap (string * Z) Dynamodb.LeaderboardEntry.t)
    (w : World) : World :=
  {| agents_table := agents_table w;
     positions_table := positions_table w;
     predictions_table := predictions_table w;
     leaderboard_table := f (leaderboard_table w);
     position_queue := position_queue w;
     paper_positions := paper_positions w;
     telegram := telegram w;
     clock := clock w;
     uuid_counter := uuid_counter w |}.

Definition set_position_queue (f : list Message -> list Message)
    (w : World) : World :=
  {| agents_table := agents_table w;
     positions_table := positions_table w;
     predictions_table := predictions_table w;
     leaderboard_table := leaderboard_table w;
     position_queue := f (position_queue w);
     paper_positions := paper_positions w;
     telegram := telegram w;
     clock := clock w;
     uuid_counter := uuid_counter w |}.

Definition set_paper_positions (f : list WhetherApi.PaperOrder ->
                                    list WhetherApi.PaperOrder)
    (w : World) : World :=
  {| agents_table := agents_table w;
     positions_table := positions_table w;
     predictions_table := predictions_table w;
     leaderboard_table := leaderboard_table w;
     position_queue := position_queue w;
     paper_positions := f (paper_positions w);
     telegram := telegram w;
     clock := clock w;
     uuid_counter := uuid_counter w |}.

Definition set_telegram (f : list Notification -> list Notification)
    (w : World) : World :=
  {| agents_table := agents_table w;
     positions_table := positions_table w;
     predictions_table := predictions_table w;
     leaderboard_table := leaderboard_table w;
     position_queue := position_queue w;
     paper_positions := paper_positions w;
     telegram := f (telegram w);
     clock := clock w;
     uuid_counter := uuid_counter w |}.

(** [datetime.now(timezone.utc)]: reads the clock; two readings are never
    equal (the next one is a microsecond later). *)
Definition datetime_now : M Z :=
  fun w =>
    (Ok (clock w),
     {| agents_table := agents_table w;
        positions_table := positions_table w;
        predictions_table := predictions_table w;
        leaderboard_table := leaderboard_table w;
        position_queue := position_queue w;
        paper_positions := paper_positions w;
        telegram := telegram w;
        clock := clock w + 1;
        uuid_counter := uuid_counter w |}).

(** [str(uuid.uuid4())]: an identifier that was never handed out before
    (the decimal numeral of a counter, after a prefix). *)
Definition uuid4 : M string :=
  fun w =>
    (Ok ("uuid-" ++ pretty (uuid_counter w)),
     {| agents_table := agents_table w;
        positions_table := positions_table w;
        predictions_table := predictions_table w;
        leaderboard_table := leaderboard_table w;
        position_queue := position_queue w;
        paper_positions := paper_positions w;
        telegram := telegram w;
        clock := clock w;
        uuid_counter := S (uuid_counter w) |}).

(** What the services outside the repository answer.
    - [invoke_analysis]: the hosted model's parsed reply to a market
      analysis prompt, or the exception of the call.
    - [paper_api_accepts]: whether the market API accepts a paper order
      (otherwise the HTTP call raises).
    - [api_get_markets]: the markets the market API lists for a status, or
      the exception of the call.
    - [bot_client]: whether the webhook's [get_bot()] obtains the bot
      client, or the exception of the secrets lookup.
    - [telegram_accepts]: whether the chat platform accepts a message of
      the webhook (otherwise [raise_for_status] or the RuntimeError of
      [_request] is raised). *)
Record Env := {
  invoke_analysis :
    Dynamodb.Agent.t -> WhetherApi.Market.t -> World -> result Bedrock.Analysis;
  paper_api_accepts : WhetherApi.PaperOrder -> World -> bool;
  api_get_markets : string -> World -> result (list WhetherApi.Market.t);
  bot_client : World -> result unit;
  telegram_accepts : Notification -> World -> bool;
}.

(** A computation without effects that may raise. *)
Definition lift {A} (r : result A) : M A := fun w => (r, w).

(** A call to a service of [Env] that reads the state of the world. *)
Definition ask {A} (f : World -> result A) : M A := fun w => (f w, w).

End Effects.

(** ** Arithmetic on numbers with a run-time type *)

Module Number.
Import Effects.

(** [float(x)] *)
Definition float (n : Py.number) : Py.number := Py.Float (Py.value n).

(** [a < b]: numbers of the three types compare with one another. *)
Definition lt (a b : Py.number) : bool := Py.Qlt_bool (Py.value a) (Py.value b).

(** The builtins [min(a, b)] and [max(a, b)]: one of the arguments, with
    its type. *)
Definition min (a b : Py.number) : Py.number := if lt b a then b else a.

Definition max (a b : Py.number) : Py.number := if lt a b then b else a.

(** The type of the result of an arithmetic operator: [int] with [int]
    stays [int] (but for the true division), a [float] operand makes a
    [float], a [Decimal] operand a [Decimal]; a [Decimal] and a [float] do
    not combine (TypeError: unsupported operand type(s)). *)
Definition combine (op : Q -> Q -> Q) (a b : Py.number) : result Py.number :=
  match a, b with
  | Py.Decimal _, Py.Float _ => Raised TypeError
  | Py.Float _, Py.Decimal _ => Raised TypeError
  | Py.Decimal x, _ => Ok (Py.Decimal (op x (Py.value b)))
  | _, Py.Decimal y => Ok (Py.Decimal (op (Py.value a) y))
  | _, _ => Ok (Py.Float (op (Py.value a) (Py.value b)))
  end.

(** [a * b] *)
Definition mul (a b : Py.number) : result Py.number :=
  match a, b with
  | Py.Int x, Py.Int y => Ok (Py.Int (x * y))
  | _, _ => combine Qmult a b
  end.

(** [a + b] *)
Definition add (a b : Py.number) : result Py.number :=
  match a, b with
  | Py.Int x, Py.Int y => Ok (Py.Int (x + y))
  | _, _ => combine Qplus a b
  end.

(** [a / b]: the true division; of two [int]s it is a [float].  A zero
    divisor raises an ArithmeticError (ZeroDivisionError, or the signal of
    the decimal context). *)
Definition truediv (a b : Py.number) : result Py.number :=
  match combine Qdiv a b with
  | Raised e => Raised e
  | Ok quotient =>
      if Py.nonzero b then Ok quotient else Raised ArithmeticError
  end.

(** Sequencing of computations that may raise. *)
Definition then_ {A B} (r : result A) (k : A -> result B) : result B :=
  match r with
  | Ok a => k a
  | Raised e => Raised e
  end.

End Number.

(** ** common/dynamodb.py: [DynamoDBClient] and the record constructors *)

Module DynamoDBClient.
Import Effects.
Local Open Scope py_scope.

(** [Position.create] *)
Definition Position_create (agent_id market_id direction : string)
    (size entry_price : Q) (prediction_id : option string)
  : M Dynamodb.Position.t :=
  now <- datetime_now ;;
  position_id <- uuid4 ;;
  ret {| Dynamodb.Position.position_id := position_id;
         Dynamodb.Position.agent_id := agent_id;
         Dynamodb.Position.market_id := market_id;
         Dynamodb.Position.direction := direction;
         Dynamodb.Position.size := size;
         Dynamodb.Position.entry_price := entry_price;
         Dynamodb.Position.status := Dynamodb.PENDING;
         Dynamodb.Position.created_at := now;
         Dynamodb.Position.updated_at := now;
         Dynamodb.Position.exit_price := None;
         Dynamodb.Position.pnl := None;
         Dynamodb.Position.prediction_id := prediction_id |}.

(** [Prediction.create] *)
Definition Prediction_create (agent_id market_id : string)
    (predicted_probability market_probability : Q) (confidence : string)
    (edge : Q) (reasoning : string) (weather_factors : list string)
    (recommended_direction : string)
  : M Dynamodb.Prediction.t :=
  prediction_id <- uuid4 ;;
  now <- datetime_now ;;
  ret {| Dynamodb.Prediction.prediction_id := prediction_id;
         Dynamodb.Prediction.agent_id := agent_id;
         Dynamodb.Prediction.market_id := market_id;
         Dynamodb.Prediction.predicted_probability := predicted_probability;
         Dynamodb.Prediction.market_probability := market_probability;
         Dynamodb.Prediction.confidence := confidence;
         Dynamodb.Prediction.edge := edge;
         Dynamodb.Prediction.reasoning := reasoning;
         Dynamodb.Prediction.weather_factors := weather_factors;
         Dynamodb.Prediction.recommended_direction := recommended_direction;
         Dynamodb.Prediction.created_at := now;
         Dynamodb.Prediction.was_correct := None;
         Dynamodb.Prediction.actual_outcome := None |}.

(** [Agent.from_dynamo_item] of a stored item.  boto3 returns the numbers
    of an item as [Decimal]s and [from_dynamo_item] passes telegramChatId
    on as it is, so the chat identifier of a record read from the store is
    a [Decimal].  (So are totalTrades and winningTrades; the embedded code
    does not depend on the type of these attributes of the record.) *)
Definition Agent_from_dynamo_item (item : Dynamodb.Agent.t) : Dynamodb.Agent.t :=
  {| Dynamodb.Agent.agent_id := Dynamodb.Agent.agent_id item;
     Dynamodb.Agent.user_id := Dynamodb.Agent.user_id item;
     Dynamodb.Agent.telegram_chat_id :=
       Py.Decimal (Py.value (Dynamodb.Agent.telegram_chat_id item));
     Dynamodb.Agent.strategy_name := Dynamodb.Agent.strategy_name item;
     Dynamodb.Agent.strategy_config := Dynamodb.Agent.strategy_config item;
     Dynamodb.Agent.status := Dynamodb.Agent.status item;
     Dynamodb.Agent.created_at := Dynamodb.Agent.created_at item;
     Dynamodb.Agent.updated_at := Dynamodb.Agent.updated_at item;
     Dynamodb.Agent.total_trades := Dynamodb.Agent.total_trades item;
     Dynamodb.Agent.winning_trades := Dynamodb.Agent.winning_trades item;
     Dynamodb.Agent.total_pnl := Dynamodb.Agent.total_pnl item |}.

(** [get_agent]: the item under the agent's key, if any. *)
Definition get_agent (agent_id : string) : M (option Dynamodb.Agent.t) :=
  gets (fun w => option_map Agent_from_dynamo_item (agents_table w !! agent_id)).

(** [get_active_agents]: scan filtered on status "active". *)
Definition get_active_agents : M (list Dynamodb.Agent.t) :=
  gets (fun w =>
    map Agent_from_dynamo_item
      (List.filter
         (fun a => Dynamodb.AgentStatus_value (Dynamodb.Agent.status a) =? "active")
         (map snd (map_to_list (agents_table w))))).

Definition Agent_with_stats (total_trades winning_trades : Z) (total_pnl : Q)
    (now : Z) (a : Dynamodb.Agent.t) : Dynamodb.Agent.t :=
  {| Dynamodb.Agent.agent_id := Dynamodb.Agent.agent_id a;
     Dynamodb.Agent.user_id := Dynamodb.Agent.user_id a;
     Dynamodb.Agent.telegram_chat_id := Dynamodb.Agent.telegram_chat_id a;
     Dynamodb.Agent.strategy_name := Dynamodb.Agent.strategy_name a;
     Dynamodb.Agent.strategy_config := Dynamodb.Agent.strategy_config a;
     Dynamodb.Agent.status := Dynamodb.Agent.status a;
     Dynamodb.Agent.created_at := Dynamodb.Agent.created_at a;
     Dynamodb.Agent.updated_at := now;
     Dynamodb.Agent.total_trades := total_trades;
     Dynamodb.Agent.winning_trades := winning_trades;
     Dynamodb.Agent.total_pnl := total_pnl |}.

(** [update_agent_stats]: SET of the three counters on the agent's item.
    (On a key that is absent DynamoDB would create an item holding only
    these attributes; the callers pass identifiers of stored agents.) *)
Definition update_agent_stats (agent_id : string)
    (total_trades winning_trades : Z) (total_pnl : Q) : M unit :=
  now <- datetime_now ;;
  modify (set_agents_table
            (alter (Agent_with_stats total_trades winning_trades total_pnl now)
                   agent_id)).

(** [create_position]: put_item under the position's key. *)
Definition create_position (position : Dynamodb.Position.t)
  : M Dynamodb.Position.t :=
  modify (set_positions_table
            (<[Dynamodb.Position.position_id position := position]>)) ;;
  ret position.

(** [get_positions_by_agent] *)
Definition get_positions_by_agent (agent_id : string)
    (status : option Dynamodb.PositionStatus) : M (list Dynamodb.Position.t) :=
  positions <- gets (fun w =>
    List.filter (fun p => Dynamodb.Position.agent_id p =? agent_id)
                (map snd (map_to_list (positions_table w)))) ;;
  match status with
  | Some s =>
      ret (List.filter
             (fun p => Dynamodb.PositionStatus_eqb (Dynamodb.Position.status p) s)
             positions)
  | None => ret positions
  end.

(** The SET expression of [update_position_status]: status and updatedAt
    always, exitPrice and pnl when they are not None. *)
Definition Position_updated (status : Dynamodb.PositionStatus)
    (exit_price pnl : option Q) (now : Z) (p : Dynamodb.Position.t)
  : Dynamodb.Position.t :=
  {| Dynamodb.Position.position_id := Dynamodb.Position.position_id p;
     Dynamodb.Position.agent_id := Dynamodb.Position.agent_id p;
     Dynamodb.Position.market_id := Dynamodb.Position.market_id p;
     Dynamodb.Position.direction := Dynamodb.Position.direction p;
     Dynamodb.Position.size := Dynamodb.Position.size p;
     Dynamodb.Position.entry_price := Dynamodb.Position.entry_price p;
     Dynamodb.Position.status := status;
     Dynamodb.Position.created_at := Dynamodb.Position.created_at p;
     Dynamodb.Position.updated_at := now;
     Dynamodb.Position.exit_price :=
       match exit_price with
       | Some x => Some x
       | None => Dynamodb.Position.exit_price p
       end;
     Dynamodb.Position.pnl :=
       match pnl with
       | Some x => Some x
       | None => Dynamodb.Position.pnl p
       end;
     Dynamodb.Position.prediction_id := Dynamodb.Position.prediction_id p |}.

(** [update_position_status]. (As for [update_agent_stats], the callers pass
    the key of a stored item.) *)
Definition update_position_status (position_id : string)
    (status : Dynamodb.PositionStatus) (exit_price pnl : option Q) : M unit :=
  now <- datetime_now ;;
  modify (set_positions_table
            (alter (Position_updated status exit_price pnl now) position_id)).

(** [create_prediction]: put_item of a new prediction. *)
Definition create_prediction (prediction : Dynamodb.Prediction.t)
  : M Dynamodb.Prediction.t :=
  modify (set_predictions_table (fun items => (items ++ [prediction])%list)) ;;
  ret prediction.

(** Index GSI1 read backwards ([ScanIndexForward=False]): the agent's
    predictions, latest [created_at] first. *)
Fixpoint insert_by_created_at (p : Dynamodb.Prediction.t)
    (l : list Dynamodb.Prediction.t) : list Dynamodb.Prediction.t :=
  match l with
  | [] => [p]
  | x :: rest =>
      if (Dynamodb.Prediction.created_at x <=? Dynamodb.Prediction.created_at p)%Z
      then p :: x :: rest
      else x :: insert_by_created_at p rest
  end.

Definition latest_first (l : list Dynamodb.Prediction.t)
  : list Dynamodb.Prediction.t :=
  fold_right insert_by_created_at [] l.

(** [get_predictions_by_agent]: at most [limit] items of that index. *)
Definition get_predictions_by_agent (agent_id : string) (limit : nat)
  : M (list Dynamodb.Prediction.t) :=
  gets (fun w =>
    firstn limit
      (latest_first
         (List.filter (fun p => Dynamodb.Prediction.agent_id p =? agent_id)
                      (predictions_table w)))).

(** The loop of [get_prediction_for_market]. *)
Fixpoint first_for_market (market_id : string)
    (predictions : list Dynamodb.Prediction.t) : option Dynamodb.Prediction.t :=
  match predictions with
  | [] => None
  | pred :: rest =>
      if Dynamodb.Prediction.market_id pred =? market_id then Some pred
      else first_for_market market_id rest
  end.

(** [get_prediction_for_market] *)
Definition get_prediction_for_market (agent_id market_id : string)
  : M (option Dynamodb.Prediction.t) :=
  predictions <- get_predictions_by_agent agent_id 100 ;;
  ret (first_for_market market_id predictions).

Definition Prediction_with_outcome (was_correct : bool)
    (actual_outcome : option string) (p : Dynamodb.Prediction.t)
  : Dynamodb.Prediction.t :=
  {| Dynamodb.Prediction.prediction_id := Dynamodb.Prediction.prediction_id p;
     Dynamodb.Prediction.agent_id := Dynamodb.Prediction.agent_id p;
     Dynamodb.Prediction.market_id := Dynamodb.Prediction.market_id p;
     Dynamodb.Prediction.predicted_probability :=
       Dynamodb.Prediction.predicted_probability p;
     Dynamodb.Prediction.market_probability :=
       Dynamodb.Prediction.market_probability p;
     Dynamodb.Prediction.confidence := Dynamodb.Prediction.confidence p;
     Dynamodb.Prediction.edge := Dynamodb.Prediction.edge p;
     Dynamodb.Prediction.reasoning := Dynamodb.Prediction.reasoning p;
     Dynamodb.Prediction.weather_factors :=
       Dynamodb.Prediction.weather_factors p;
     Dynamodb.Prediction.recommended_direction :=
       Dynamodb.Prediction.recommended_direction p;
     Dynamodb.Prediction.created_at := Dynamodb.Prediction.created_at p;
     Dynamodb.Prediction.was_correct := Some was_correct;
     Dynamodb.Prediction.actual_outcome := actual_outcome |}.

(** [update_prediction_outcome] *)
Definition update_prediction_outcome (prediction_id : string)
    (was_correct : bool) (actual_outcome : option string) : M unit :=
  modify (set_predictions_table
    (map (fun p =>
            if Dynamodb.Prediction.prediction_id p =? prediction_id
            then Prediction_with_outcome was_correct actual_outcome p
            else p))).

(** [update_leaderboard]: one put_item per entry, under the key made of the
    period and the rank. *)
Definition update_leaderboard (entries : list Dynamodb.LeaderboardEntry.t)
  : M unit :=
  for_each entries
    (fun entry =>
       modify (set_leaderboard_table
                 (<[(Dynamodb.LeaderboardEntry.period entry,
                     Dynamodb.LeaderboardEntry.rank entry) := entry]>))).

Definition Agent_with_status (status : Dynamodb.AgentStatus) (now : Z)
    (a : Dynamodb.Agent.t) : Dynamodb.Agent.t :=
  {| Dynamodb.Agent.agent_id := Dynamodb.Agent.agent_id a;
     Dynamodb.Agent.user_id := Dynamodb.Agent.user_id a;
     Dynamodb.Agent.telegram_chat_id := Dynamodb.Agent.telegram_chat_id a;
     Dynamodb.Agent.strategy_name := Dynamodb.Agent.strategy_name a;
     Dynamodb.Agent.strategy_config := Dynamodb.Agent.strategy_config a;
     Dynamodb.Agent.status := status;
     Dynamodb.Agent.created_at := Dynamodb.Agent.created_at a;
     Dynamodb.Agent.updated_at := now;
     Dynamodb.Agent.total_trades := Dynamodb.Agent.total_trades a;
     Dynamodb.Agent.winning_trades := Dynamodb.Agent.winning_trades a;
     Dynamodb.Agent.total_pnl := Dynamodb.Agent.total_pnl a |}.

(** [update_agent_status]: SET of the status on the agent's item.  (As for
    [update_agent_stats], the item is taken to be stored; on an absent key
    DynamoDB would create an item holding only these attributes.) *)
Definition update_agent_status (agent_id : string)
    (status : Dynamodb.AgentStatus) : M unit :=
  now <- datetime_now ;;
  modify (set_agents_table (alter (Agent_with_status status now) agent_id)).

(** Index GSI1 of the agents table read forwards: the agents of a user,
    earliest [created_at] first. *)
Fixpoint insert_agent_by_created_at (a : Dynamodb.Agent.t)
    (l : list Dynamodb.Agent.t) : list Dynamodb.Agent.t :=
  match l with
  | [] => [a]
  | x :: rest =>
      if (Dynamodb.Agent.created_at a <=? Dynamodb.Agent.created_at x)%Z
      then a :: x :: rest
      else x :: insert_agent_by_created_at a rest
  end.

Definition earliest_first (l : list Dynamodb.Agent.t) : list Dynamodb.Agent.t :=
  fold_right insert_agent_by_created_at [] l.

(** [get_agents_by_user] *)
Definition get_agents_by_user (user_id : string) : M (list Dynamodb.Agent.t) :=
  gets (fun w =>
    map Agent_from_dynamo_item
      (earliest_first
         (List.filter (fun a => Dynamodb.Agent.user_id a =? user_id)
                      (map snd (map_to_list (agents_table w)))))).

End DynamoDBClient.

(** ** common/bedrock.py: [BedrockClient.analyze_market] *)

Module BedrockClient.
Import Effects.
Local Open Scope py_scope.

(** [analyze_market]: the model's reply, with the edge and the two
    enumerations computed from it.  A reply that cannot be parsed and a
    value outside an enumeration both raise. *)
Definition analyze_market (env : Env) (agent : Dynamodb.Agent.t)
    (market : WhetherApi.Market.t) (market_probability : Q)
  : M Bedrock.MarketPrediction :=
  analysis <- ask (invoke_analysis env agent market) ;;
  let edge :=
    Py.abs (Bedrock.predictedProbability analysis - market_probability / 100)%Q in
  match Bedrock.PositionDirection_of (Bedrock.recommendedDirection analysis) with
  | None => raise (ValueError "recommendedDirection")
  | Some recommended_direction =>
      match Bedrock.ConfidenceLevel_of (Bedrock.confidence analysis) with
      | None => raise (ValueError "confidence")
      | Some confidence =>
          ret {| Bedrock.mp_market_id := WhetherApi.Market.id market;
                 Bedrock.mp_predicted_probability :=
                   Bedrock.predictedProbability analysis;
                 Bedrock.mp_confidence := confidence;
                 Bedrock.mp_edge := edge;
                 Bedrock.mp_reasoning := Bedrock.reasoning analysis;
                 Bedrock.mp_weather_factors := Bedrock.weatherFactors analysis;
                 Bedrock.mp_recommended_direction := recommended_direction |}
      end
  end.

End BedrockClient.

(** ** agent_orchestrator/app.py *)

Module AgentOrchestrator.
Import Effects.
Local Open Scope py_scope.

(** [CONFIDENCE_ORDER], as a lookup. *)
Definition CONFIDENCE_ORDER (key : string) : option Z :=
  if key =? "low" then Some 0%Z
  else if key =? "medium" then Some 1%Z
  else if key =? "high" then Some 2%Z
  else if key =? "very_high" then Some 3%Z
  else None.

(** [(market.resolution_time - now).total_seconds() / 3600] *)
Definition hours_until_resolution (market : WhetherApi.Market.t) (now : Z) : Q :=
  (inject_Z (WhetherApi.Market.resolution_time market - now) / 1000000 / 3600)%Q.

(** One iteration of the loop of [filter_markets_for_strategy]: [true] when
    control reaches [filtered.append(market)], [false] on [continue]. *)
Definition reaches_append (allowed_types allowed_locations time_horizons : list string)
    (now : Z) (market : WhetherApi.Market.t) : bool :=
  if Py.truthy allowed_types
     && negb (Py.str_in (WhetherApi.MarketType_value (WhetherApi.Market.type market))
                        allowed_types)
  then false
  else if Py.truthy allowed_locations
          && negb (Py.str_in
                     (WhetherApi.Location_value (WhetherApi.Market.location market))
                     allowed_locations)
  then false
  else if Py.truthy time_horizons then
    let hours := hours_until_resolution market now in
    if Py.str_in "same_day" time_horizons && Qle_bool hours 24 then true
    else if Py.str_in "next_day" time_horizons
            && (Py.Qlt_bool 24 hours && Qle_bool hours 48) then true
    else if Py.str_in "weekly" time_horizons
            && (Py.Qlt_bool 48 hours && Qle_bool hours 168) then true
    else false
  else true.

Fixpoint filter_loop (allowed_types allowed_locations time_horizons : list string)
    (now : Z) (markets filtered : list WhetherApi.Market.t)
  : list WhetherApi.Market.t :=
  match markets with
  | [] => filtered
  | market :: rest =>
      filter_loop allowed_types allowed_locations time_horizons now rest
        (if reaches_append allowed_types allowed_locations time_horizons now market
         then (filtered ++ [market])%list
         else filtered)
  end.

(** [filter_markets_for_strategy] with the clock reading made explicit. *)
Definition filter_markets_at (now : Z) (markets : list WhetherApi.Market.t)
    (strategy : Strategy.t) : list WhetherApi.Market.t :=
  let market_selection :=
    Py.get (Strategy.marketSelection strategy) Strategy.no_MarketSelection in
  let allowed_types := Py.get (Strategy.types market_selection) [] in
  let allowed_locations := Py.get (Strategy.locations market_selection) [] in
  let time_horizons := Py.get (Strategy.timeHorizon market_selection) [] in
  filter_loop allowed_types allowed_locations time_horizons now markets [].

(** [filter_markets_for_strategy] *)
Definition filter_markets_for_strategy (markets : list WhetherApi.Market.t)
    (strategy : Strategy.t) : M (list WhetherApi.Market.t) :=
  now <- datetime_now ;;
  ret (filter_markets_at now markets strategy).

(** [actual > value] and the like: a number against the condition's value.
    Ordering a number against a string or None raises TypeError. *)
Definition ordered (cmp : Q -> Q -> bool) (actual : Q)
    (value : option Strategy.Value) : result bool :=
  match value with
  | Some (Strategy.VNum v) => Ok (cmp actual v)
  | Some (Strategy.VStr _) => Raised TypeError
  | None => Raised TypeError
  end.

(** [actual == value]: false against a string or None. *)
Definition equal (actual : Q) (value : option Strategy.Value) : bool :=
  match value with
  | Some (Strategy.VNum v) => Qeq_bool actual v
  | Some (Strategy.VStr _) => false
  | None => false
  end.

(** The operator dispatch at the end of [evaluate_entry_condition]. *)
Definition evaluate_operator (operator : string) (actual : Q)
    (value : option Strategy.Value) : result bool :=
  if operator =? "gt" then ordered (fun a v => Py.Qlt_bool v a) actual value
  else if operator =? "lt" then ordered Py.Qlt_bool actual value
  else if operator =? "gte" then ordered (fun a v => Qle_bool v a) actual value
  else if operator =? "lte" then ordered Qle_bool actual value
  else if operator =? "eq" then Ok (equal actual value)
  else Ok true.

(** [evaluate_entry_condition] *)
Definition evaluate_entry_condition (condition : Strategy.EntryCondition)
    (prediction : Dynamodb.Prediction.t) : result bool :=
  let field := Py.get (Strategy.field condition) "" in
  let operator := Py.get (Strategy.operator condition) "" in
  let value := Strategy.value condition in
  if field =? "edge" then
    evaluate_operator operator (Dynamodb.Prediction.edge prediction) value
  else if field =? "confidence" then
    let actual :=
      inject_Z (Py.get (CONFIDENCE_ORDER (Dynamodb.Prediction.confidence prediction)) 0%Z) in
    let value :=
      match value with
      | Some (Strategy.VStr s) =>
          Some (Strategy.VNum (inject_Z (Py.get (CONFIDENCE_ORDER s) 1%Z)))
      | _ => value
      end in
    evaluate_operator operator actual value
  else if field =? "market_probability" then
    evaluate_operator operator
      (Dynamodb.Prediction.market_probability prediction * 100)%Q value
  else if field =? "forecast_probability" then
    evaluate_operator operator
      (Dynamodb.Prediction.predicted_probability prediction * 100)%Q value
  else Ok true.

(** The loop over the entry conditions in [should_open_position]. *)
Fixpoint check_entry_conditions (entry_conditions : list Strategy.EntryCondition)
    (prediction : Dynamodb.Prediction.t) : result bool :=
  match entry_conditions with
  | [] => Ok true
  | condition :: rest =>
      match evaluate_entry_condition condition prediction with
      | Raised e => Raised e
      | Ok false => Ok false
      | Ok true => check_entry_conditions rest prediction
      end
  end.

(** [should_open_position] *)
Definition should_open_position (prediction : Dynamodb.Prediction.t)
    (strategy : Strategy.t) : result bool :=
  let risk_controls :=
    Py.get (Strategy.riskControls strategy) Strategy.no_RiskControls in
  let entry_conditions := Py.get (Strategy.entryConditions strategy) [] in
  let min_confidence := Py.get (Strategy.minConfidence risk_controls) "medium" in
  let prediction_confidence_order :=
    Py.get (CONFIDENCE_ORDER (Dynamodb.Prediction.confidence prediction)) 0%Z in
  let required_confidence_order := Py.get (CONFIDENCE_ORDER min_confidence) 1%Z in
  if (prediction_confidence_order <? required_confidence_order)%Z then Ok false
  else
    let min_edge := Py.get (Strategy.minEdge risk_controls) (5 # 100)%Q in
    if Py.Qlt_bool (Dynamodb.Prediction.edge prediction) min_edge then Ok false
    else check_entry_conditions entry_conditions prediction.

(** The dictionary of multipliers of the "confidence_scaled" rule. *)
Definition confidence_multipliers (key : string) : option Q :=
  if key =? "low" then Some (5 # 10)%Q
  else if key =? "medium" then Some 1%Q
  else if key =? "high" then Some (15 # 10)%Q
  else if key =? "very_high" then Some 2%Q
  else None.

(** [max_position] of [calculate_position_size]: the configured
    maxPositionSize, 0.20 when the strategy configures none. *)
Definition max_position (strategy : Strategy.t) : Q :=
  let risk_controls :=
    Py.get (Strategy.riskControls strategy) Strategy.no_RiskControls in
  Py.get (Strategy.maxPositionSize risk_controls) (20 # 100)%Q.

(** [calculate_position_size] *)
Definition calculate_position_size (prediction : Dynamodb.Prediction.t)
    (strategy : Strategy.t) (agent : Dynamodb.Agent.t) : Q :=
  let position_sizing :=
    Py.get (Strategy.positionSizing strategy) Strategy.no_PositionSizing in
  let base_size := Py.get (Strategy.baseSize position_sizing) (5 # 100)%Q in
  let scaling_rule := Py.get (Strategy.scalingRule position_sizing) "fixed" in
  let max_position := max_position strategy in
  let size :=
    if scaling_rule =? "confidence_scaled" then
      let confidence_multiplier :=
        Py.get (confidence_multipliers (Dynamodb.Prediction.confidence prediction))
               1%Q in
      (base_size * confidence_multiplier)%Q
    else if scaling_rule =? "edge_scaled" then
      let edge_multiplier :=
        Py.min (Dynamodb.Prediction.edge prediction * 10)%Q 2%Q in
      (base_size * edge_multiplier)%Q
    else if scaling_rule =? "kelly" then
      let p := Dynamodb.Prediction.predicted_probability prediction in
      let q := (1 - p)%Q in
      let kelly_fraction := Py.max 0%Q (p - q)%Q in
      (base_size * kelly_fraction * (5 # 10))%Q
    else base_size in
  Py.min size max_position.

(** [analyze_market_for_agent].  (The weather lookup is part of what
    [invoke_analysis] answers; its failure is caught in the source.) *)
Definition analyze_market_for_agent (env : Env) (agent : Dynamodb.Agent.t)
    (market : WhetherApi.Market.t) (strategy : Strategy.t)
  : M Dynamodb.Prediction.t :=
  analysis <- BedrockClient.analyze_market env agent market
                (WhetherApi.Market.yes_probability market) ;;
  DynamoDBClient.Prediction_create
    (Dynamodb.Agent.agent_id agent)
    (WhetherApi.Market.id market)
    (Bedrock.mp_predicted_probability analysis)
    (WhetherApi.Market.yes_probability market / 100)%Q
    (Bedrock.ConfidenceLevel_value (Bedrock.mp_confidence analysis))
    (Bedrock.mp_edge analysis)
    (Bedrock.mp_reasoning analysis)
    (Bedrock.mp_weather_factors analysis)
    (Bedrock.PositionDirection_value (Bedrock.mp_recommended_direction analysis)).

(** [queue_position]: one message on the execution queue.  The message is
    serialised with [json.dumps], which raises TypeError when the agent's
    chat identifier is a [Decimal]. *)
Definition queue_position (agent : Dynamodb.Agent.t)
    (market : WhetherApi.Market.t) (prediction : Dynamodb.Prediction.t)
    (strategy : Strategy.t) : M unit :=
  let size := calculate_position_size prediction strategy agent in
  let direction :=
    match Strategy.positionDirection strategy with
    | Some d =>
        if Py.str_in d ["YES"; "NO"] then d
        else Dynamodb.Prediction.recommended_direction prediction
    | None => Dynamodb.Prediction.recommended_direction prediction
    end in
  timestamp <- datetime_now ;;
  let message :=
    {| agentId := Some (Dynamodb.Agent.agent_id agent);
       marketId := Some (WhetherApi.Market.id market);
       direction := Some direction;
       size := Some size;
       entryPrice :=
         Some (if direction =? "YES" then WhetherApi.Market.yes_price market
               else WhetherApi.Market.no_price market);
       predictionId := Some (Dynamodb.Prediction.prediction_id prediction);
       telegramChatId := Some (Dynamodb.Agent.telegram_chat_id agent) |} in
  if Py.json_serializable (Dynamodb.Agent.telegram_chat_id agent)
  then modify (set_position_queue (fun q => (q ++ [message])%list))
  else raise TypeError.

(** [send_agent_notification]: a failure to send is caught in the source. *)
Definition send_agent_notification (agent : Dynamodb.Agent.t)
    (positions_queued predictions_created : Z) : M unit :=
  modify (set_telegram (fun sent =>
    (sent ++ [AgentUpdate (Dynamodb.Agent.telegram_chat_id agent)
                          (Dynamodb.Agent.strategy_name agent)
                          positions_queued predictions_created])%list)).

Record Summary := {
  summary_agentId : string;
  marketsAnalyzed : Z;
  predictions : Z;
  positionsQueued : Z;
}.

(** The body of the loop of [process_agent].  [counters] are the locals
    [(predictions_created, positions_queued)].  The source has one [try]
    around the body; an exception raised after [predictions_created += 1]
    leaves that increment in place, which the inner handler expresses. *)
Definition process_market (env : Env) (agent : Dynamodb.Agent.t)
    (strategy : Strategy.t) (counters : Z * Z) (market : WhetherApi.Market.t)
  : M (Z * Z) :=
  let predictions_created := fst counters in
  let positions_queued := snd counters in
  try_except
    (existing <- DynamoDBClient.get_prediction_for_market
                   (Dynamodb.Agent.agent_id agent) (WhetherApi.Market.id market) ;;
     skip <- match existing with
             | Some existing =>
                 now <- datetime_now ;;
                 let age_seconds :=
                   (inject_Z (now - Dynamodb.Prediction.created_at existing)
                    / 1000000)%Q in
                 ret (Py.Qlt_bool age_seconds 3600)
             | None => ret false
             end ;;
     if (skip : bool) then ret counters
     else
       prediction <- analyze_market_for_agent env agent market strategy ;;
       _ <- DynamoDBClient.create_prediction prediction ;;
       let predictions_created := (predictions_created + 1)%Z in
       try_except
         (open <- lift (should_open_position prediction strategy) ;;
          if (open : bool) then
            queue_position agent market prediction strategy ;;
            ret (predictions_created, (positions_queued + 1)%Z)
          else ret (predictions_created, positions_queued))
         (fun _ => ret (predictions_created, positions_queued)))
    (fun _ => ret counters).

(** [process_agent] *)
Definition process_agent (env : Env) (agent : Dynamodb.Agent.t)
    (markets : list WhetherApi.Market.t) : M Summary :=
  let strategy := Dynamodb.Agent.strategy_config agent in
  relevant_markets <- filter_markets_for_strategy markets strategy ;;
  if negb (Py.truthy relevant_markets) then
    ret {| summary_agentId := Dynamodb.Agent.agent_id agent;
           marketsAnalyzed := 0; predictions := 0; positionsQueued := 0 |}
  else
    counters <- for_fold relevant_markets (0%Z, 0%Z)
                  (process_market env agent strategy) ;;
    let predictions_created := fst counters in
    let positions_queued := snd counters in
    (if (0 <? positions_queued)%Z
     then send_agent_notification agent positions_queued predictions_created
     else ret tt) ;;
    ret {| summary_agentId := Dynamodb.Agent.agent_id agent;
           marketsAnalyzed := Z.of_nat (length relevant_markets);
           predictions := predictions_created;
           positionsQueued := positions_queued |}.

Inductive AgentResult :=
| Processed (summary : Summary)
| Failed (agent_id : string) (error : exn).

Inductive Response :=
| NoActiveAgents
| MarketsFetchFailed
| NoActiveMarkets
| Completed (results : list AgentResult).

(** [lambda_handler]: one orchestration cycle. *)
Definition lambda_handler (env : Env) : M Response :=
  start_time <- datetime_now ;;
  agents <- DynamoDBClient.get_active_agents ;;
  if negb (Py.truthy agents) then ret NoActiveAgents
  else
    fetched <- try_except
                 (markets <- ask (api_get_markets env "active") ;; ret (Some markets))
                 (fun _ => ret None) ;;
    match fetched with
    | None => ret MarketsFetchFailed
    | Some markets =>
        if negb (Py.truthy markets) then ret NoActiveMarkets
        else
          results <- for_fold agents []
            (fun results agent =>
               try_except
                 (result <- process_agent env agent markets ;;
                  ret (results ++ [Processed result])%list)
                 (fun e =>
                    ret (results ++ [Failed (Dynamodb.Agent.agent_id agent) e])%list)) ;;
          end_time <- datetime_now ;;
          ret (Completed results)
    end.

(** The totals of the response of [lambda_handler]:
    [sum(r.get("predictions", 0) for r in results)] and
    [sum(r.get("positionsQueued", 0) for r in results)]. *)
Definition total_predictions (results : list AgentResult) : Z :=
  fold_left Z.add
    (map (fun r => match r with
                   | Processed summary => predictions summary
                   | Failed _ _ => 0%Z
                   end) results)
    0%Z.

Definition total_positions_queued (results : list AgentResult) : Z :=
  fold_left Z.add
    (map (fun r => match r with
                   | Processed summary => positionsQueued summary
                   | Failed _ _ => 0%Z
                   end) results)
    0%Z.

End AgentOrchestrator.

(** ** common/whether_api.py: [WhetherAPIClient.create_paper_position] *)

Module WhetherAPIClient.
Import Effects.
Local Open Scope py_scope.

(** [create_paper_position]: the POST registers the order, or raises. *)
Definition create_paper_position (env : Env)
    (agent_id market_id direction : string) (amount : Q) : M unit :=
  let order :=
    {| WhetherApi.po_agent_id := agent_id;
       WhetherApi.po_market_id := market_id;
       WhetherApi.po_direction := direction;
       WhetherApi.po_amount := amount |} in
  accepted <- gets (paper_api_accepts env order) ;;
  if (accepted : bool)
  then modify (set_paper_positions (fun orders => (orders ++ [order])%list))
  else raise (ServiceError "whether_api").

End WhetherAPIClient.

(** ** position_executor/app.py *)

Module PositionExecutor.
Import Effects.
Local Open Scope py_scope.

(** [send_position_notification]: a failure to send is caught in the source. *)
Definition send_position_notification (chat_id : Py.number)
    (strategy_name market_id direction : string) (size entry_price : Q)
  : M unit :=
  modify (set_telegram (fun sent =>
    (sent ++ [PositionOpened chat_id strategy_name market_id direction
                             size entry_price])%list)).

(** [process_position_message] *)
Definition process_position_message (env : Env) (message : Message) : M unit :=
  agent_id <- subscript "agentId" (agentId message) ;;
  market_id <- subscript "marketId" (marketId message) ;;
  direction <- subscript "direction" (direction message) ;;
  size <- subscript "size" (size message) ;;
  entry_price <- subscript "entryPrice" (entryPrice message) ;;
  let prediction_id := predictionId message in
  let telegram_chat_id := telegramChatId message in
  agent <- DynamoDBClient.get_agent agent_id ;;
  match agent with
  | None => ret tt
  | Some agent =>
      if negb (Dynamodb.AgentStatus_value (Dynamodb.Agent.status agent) =? "active")
      then ret tt
      else
        try_except
          (WhetherAPIClient.create_paper_position env
             agent_id market_id direction size ;;
           position <- DynamoDBClient.Position_create
                         agent_id market_id direction size entry_price
                         prediction_id ;;
           let position := Dynamodb.Position.with_status Dynamodb.OPEN position in
           _ <- DynamoDBClient.create_position position ;;
           match telegram_chat_id with
           | Some chat_id =>
               if negb (Py.nonzero chat_id) then ret tt
               else send_position_notification chat_id
                      (Dynamodb.Agent.strategy_name agent)
                      market_id direction size entry_price
           | None => ret tt
           end)
          (fun e => raise e)
  end.

(** The body of a queue record: the JSON text of an execution request, or
    text that [json.loads] and the subscripts cannot read as an object. *)
Inductive Body :=
| NotAnObject
| JsonObject (message : Message).

Record SqsRecord := {
  messageId : option string;
  body : option Body;
}.

(** [json.loads("{}")] *)
Definition empty_message : Message :=
  {| agentId := None; marketId := None; direction := None; size := None;
     entryPrice := None; predictionId := None; telegramChatId := None |}.

(** [json.loads(record.get("body", "{}"))] *)
Definition loads_body (record : SqsRecord) : M Message :=
  match Py.get (body record) (JsonObject empty_message) with
  | NotAnObject => raise (ValueError "body")
  | JsonObject message => ret message
  end.

(** The [try] block of the loop of [lambda_handler]. *)
Definition process_record (env : Env) (record : SqsRecord) : M unit :=
  let message_id := Py.get (messageId record) "" in
  body <- loads_body record ;;
  process_position_message env body.

(** [lambda_handler]: returns [batchItemFailures], the list of the
    [itemIdentifier] values. *)
Definition lambda_handler (env : Env) (records : list SqsRecord)
  : M (list (option string)) :=
  for_fold records []
    (fun batch_item_failures record =>
       try_except
         (process_record env record ;; ret batch_item_failures)
         (fun e => ret (batch_item_failures ++ [messageId record])%list)).

End PositionExecutor.

(** ** market_resolver/app.py *)

Module MarketResolver.
Import Effects.
Local Open Scope py_scope.

(** [outcome == "YES"] for an outcome that may be None. *)
Definition outcome_is (outcome : option string) (side : string) : bool :=
  match outcome with
  | Some o => o =? side
  | None => false
  end.

(** [send_resolution_notification]: a failure to send is caught in the source. *)
Definition send_resolution_notification (chat_id : Py.number)
    (strategy_name market_id direction : string) (outcome : option string)
    (pnl : Q) : M unit :=
  modify (set_telegram (fun sent =>
    (sent ++ [PositionResolved chat_id strategy_name market_id direction
                               outcome pnl])%list)).

(** The test [won] of [resolve_position]. *)
Definition won (direction : string) (outcome : option string) : bool :=
  ((direction =? "YES") && outcome_is outcome "YES")
  || ((direction =? "NO") && outcome_is outcome "NO").

(** The profit or loss computed by [resolve_position]. *)
Definition position_pnl (direction : string) (outcome : option string)
    (size entry_price : Q) : Q :=
  if won direction outcome
  then (size * (1 - entry_price))%Q
  else (- size * entry_price)%Q.

(** The exit price computed by [resolve_position]. *)
Definition position_exit_price (direction : string) (outcome : option string) : Q :=
  if won direction outcome then 1%Q else 0%Q.

(** [resolve_position] *)
Definition resolve_position (position_item : Dynamodb.Position.t)
    (market : WhetherApi.Market.t) : M bool :=
  let position_id := Dynamodb.Position.position_id position_item in
  let agent_id := Dynamodb.Position.agent_id position_item in
  let direction := Dynamodb.Position.direction position_item in
  let size := Dynamodb.Position.size position_item in
  let entry_price := Dynamodb.Position.entry_price position_item in
  let outcome := WhetherApi.Market.outcome market in
  let pnl := position_pnl direction outcome size entry_price in
  let exit_price := position_exit_price direction outcome in
  DynamoDBClient.update_position_status position_id Dynamodb.CLOSED
    (Some exit_price) (Some pnl) ;;
  agent <- DynamoDBClient.get_agent agent_id ;;
  match agent with
  | Some agent =>
      send_resolution_notification
        (Dynamodb.Agent.telegram_chat_id agent)
        (Dynamodb.Agent.strategy_name agent)
        (WhetherApi.Market.id market) direction outcome pnl
  | None => ret tt
  end ;;
  ret true.

(** [update_prediction_outcome] *)
Definition update_prediction_outcome (prediction_item : Dynamodb.Prediction.t)
    (market : WhetherApi.Market.t) : M unit :=
  let prediction_id := Dynamodb.Prediction.prediction_id prediction_item in
  let predicted_direction :=
    Dynamodb.Prediction.recommended_direction prediction_item in
  let was_correct := outcome_is (WhetherApi.Market.outcome market) predicted_direction in
  DynamoDBClient.update_prediction_outcome prediction_id was_correct
    (WhetherApi.Market.outcome market).

(** Truthiness of an optional Decimal: present and non-zero. *)
Definition pnl_truthy (pnl : option Q) : bool :=
  match pnl with
  | Some x => negb (Qeq_bool x 0)
  | None => false
  end.

(** [update_agent_stats] *)
Definition update_agent_stats (agent_id : string) : M unit :=
  positions <- DynamoDBClient.get_positions_by_agent agent_id None ;;
  let closed_positions :=
    List.filter
      (fun p => Dynamodb.PositionStatus_eqb (Dynamodb.Position.status p)
                                           Dynamodb.CLOSED)
      positions in
  if negb (Py.truthy closed_positions) then ret tt
  else
    let total_trades := Z.of_nat (length closed_positions) in
    let winning_trades :=
      Z.of_nat (length (List.filter
        (fun p => pnl_truthy (Dynamodb.Position.pnl p)
                  && Py.Qlt_bool 0 (Py.get (Dynamodb.Position.pnl p) 0%Q))
        closed_positions)) in
    let total_pnl :=
      fold_left Qplus
        (map (fun p => Py.get (Dynamodb.Position.pnl p) 0%Q)
             (List.filter (fun p => pnl_truthy (Dynamodb.Position.pnl p))
                          closed_positions))
        0%Q in
    DynamoDBClient.update_agent_stats agent_id total_trades winning_trades total_pnl.

(** The positions scan of [lambda_handler]: open positions of the market. *)
Definition scan_open_positions (market_id : string) : M (list Dynamodb.Position.t) :=
  gets (fun w =>
    List.filter
      (fun p => (Dynamodb.Position.market_id p =? market_id)
                && (Dynamodb.PositionStatus_value (Dynamodb.Position.status p)
                    =? Dynamodb.PositionStatus_value Dynamodb.OPEN))
      (map snd (map_to_list (positions_table w)))).

(** The predictions scan of [lambda_handler]. *)
Definition scan_predictions (market_id : string) : M (list Dynamodb.Prediction.t) :=
  gets (fun w =>
    List.filter (fun p => Dynamodb.Prediction.market_id p =? market_id)
                (predictions_table w)).

(** Locals of [lambda_handler]. *)
Record Counters := {
  positions_updated : Z;
  predictions_updated : Z;
  agents_updated : gset string;
}.

(** The body of the loop over the resolved markets.  Each position and each
    prediction is guarded by its own [try], as in the source. *)
Definition resolve_market (counters : Counters) (market : WhetherApi.Market.t)
  : M Counters :=
  items <- scan_open_positions (WhetherApi.Market.id market) ;;
  counters <- for_fold items counters
    (fun c position_item =>
       try_except
         (result <- resolve_position position_item market ;;
          if (result : bool) then
            ret {| positions_updated := positions_updated c + 1;
                   predictions_updated := predictions_updated c;
                   agents_updated :=
                     agents_updated c ∪ {[Dynamodb.Position.agent_id position_item]} |}
          else ret c)
         (fun _ => ret c)) ;;
  prediction_items <- scan_predictions (WhetherApi.Market.id market) ;;
  for_fold prediction_items counters
    (fun c prediction_item =>
       try_except
         (match Dynamodb.Prediction.was_correct prediction_item with
          | None =>
              update_prediction_outcome prediction_item market ;;
              ret {| positions_updated := positions_updated c;
                     predictions_updated := predictions_updated c + 1;
                     agents_updated := agents_updated c |}
          | Some _ => ret c
          end)
         (fun _ => ret c)).

Inductive Response :=
| MarketsFetchFailed
| NoResolvedMarkets
| Completed (counters : Counters).

(** [lambda_handler]: one daily run. *)
Definition lambda_handler (env : Env) : M Response :=
  start_time <- datetime_now ;;
  fetched <- try_except
               (markets <- ask (api_get_markets env "resolved") ;; ret (Some markets))
               (fun _ => ret None) ;;
  match fetched with
  | None => ret MarketsFetchFailed
  | Some markets =>
      if negb (Py.truthy markets) then ret NoResolvedMarkets
      else
        counters <- for_fold markets
                      {| positions_updated := 0; predictions_updated := 0;
                         agents_updated := ∅ |}
                      resolve_market ;;
        for_each (elements (agents_updated counters))
          (fun agent_id =>
             try_except (update_agent_stats agent_id) (fun _ => ret tt)) ;;
        end_time <- datetime_now ;;
        ret (Completed counters)
  end.

(** The headline of [send_resolution_notification]:
    ["WON" if pnl >= 0 else "LOST"]. *)
Definition result_text (pnl : Q) : string :=
  if Qle_bool 0 pnl then "WON" else "LOST".

End MarketResolver.

(** ** leaderboard_updater/app.py *)

Module LeaderboardUpdater.
Import Effects.
Local Open Scope py_scope.

(** The value of [winning_trades / total_trades if total_trades > 0 else 0]. *)
Definition win_rate (winning_trades total_trades : Z) : Q :=
  if (0 <? total_trades)%Z
  then (inject_Z winning_trades / inject_Z total_trades)%Q
  else 0%Q.

(** [sum(1 for p in predictions if p.was_correct is True)] *)
Definition correct_predictions (predictions : list Dynamodb.Prediction.t) : Z :=
  Z.of_nat (length (List.filter
    (fun p => match Dynamodb.Prediction.was_correct p with
              | Some true => true
              | _ => false
              end) predictions)).

(** [sum(1 for p in predictions if p.was_correct is not None)] *)
Definition total_with_outcome (predictions : list Dynamodb.Prediction.t) : Z :=
  Z.of_nat (length (List.filter
    (fun p => match Dynamodb.Prediction.was_correct p with
              | Some _ => true
              | None => false
              end) predictions)).

(** The value of [correct_predictions / total_with_outcome if
    total_with_outcome > 0 else 0]. *)
Definition prediction_accuracy (predictions : list Dynamodb.Prediction.t) : Q :=
  if (0 <? total_with_outcome predictions)%Z
  then (inject_Z (correct_predictions predictions)
        / inject_Z (total_with_outcome predictions))%Q
  else 0%Q.

(** The composite score, lines 102 to 110 of the handler: the value of
    the expression on the values of its operands. *)
Definition composite_score (win_rate total_pnl : Q) (total_trades : Z)
    (prediction_accuracy : Q) : Q :=
  let normalized_pnl := (total_pnl / 100)%Q in
  let normalized_trades := Py.min (inject_Z total_trades / 100)%Q 1%Q in
  (win_rate * (4 # 10)
   + Py.max (Py.min normalized_pnl 1) (-1) * (3 # 10)
   + normalized_trades * (2 # 10)
   + prediction_accuracy * (1 # 10))%Q.

Record AgentScore := {
  agent_id : string;
  strategy_name : string;
  user_id : string;
  total_trades : Z;
  winning_trades : Z;
  score_win_rate : Q;
  total_pnl : Q;
  composite : Q;   (* the local [score] *)
  score : Q;       (* [Decimal(str(round(score, 6)))] *)
}.

(** [winning_trades / total_trades if total_trades > 0 else 0], on the
    operands as they are at run time. *)
Definition win_rate_expr (winning_trades total_trades : Py.number)
  : result Py.number :=
  if Number.lt (Py.Int 0) total_trades
  then Number.truediv winning_trades total_trades
  else Ok (Py.Int 0).

(** [correct_predictions / total_with_outcome if total_with_outcome > 0
    else 0]: the two counts are [int]s. *)
Definition prediction_accuracy_expr (predictions : list Dynamodb.Prediction.t)
  : result Py.number :=
  if (0 <? total_with_outcome predictions)%Z
  then Number.truediv (Py.Int (correct_predictions predictions))
                      (Py.Int (total_with_outcome predictions))
  else Ok (Py.Int 0).

(** Lines 102 to 110 as Python evaluates them: [normalized_pnl],
    [normalized_trades], then the products and sums of [score] from left
    to right.  The literals are [float]s. *)
Definition score_expr (win_rate total_pnl total_trades prediction_accuracy
                       : Py.number) : result Py.number :=
  Number.then_ (Number.truediv (Number.float total_pnl) (Py.Int 100))
    (fun normalized_pnl =>
  Number.then_ (Number.truediv total_trades (Py.Int 100))
    (fun trades_per_hundred =>
  let normalized_trades := Number.min trades_per_hundred (Py.Float 1) in
  Number.then_ (Number.mul win_rate (Py.Float (4 # 10)))
    (fun weighted_win_rate =>
  Number.then_
    (Number.mul
       (Number.max (Number.min normalized_pnl (Py.Float 1)) (Py.Float (-1)))
       (Py.Float (3 # 10)))
    (fun weighted_pnl =>
  Number.then_ (Number.add weighted_win_rate weighted_pnl)
    (fun sum2 =>
  Number.then_ (Number.mul normalized_trades (Py.Float (2 # 10)))
    (fun weighted_trades =>
  Number.then_ (Number.add sum2 weighted_trades)
    (fun sum3 =>
  Number.then_ (Number.mul prediction_accuracy (Py.Float (1 # 10)))
    (fun weighted_accuracy =>
  Number.add sum3 weighted_accuracy)))))))).

(** A number attribute of an item of the scan: the handler reads the raw
    items, in which boto3 returns every number as a [Decimal]. *)
Definition item_number (stored : Z) : Py.number := Py.Decimal (inject_Z stored).

(** The body of the loop over the agent items. *)
Definition score_agent (item : Dynamodb.Agent.t) : M AgentScore :=
  let agent_id := Dynamodb.Agent.agent_id item in
  let total_trades := item_number (Dynamodb.Agent.total_trades item) in
  let winning_trades := item_number (Dynamodb.Agent.winning_trades item) in
  (* Decimal(item.get("totalPnl", "0")) *)
  let total_pnl := Py.Decimal (Dynamodb.Agent.total_pnl item) in
  win_rate <- lift (win_rate_expr winning_trades total_trades) ;;
  predictions <- DynamoDBClient.get_predictions_by_agent agent_id 100 ;;
  prediction_accuracy <- lift (prediction_accuracy_expr predictions) ;;
  score <- lift (score_expr win_rate total_pnl total_trades prediction_accuracy) ;;
  ret {| agent_id := agent_id;
         strategy_name := Dynamodb.Agent.strategy_name item;
         user_id := Dynamodb.Agent.user_id item;
         total_trades := Dynamodb.Agent.total_trades item;
         winning_trades := Dynamodb.Agent.winning_trades item;
         score_win_rate := Py.value win_rate;
         total_pnl := Dynamodb.Agent.total_pnl item;
         composite := Py.value score;
         score := Py.round (Py.value score) 6 |}.

(** The scan of the handler: agent items with [totalTrades > 0]. *)
Definition scan_agents_with_trades : M (list Dynamodb.Agent.t) :=
  gets (fun w =>
    List.filter (fun a => (0 <? Dynamodb.Agent.total_trades a)%Z)
                (map snd (map_to_list (agents_table w)))).

(** [agent_scores.sort(key=lambda x: float(x["score"]), reverse=True)]:
    descending, equal scores keep their order. *)
Fixpoint insert_by_score (x : AgentScore) (l : list AgentScore) : list AgentScore :=
  match l with
  | [] => [x]
  | y :: rest =>
      if Py.Qlt_bool (score x) (score y) then y :: insert_by_score x rest
      else x :: y :: rest
  end.

Definition sort_by_score (l : list AgentScore) : list AgentScore :=
  fold_right insert_by_score [] l.

(** [enumerate(agent_scores, start=1)] into the entries of one period. *)
Fixpoint ranked_entries (period : string) (now : Z) (rank : Z)
    (agent_scores : list AgentScore) : list Dynamodb.LeaderboardEntry.t :=
  match agent_scores with
  | [] => []
  | agent_data :: rest =>
      {| Dynamodb.LeaderboardEntry.agent_id := agent_id agent_data;
         Dynamodb.LeaderboardEntry.strategy_name := strategy_name agent_data;
         Dynamodb.LeaderboardEntry.user_id := user_id agent_data;
         Dynamodb.LeaderboardEntry.score := score agent_data;
         Dynamodb.LeaderboardEntry.total_trades := total_trades agent_data;
         Dynamodb.LeaderboardEntry.win_rate := score_win_rate agent_data;
         Dynamodb.LeaderboardEntry.total_pnl := total_pnl agent_data;
         Dynamodb.LeaderboardEntry.rank := rank;
         Dynamodb.LeaderboardEntry.period := period;
         Dynamodb.LeaderboardEntry.updated_at := now |}
      :: ranked_entries period now (rank + 1) rest
  end.

Definition periods : list string := ["all_time"; "weekly"; "daily"].

(** [lambda_handler]: returns the number of agents ranked. *)
Definition lambda_handler : M Z :=
  start_time <- datetime_now ;;
  agent_items <- scan_agents_with_trades ;;
  if negb (Py.truthy agent_items) then ret 0%Z
  else
    agent_scores <- for_fold agent_items []
      (fun agent_scores item =>
         entry <- score_agent item ;;
         ret (agent_scores ++ [entry])%list) ;;
    let agent_scores := sort_by_score agent_scores in
    now <- datetime_now ;;
    for_each periods
      (fun period =>
         DynamoDBClient.update_leaderboard
           (ranked_entries period now 1 agent_scores)) ;;
    end_time <- datetime_now ;;
    ret (Z.of_nat (length agent_scores)).

End LeaderboardUpdater.

(** ** Properties stated in the words of the specification *)

Module Spec.

(** The resolution-time buckets of the market filter. *)
Definition in_bucket (hours : Q) (bucket : string) : Prop :=
  (bucket = "same_day" /\ (hours <= 24)%Q)
  \/ (bucket = "next_day" /\ (24 < hours)%Q /\ (hours <= 48)%Q)
  \/ (bucket = "weekly" /\ (48 < hours)%Q /\ (hours <= 168)%Q).

Definition allowed_types (strategy : Strategy.t) : list string :=
  match Strategy.marketSelection strategy with
  | Some selection => Py.get (Strategy.types selection) []
  | None => []
  end.

Definition allowed_locations (strategy : Strategy.t) : list string :=
  match Strategy.marketSelection strategy with
  | Some selection => Py.get (Strategy.locations selection) []
  | None => []
  end.

Definition time_horizons (strategy : Strategy.t) : list string :=
  match Strategy.marketSelection strategy with
  | Some selection => Py.get (Strategy.timeHorizon selection) []
  | None => []
  end.

(** The hours from [now] until the market resolves; a datetime is a number
    of microseconds, an hour has 3600 x 1000000 of them. *)
Definition hours_ahead (now : Z) (market : WhetherApi.Market.t) : Q :=
  (inject_Z (WhetherApi.Market.resolution_time market - now)
   / inject_Z (3600 * 1000000))%Q.

(** A market passes the filter of a strategy at time [now]. *)
Definition passes (now : Z) (strategy : Strategy.t) (market : WhetherApi.Market.t)
  : Prop :=
  (allowed_types strategy = []
   \/ In (WhetherApi.MarketType_value (WhetherApi.Market.type market))
         (allowed_types strategy))
  /\ (allowed_locations strategy = []
      \/ In (WhetherApi.Location_value (WhetherApi.Market.location market))
            (allowed_locations strategy))
  /\ (time_horizons strategy <> [] ->
      exists bucket,
        In bucket (time_horizons strategy)
        /\ in_bucket (hours_ahead now market) bucket).

(** The maximum position size that a strategy configures: the
    maxPositionSize of its riskControls, and 0.20 when it configures none. *)
Definition configured_max (strategy : Strategy.t) : Q :=
  match Strategy.riskControls strategy with
  | Some risk_controls =>
      match Strategy.maxPositionSize risk_controls with
      | Some limit => limit
      | None => (20 # 100)%Q
      end
  | None => (20 # 100)%Q
  end.

(** [x] clamped to the interval from [lo] to [hi]. *)
Definition clamp (lo hi x : Q) : Q := Qmax lo (Qmin hi x).

(** How many elements of a list satisfy a test. *)
Fixpoint count {A} (test : A -> bool) (l : list A) : Z :=
  match l with
  | [] => 0
  | x :: rest => (if test x then 1 else 0) + count test rest
  end.

Definition annotated (p : Dynamodb.Prediction.t) : bool :=
  match Dynamodb.Prediction.was_correct p with Some _ => true | None => false end.

Definition marked_correct (p : Dynamodb.Prediction.t) : bool :=
  match Dynamodb.Prediction.was_correct p with Some true => true | _ => false end.

(** The fraction of the outcome-annotated predictions that are marked
    correct; 0 when no prediction is annotated. *)
Definition accuracy (predictions : list Dynamodb.Prediction.t) : Q :=
  if (count annotated predictions =? 0)%Z then 0%Q
  else (inject_Z (count marked_correct predictions)
        / inject_Z (count annotated predictions))%Q.

(** The fields and operators that [evaluate_entry_condition] dispatches on. *)
Definition evaluated_fields : list string :=
  ["edge"; "confidence"; "market_probability"; "forecast_probability"].

Definition evaluated_operators : list string :=
  ["gt"; "lt"; "gte"; "lte"; "eq"].

(** The queue records of a batch whose processing raises, each record
    processed in the state its predecessors left. *)
Fixpoint raised_records (env : Effects.Env)
    (records : list PositionExecutor.SqsRecord) (w : Effects.World)
  : list PositionExecutor.SqsRecord :=
  match records with
  | [] => []
  | record :: rest =>
      match PositionExecutor.process_record env record w with
      | (Effects.Ok _, w') => raised_records env rest w'
      | (Effects.Raised _, w') => record :: raised_records env rest w'
      end
  end.

(** The state after every record of a batch was processed in turn. *)
Fixpoint after_records (env : Effects.Env)
    (records : list PositionExecutor.SqsRecord) (w : Effects.World)
  : Effects.World :=
  match records with
  | [] => w
  | record :: rest =>
      after_records env rest (snd (PositionExecutor.process_record env record w))
  end.

(** The execution request carries every key that the executor subscripts. *)
Definition complete_message (message : Effects.Message) : Prop :=
  is_Some (Effects.agentId message)
  /\ is_Some (Effects.marketId message)
  /\ is_Some (Effects.direction message)
  /\ is_Some (Effects.size message)
  /\ is_Some (Effects.entryPrice message).

Import Effects.

(** What [process_position_message] does to a message in a state of the
    world: the result and the state it leaves, case by case. *)
Inductive executed (env : Env) (message : Message) (w : World)
  : result unit -> World -> Prop :=
| executed_malformed key :
    ~ complete_message message ->
    executed env message w (Raised (KeyError key)) w
| executed_unknown_agent agent_id :
    complete_message message ->
    agentId message = Some agent_id ->
    agents_table w !! agent_id = None ->
    executed env message w (Ok tt) w
| executed_inactive_agent agent_id agent :
    complete_message message ->
    agentId message = Some agent_id ->
    agents_table w !! agent_id = Some agent ->
    Dynamodb.Agent.status agent <> Dynamodb.ACTIVE ->
    executed env message w (Ok tt) w
| executed_refused agent_id agent order :
    complete_message message ->
    agentId message = Some agent_id ->
    agents_table w !! agent_id = Some agent ->
    Dynamodb.Agent.status agent = Dynamodb.ACTIVE ->
    paper_api_accepts env order w = false ->
    executed env message w (Raised (ServiceError "whether_api")) w
| executed_opened agent_id agent order position w' :
    complete_message message ->
    agentId message = Some agent_id ->
    agents_table w !! agent_id = Some agent ->
    Dynamodb.Agent.status agent = Dynamodb.ACTIVE ->
    paper_api_accepts env order w = true ->
    Some (WhetherApi.po_agent_id order) = agentId message ->
    Some (WhetherApi.po_market_id order) = marketId message ->
    Some (WhetherApi.po_direction order) = direction message ->
    Some (WhetherApi.po_amount order) = size message ->
    Some (Dynamodb.Position.agent_id position) = agentId message ->
    Some (Dynamodb.Position.market_id position) = marketId message ->
    Some (Dynamodb.Position.direction position) = direction message ->
    Some (Dynamodb.Position.size position) = size message ->
    Some (Dynamodb.Position.entry_price position) = entryPrice message ->
    Dynamodb.Position.status position = Dynamodb.OPEN ->
    paper_positions w' = (paper_positions w ++ [order])%list ->
    positions_table w'
    = <[Dynamodb.Position.position_id position := position]> (positions_table w) ->
    agents_table w' = agents_table w ->
    executed env message w (Ok tt) w'.


(** Queueing a position leaves a pending position record of the agent on
    the market in the positions table. *)
Definition queued_as_pending (agent : Dynamodb.Agent.t)
    (market : WhetherApi.Market.t) (prediction : Dynamodb.Prediction.t)
    (strategy : Strategy.t) (w : World) : Prop :=
  exists (key : string) (position : Dynamodb.Position.t),
    positions_table
      (snd (AgentOrchestrator.queue_position agent market prediction strategy w))
      !! key = Some position
    /\ Dynamodb.Position.status position = Dynamodb.PENDING
    /\ Dynamodb.Position.agent_id position = Dynamodb.Agent.agent_id agent
    /\ Dynamodb.Position.market_id position = WhetherApi.Market.id market.

(** The stored predictions of an agent on a market. *)
Definition predictions_of (agent_id market_id : string) (w : World)
  : list Dynamodb.Prediction.t :=
  List.filter
    (fun p => (Dynamodb.Prediction.agent_id p =? agent_id)
              && (Dynamodb.Prediction.market_id p =? market_id))
    (predictions_table w).

(** A prediction is fresh at a clock reading: less than one hour old. *)
Definition fresh (now : Z) (p : Dynamodb.Prediction.t) : Prop :=
  (now - Dynamodb.Prediction.created_at p < 3600 * 1000000)%Z.

(** A computation preserves a property of the state of the world,
    whether it returns or raises. *)
Definition preserves {A} (I : World -> Prop) (m : M A) : Prop :=
  forall w, I w -> I (snd (m w)).

(** A property of the positions table, as a property of the world. *)
Definition on_positions (P : gmap string Dynamodb.Position.t -> Prop)
  : World -> Prop :=
  fun w => P (positions_table w).

(** Every stored position record is open or closed. *)
Definition settled (table : gmap string Dynamodb.Position.t) : Prop :=
  forall key position,
    table !! key = Some position ->
    Dynamodb.Position.status position = Dynamodb.OPEN
    \/ Dynamodb.Position.status position = Dynamodb.CLOSED.

(** One invocation of the orchestrator, the executor (on any batch), the
    resolver or the leaderboard updater.  (The webhook and the synthesizer,
    which are not embedded, do not write position records.) *)
Inductive invocation (env : Env) : World -> World -> Prop :=
| invoke_orchestrator w :
    invocation env w (snd (AgentOrchestrator.lambda_handler env w))
| invoke_executor records w :
    invocation env w (snd (PositionExecutor.lambda_handler env records w))
| invoke_resolver w :
    invocation env w (snd (MarketResolver.lambda_handler env w))
| invoke_leaderboard w :
    invocation env w (snd (LeaderboardUpdater.lambda_handler w)).

(** The states that a sequence of invocations reaches from [w0]. *)
Inductive reachable (env : Env) (w0 : World) : World -> Prop :=
| reachable_start : reachable env w0 w0
| reachable_step w w' :
    reachable env w0 w -> invocation env w w' -> reachable env w0 w'.

End Spec.

(** ** Concrete inputs *)

Module Examples.
Import Effects.

Definition strategy : Strategy.t :=
  {| Strategy.strategyName := Some "Rain fade";
     Strategy.thesis := Some "Markets overprice rain in New York";
     Strategy.marketSelection :=
       Some {| Strategy.types := Some ["precipitation"];
               Strategy.locations := Some ["NYC"];
               Strategy.timeHorizon := Some ["same_day"; "next_day"] |};
     Strategy.entryConditions :=
       Some [ {| Strategy.field := Some "edge";
                 Strategy.operator := Some "gte";
                 Strategy.value := Some (Strategy.VNum (1 # 10)) |} ];
     Strategy.positionDirection := Some "dynamic";
     Strategy.positionSizing :=
       Some {| Strategy.baseSize := Some (5 # 100);
               Strategy.scalingRule := Some "kelly" |};
     Strategy.riskControls :=
       Some {| Strategy.minConfidence := Some "medium";
               Strategy.minEdge := Some (5 # 100);
               Strategy.maxPositionSize := Some (20 # 100);
               Strategy.maxDailyTrades := Some 10%Z |} |}.

Definition agent_with (status : Dynamodb.AgentStatus) : Dynamodb.Agent.t :=
  {| Dynamodb.Agent.agent_id := "agent-1";
     Dynamodb.Agent.user_id := "user-1";
     Dynamodb.Agent.telegram_chat_id := Py.Int 4242;
     Dynamodb.Agent.strategy_name := "Rain fade";
     Dynamodb.Agent.strategy_config := strategy;
     Dynamodb.Agent.status := status;
     Dynamodb.Agent.created_at := 0;
     Dynamodb.Agent.updated_at := 0;
     Dynamodb.Agent.total_trades := 4;
     Dynamodb.Agent.winning_trades := 3;
     Dynamodb.Agent.total_pnl := (25 # 100)%Q |}.

Definition agent : Dynamodb.Agent.t := agent_with Dynamodb.ACTIVE.

Definition hour : Z := 3600 * 1000000.

(** A rain market in New York that resolves twelve hours after the epoch. *)
Definition market_with (outcome : option string) : WhetherApi.Market.t :=
  {| WhetherApi.Market.id := "market-0";
     WhetherApi.Market.type := WhetherApi.PRECIPITATION;
     WhetherApi.Market.location := WhetherApi.NYC;
     WhetherApi.Market.question := "Rain in New York tomorrow?";
     WhetherApi.Market.yes_price := (40 # 100)%Q;
     WhetherApi.Market.no_price := (60 # 100)%Q;
     WhetherApi.Market.resolution_time := 12 * hour;
     WhetherApi.Market.outcome := outcome |}.

Definition market : WhetherApi.Market.t := market_with None.

Definition prediction : Dynamodb.Prediction.t :=
  {| Dynamodb.Prediction.prediction_id := "prediction-1";
     Dynamodb.Prediction.agent_id := "agent-1";
     Dynamodb.Prediction.market_id := "market-0";
     Dynamodb.Prediction.predicted_probability := (70 # 100)%Q;
     Dynamodb.Prediction.market_probability := (40 # 100)%Q;
     Dynamodb.Prediction.confidence := "high";
     Dynamodb.Prediction.edge := (30 # 100)%Q;
     Dynamodb.Prediction.reasoning := "A front arrives overnight";
     Dynamodb.Prediction.weather_factors := ["front"; "humidity"];
     Dynamodb.Prediction.recommended_direction := "YES";
     Dynamodb.Prediction.created_at := 0;
     Dynamodb.Prediction.was_correct := None;
     Dynamodb.Prediction.actual_outcome := None |}.

Definition analysis : Bedrock.Analysis :=
  {| Bedrock.predictedProbability := (70 # 100)%Q;
     Bedrock.confidence := "high";
     Bedrock.reasoning := "A front arrives overnight";
     Bedrock.weatherFactors := ["front"; "humidity"];
     Bedrock.recommendedDirection := "YES" |}.

(** Services that answer every call. *)
Definition env (markets : list WhetherApi.Market.t) : Env :=
  {| invoke_analysis := fun _ _ _ => Ok analysis;
     paper_api_accepts := fun _ _ => true;
     api_get_markets := fun _ _ => Ok markets;
     bot_client := fun _ => Ok tt;
     telegram_accepts := fun _ _ => true |}.

(** A market API that refuses the paper orders on one market. *)
Definition env_refusing (market_id : string) : Env :=
  {| invoke_analysis := fun _ _ _ => Ok analysis;
     paper_api_accepts :=
       fun order _ => negb (WhetherApi.po_market_id order =? market_id);
     api_get_markets := fun _ _ => Ok [];
     bot_client := fun _ => Ok tt;
     telegram_accepts := fun _ _ => true |}.

Definition world_with (agents : gmap string Dynamodb.Agent.t)
    (positions : gmap string Dynamodb.Position.t)
    (predictions : list Dynamodb.Prediction.t) (now : Z) : World :=
  {| agents_table := agents;
     positions_table := positions;
     predictions_table := predictions;
     leaderboard_table := ∅;
     position_queue := [];
     paper_positions := [];
     telegram := [];
     clock := now;
     uuid_counter := 0 |}.

(** One active agent, nothing else stored. *)
Definition world : World := world_with {[ "agent-1" := agent ]} ∅ [] 0.

Definition message : Message :=
  {| agentId := Some "agent-1";
     marketId := Some "market-0";
     direction := Some "YES";
     size := Some (3 # 100)%Q;
     entryPrice := Some (40 # 100)%Q;
     predictionId := Some "prediction-1";
     telegramChatId := Some (Py.Int 4242) |}.

Definition open_position : Dynamodb.Position.t :=
  {| Dynamodb.Position.position_id := "position-1";
     Dynamodb.Position.agent_id := "agent-1";
     Dynamodb.Position.market_id := "market-0";
     Dynamodb.Position.direction := "YES";
     Dynamodb.Position.size := (3 # 100)%Q;
     Dynamodb.Position.entry_price := (40 # 100)%Q;
     Dynamodb.Position.status := Dynamodb.OPEN;
     Dynamodb.Position.created_at := 0;
     Dynamodb.Position.updated_at := 0;
     Dynamodb.Position.exit_price := None;
     Dynamodb.Position.pnl := None;
     Dynamodb.Position.prediction_id := Some "prediction-1" |}.

(** The agent and one open position on the market. *)
Definition world_with_position : World :=
  world_with {[ "agent-1" := agent ]} {[ "position-1" := open_position ]} [] hour.

(** The rain market under another identifier. *)
Definition market_numbered (n : nat) : WhetherApi.Market.t :=
  {| WhetherApi.Market.id := "market-" ++ pretty n;
     WhetherApi.Market.type := WhetherApi.PRECIPITATION;
     WhetherApi.Market.location := WhetherApi.NYC;
     WhetherApi.Market.question := "Rain in New York tomorrow?";
     WhetherApi.Market.yes_price := (40 # 100)%Q;
     WhetherApi.Market.no_price := (60 # 100)%Q;
     WhetherApi.Market.resolution_time := 12 * hour;
     WhetherApi.Market.outcome := None |}.

(** The active markets market-0, market-1, ... *)
Definition markets (count : nat) : list WhetherApi.Market.t :=
  map market_numbered (seq 0 count).

(** The state after one orchestration cycle over [count] active markets,
    started from [world]. *)
Definition after_first_cycle (count : nat) : World :=
  snd (AgentOrchestrator.lambda_handler (env (markets count)) world).

(** The state after the next cycle over the same markets. *)
Definition after_second_cycle (count : nat) : World :=
  snd (AgentOrchestrator.lambda_handler (env (markets count))
         (after_first_cycle count)).

(** A batch of three requests; the second one is for a market on which the
    market API refuses orders. *)
Definition request_on (market_id : string) : Message :=
  {| agentId := Some "agent-1";
     marketId := Some market_id;
     direction := Some "YES";
     size := Some (3 # 100)%Q;
     entryPrice := Some (40 # 100)%Q;
     predictionId := None;
     telegramChatId := None |}.

Definition batch : list PositionExecutor.SqsRecord :=
  [ {| PositionExecutor.messageId := Some "m-1";
       PositionExecutor.body := Some (PositionExecutor.JsonObject (request_on "market-1")) |};
    {| PositionExecutor.messageId := Some "m-2";
       PositionExecutor.body := Some (PositionExecutor.JsonObject (request_on "market-2")) |};
    {| PositionExecutor.messageId := Some "m-3";
       PositionExecutor.body := Some (PositionExecutor.JsonObject (request_on "market-3")) |} ].

(** A strategy that only configures the sizing and the maximum. *)
Definition strategy_sized (base_size : Q) (scaling_rule : string)
    (max_position_size : Q) : Strategy.t :=
  {| Strategy.strategyName := None;
     Strategy.thesis := None;
     Strategy.marketSelection := None;
     Strategy.entryConditions := None;
     Strategy.positionDirection := None;
     Strategy.positionSizing :=
       Some {| Strategy.baseSize := Some base_size;
               Strategy.scalingRule := Some scaling_rule |};
     Strategy.riskControls :=
       Some {| Strategy.minConfidence := None;
               Strategy.minEdge := None;
               Strategy.maxPositionSize := Some max_position_size;
               Strategy.maxDailyTrades := None |} |}.

End Examples.

(** ** common/bedrock.py: [SynthesizedStrategy] *)

Module SynthesizedStrategy.
Import Effects.

Inductive ScalingRule := FIXED | CONFIDENCE_SCALED | EDGE_SCALED | KELLY.

Definition ScalingRule_value (r : ScalingRule) : string :=
  match r with
  | FIXED => "fixed" | CONFIDENCE_SCALED => "confidence_scaled"
  | EDGE_SCALED => "edge_scaled" | KELLY => "kelly"
  end.

(** [ScalingRule(s)] *)
Definition ScalingRule_of (s : string) : option ScalingRule :=
  if s =? "fixed" then Some FIXED
  else if s =? "confidence_scaled" then Some CONFIDENCE_SCALED
  else if s =? "edge_scaled" then Some EDGE_SCALED
  else if s =? "kelly" then Some KELLY
  else None.

Record MarketSelection := {
  types : list string;
  locations : list string;
  time_horizon : list string;
}.

Record EntryCondition := {
  field : string;
  operator : string;
  value : Strategy.Value;
}.

Record PositionSizing := {
  base_size : Q;
  scaling_rule : ScalingRule;
}.

Record RiskControls := {
  min_confidence : Bedrock.ConfidenceLevel;
  min_edge : Q;
  max_position_size : Q;
  max_daily_trades : Z;
}.

Record t := {
  strategy_name : string;
  thesis : string;
  market_selection : MarketSelection;
  entry_conditions : list EntryCondition;
  position_direction : Bedrock.PositionDirection;
  position_sizing : PositionSizing;
  risk_controls : RiskControls;
  raw_response : string;
}.

(** [to_dict] *)
Definition to_dict (self : t) : Strategy.t :=
  {| Strategy.strategyName := Some (strategy_name self);
     Strategy.thesis := Some (thesis self);
     Strategy.marketSelection :=
       Some {| Strategy.types := Some (types (market_selection self));
               Strategy.locations := Some (locations (market_selection self));
               Strategy.timeHorizon := Some (time_horizon (market_selection self)) |};
     Strategy.entryConditions :=
       Some (map (fun c => {| Strategy.field := Some (field c);
                              Strategy.operator := Some (operator c);
                              Strategy.value := Some (value c) |})
                 (entry_conditions self));
     Strategy.positionDirection :=
       Some (Bedrock.PositionDirection_value (position_direction self));
     Strategy.positionSizing :=
       Some {| Strategy.baseSize := Some (base_size (position_sizing self));
               Strategy.scalingRule :=
                 Some (ScalingRule_value (scaling_rule (position_sizing self))) |};
     Strategy.riskControls :=
       Some {| Strategy.minConfidence :=
                 Some (Bedrock.ConfidenceLevel_value
                         (min_confidence (risk_controls self)));
               Strategy.minEdge := Some (min_edge (risk_controls self));
               Strategy.maxPositionSize :=
                 Some (max_position_size (risk_controls self));
               Strategy.maxDailyTrades :=
                 Some (max_daily_trades (risk_controls self)) |} |}.

(** [d[key]] and [Enum(value)] without effects. *)
Definition item {A} (key : string) (entry : option A) : result A :=
  match entry with Some a => Ok a | None => Raised (KeyError key) end.

Definition member {A} (what : string) (entry : option A) : result A :=
  match entry with Some a => Ok a | None => Raised (ValueError what) end.

Definition and_then {A B} (r : result A) (k : A -> result B) : result B :=
  match r with Ok a => k a | Raised e => Raised e end.

(** The list comprehension over [data["entryConditions"]]. *)
Fixpoint entry_conditions_from (conditions : list Strategy.EntryCondition)
  : result (list EntryCondition) :=
  match conditions with
  | [] => Ok []
  | c :: rest =>
      and_then (item "field" (Strategy.field c)) (fun f =>
      and_then (item "operator" (Strategy.operator c)) (fun o =>
      and_then (item "value" (Strategy.value c)) (fun v =>
      and_then (entry_conditions_from rest) (fun rest =>
      Ok ({| field := f; operator := o; value := v |} :: rest)))))
  end.

(** [from_dict]: the keys are read in the order of the source; a missing
    key raises KeyError, a value outside an enumeration ValueError. *)
Definition from_dict (data : Strategy.t) (raw_response : string) : result t :=
  and_then (item "strategyName" (Strategy.strategyName data)) (fun strategy_name =>
  and_then (item "thesis" (Strategy.thesis data)) (fun thesis =>
  and_then (item "marketSelection" (Strategy.marketSelection data)) (fun selection =>
  and_then (item "types" (Strategy.types selection)) (fun types =>
  and_then (item "locations" (Strategy.locations selection)) (fun locations =>
  and_then (item "timeHorizon" (Strategy.timeHorizon selection)) (fun time_horizon =>
  and_then (item "entryConditions" (Strategy.entryConditions data)) (fun conditions =>
  and_then (entry_conditions_from conditions) (fun entry_conditions =>
  and_then (item "positionDirection" (Strategy.positionDirection data)) (fun direction =>
  and_then (member "PositionDirection" (Bedrock.PositionDirection_of direction))
    (fun position_direction =>
  and_then (item "positionSizing" (Strategy.positionSizing data)) (fun sizing =>
  and_then (item "baseSize" (Strategy.baseSize sizing)) (fun base_size =>
  and_then (item "scalingRule" (Strategy.scalingRule sizing)) (fun rule =>
  and_then (member "ScalingRule" (ScalingRule_of rule)) (fun scaling_rule =>
  and_then (item "riskControls" (Strategy.riskControls data)) (fun controls =>
  and_then (item "minConfidence" (Strategy.minConfidence controls)) (fun level =>
  and_then (member "ConfidenceLevel" (Bedrock.ConfidenceLevel_of level))
    (fun min_confidence =>
  and_then (item "minEdge" (Strategy.minEdge controls)) (fun min_edge =>
  Ok {| strategy_name := strategy_name;
        thesis := thesis;
        market_selection :=
          {| types := types; locations := locations;
             time_horizon := time_horizon |};
        entry_conditions := entry_conditions;
        position_direction := position_direction;
        position_sizing :=
          {| base_size := base_size; scaling_rule := scaling_rule |};
        risk_controls :=
          {| min_confidence := min_confidence;
             min_edge := min_edge;
             max_position_size :=
               Py.get (Strategy.maxPositionSize controls) (20 # 100)%Q;
             max_daily_trades :=
               Py.get (Strategy.maxDailyTrades controls) 10%Z |};
        raw_response := raw_response |})))))))))))))))))).

End SynthesizedStrategy.

(** ** bot_webhook/app.py: the handlers that write to the agents table

    The texts sent to the chat are left out; a handler returns the agent
    its answer is about, if any. *)

Module BotWebhook.
Import Effects.
Local Open Scope py_scope.

(** [get_bot()]: the bot client; the secrets lookup of its first call may
    raise. *)
Definition get_bot (env : Env) : M unit := ask (bot_client env).

(** [bot.send_message(chat_id, text)] outside a [try]: the call is made,
    and raises when the chat platform does not accept it. *)
Definition send_message (env : Env) (chat_id : Z) (text : string) : M unit :=
  let sent := Reply (Py.Int chat_id) text in
  modify (set_telegram (fun log => (log ++ [sent])%list)) ;;
  accepted <- gets (telegram_accepts env sent) ;;
  if (accepted : bool) then ret tt else raise (ServiceError "telegram").

(** [a.status == status] *)
Definition has_status (status : Dynamodb.AgentStatus) (a : Dynamodb.Agent.t)
  : bool :=
  Dynamodb.AgentStatus_value (Dynamodb.Agent.status a)
  =? Dynamodb.AgentStatus_value status.

(** [handle_pause_command] *)
Definition handle_pause_command (env : Env) (chat_id : Z) (user_id : string)
  : M unit :=
  get_bot env ;;
  agents <- DynamoDBClient.get_agents_by_user user_id ;;
  let active := List.filter (has_status Dynamodb.ACTIVE) agents in
  match active with
  | [] => send_message env chat_id "No active agents to pause."
  | agent :: _ =>
      DynamoDBClient.update_agent_status (Dynamodb.Agent.agent_id agent)
        Dynamodb.PAUSED ;;
      send_message env chat_id
        ("Agent '" ++ Dynamodb.Agent.strategy_name agent
         ++ "' has been paused. Use /resume to reactivate.")
  end.

(** [handle_resume_command] *)
Definition handle_resume_command (env : Env) (chat_id : Z) (user_id : string)
  : M unit :=
  get_bot env ;;
  agents <- DynamoDBClient.get_agents_by_user user_id ;;
  let paused := List.filter (has_status Dynamodb.PAUSED) agents in
  match paused with
  | [] => send_message env chat_id "No paused agents to resume."
  | agent :: _ =>
      DynamoDBClient.update_agent_status (Dynamodb.Agent.agent_id agent)
        Dynamodb.ACTIVE ;;
      send_message env chat_id
        ("Agent '" ++ Dynamodb.Agent.strategy_name agent
         ++ "' is now active and will resume trading.")
  end.

(** [handle_agent_callback], the actions that write: pause and resume.
    (The actions list, details and predictions read and reply; their
    replies are not embedded.) *)
Definition handle_agent_callback (env : Env) (chat_id : Z)
    (user_id action agent_id : string) : M unit :=
  get_bot env ;;
  if action =? "pause" then
    DynamoDBClient.update_agent_status agent_id Dynamodb.PAUSED ;;
    send_message env chat_id "Agent paused. Use /resume to reactivate."
  else if action =? "resume" then
    DynamoDBClient.update_agent_status agent_id Dynamodb.ACTIVE ;;
    send_message env chat_id "Agent resumed and will continue trading."
  else ret tt.

End BotWebhook.

(** ** Vocabulary of the further properties *)

Module Props.
Import Effects.

(** [p] is the prediction record built from a reply [a] of the hosted
    model for the agent and the market: the reply's confidence and
    direction are members of their enumerations, and the record carries
    the reply, the market price as a probability and the edge between the
    two. *)
Definition built_from (agent : Dynamodb.Agent.t) (market : WhetherApi.Market.t)
    (a : Bedrock.Analysis) (p : Dynamodb.Prediction.t) : Prop :=
  Dynamodb.Prediction.agent_id p = Dynamodb.Agent.agent_id agent
  /\ Dynamodb.Prediction.market_id p = WhetherApi.Market.id market
  /\ Dynamodb.Prediction.predicted_probability p = Bedrock.predictedProbability a
  /\ Dynamodb.Prediction.reasoning p = Bedrock.reasoning a
  /\ Dynamodb.Prediction.weather_factors p = Bedrock.weatherFactors a
  /\ (exists level,
        Bedrock.ConfidenceLevel_of (Bedrock.confidence a) = Some level
        /\ Dynamodb.Prediction.confidence p = Bedrock.ConfidenceLevel_value level)
  /\ (exists side,
        Bedrock.PositionDirection_of (Bedrock.recommendedDirection a) = Some side
        /\ Dynamodb.Prediction.recommended_direction p
           = Bedrock.PositionDirection_value side)
  /\ (Dynamodb.Prediction.market_probability p
      == WhetherApi.Market.yes_price market)%Q
  /\ (Dynamodb.Prediction.edge p
      == Qabs (Dynamodb.Prediction.predicted_probability p
               - Dynamodb.Prediction.market_probability p))%Q
  /\ Dynamodb.Prediction.was_correct p = None
  /\ Dynamodb.Prediction.actual_outcome p = None.

(** The direction of the request queued for a prediction: the strategy's
    positionDirection when it is YES or NO, else the recommendation. *)
Definition request_direction (strategy : Strategy.t)
    (p : Dynamodb.Prediction.t) : string :=
  match Strategy.positionDirection strategy with
  | Some "YES" => "YES"
  | Some "NO" => "NO"
  | _ => Dynamodb.Prediction.recommended_direction p
  end.

(** [m] is the execution request of the agent on the market for the
    prediction [p]. *)
Definition request_for (agent : Dynamodb.Agent.t) (market : WhetherApi.Market.t)
    (strategy : Strategy.t) (p : Dynamodb.Prediction.t) (m : Message) : Prop :=
  agentId m = Some (Dynamodb.Agent.agent_id agent)
  /\ marketId m = Some (WhetherApi.Market.id market)
  /\ direction m = Some (request_direction strategy p)
  /\ size m = Some (AgentOrchestrator.calculate_position_size p strategy agent)
  /\ entryPrice m
     = Some (if request_direction strategy p =? "YES"
             then WhetherApi.Market.yes_price market
             else WhetherApi.Market.no_price market)
  /\ predictionId m = Some (Dynamodb.Prediction.prediction_id p)
  /\ telegramChatId m = Some (Dynamodb.Agent.telegram_chat_id agent).

(** The tables and services that an analysis step does not touch. *)
Definition same_elsewhere (w w' : World) : Prop :=
  agents_table w' = agents_table w
  /\ positions_table w' = positions_table w
  /\ leaderboard_table w' = leaderboard_table w
  /\ paper_positions w' = paper_positions w.

(** What an analysis run of the agent over the markets [ms] appended:
    [stored] to the predictions table and [queued] to the execution queue.
    Every stored prediction was built from a reply of the model on one of
    the markets, and is followed by a request when [should_open_position]
    answers True for it and the agent's chat identifier can be serialised;
    every request is the request for a stored prediction for which it
    answered True. *)
Definition analysed (env : Env) (agent : Dynamodb.Agent.t)
    (strategy : Strategy.t) (ms : list WhetherApi.Market.t)
    (stored : list Dynamodb.Prediction.t) (queued : list Message) : Prop :=
  Forall (fun p =>
            exists market,
              In market ms
              /\ (exists w0 a,
                    invoke_analysis env agent market w0 = Ok a
                    /\ built_from agent market a p)
              /\ (AgentOrchestrator.should_open_position p strategy = Ok true ->
                  Py.json_serializable (Dynamodb.Agent.telegram_chat_id agent)
                  = true ->
                  exists m, In m queued /\ request_for agent market strategy p m))
         stored
  /\ Forall (fun m =>
               exists market p,
                 In market ms /\ In p stored
                 /\ AgentOrchestrator.should_open_position p strategy = Ok true
                 /\ request_for agent market strategy p m)
            queued
  /\ (queued <> [] ->
      Py.json_serializable (Dynamodb.Agent.telegram_chat_id agent) = true).

(** The notification that [process_agent] sends after a run. *)
Definition agent_update (agent : Dynamodb.Agent.t)
    (stored : list Dynamodb.Prediction.t) (queued : list Message)
  : list Notification :=
  match queued with
  | [] => []
  | _ :: _ =>
      [AgentUpdate (Dynamodb.Agent.telegram_chat_id agent)
                   (Dynamodb.Agent.strategy_name agent)
                   (Z.of_nat (length queued)) (Z.of_nat (length stored))]
  end.

(** The agent is stored with status active. *)
Definition active_in (w : World) (agent : Dynamodb.Agent.t) : Prop :=
  exists key,
    agents_table w !! key = Some agent
    /\ Dynamodb.Agent.status agent = Dynamodb.ACTIVE.

(** A reply of the model that [analyze_market] accepts: its confidence and
    its recommended direction are members of their enumerations. *)
Definition valid_reply (a : Bedrock.Analysis) : Prop :=
  is_Some (Bedrock.ConfidenceLevel_of (Bedrock.confidence a))
  /\ is_Some (Bedrock.PositionDirection_of (Bedrock.recommendedDirection a)).

(** The position record that the executor stores for a request in a state
    of the world, and the paper order it registers. *)
Definition opened_position (agent_id market_id direction : string)
    (size entry_price : Q) (prediction_id : option string) (w : World)
  : Dynamodb.Position.t :=
  {| Dynamodb.Position.position_id := "uuid-" ++ pretty (uuid_counter w);
     Dynamodb.Position.agent_id := agent_id;
     Dynamodb.Position.market_id := market_id;
     Dynamodb.Position.direction := direction;
     Dynamodb.Position.size := size;
     Dynamodb.Position.entry_price := entry_price;
     Dynamodb.Position.status := Dynamodb.OPEN;
     Dynamodb.Position.created_at := clock w;
     Dynamodb.Position.updated_at := clock w;
     Dynamodb.Position.exit_price := None;
     Dynamodb.Position.pnl := None;
     Dynamodb.Position.prediction_id := prediction_id |}.

Definition paper_order (agent_id market_id direction : string) (size : Q)
  : WhetherApi.PaperOrder :=
  {| WhetherApi.po_agent_id := agent_id;
     WhetherApi.po_market_id := market_id;
     WhetherApi.po_direction := direction;
     WhetherApi.po_amount := size |}.

(** The notification of an opened position: sent when the request carries
    a chat identifier other than 0. *)
Definition opened_notification (chat : option Py.number)
    (strategy_name market_id direction : string) (size entry_price : Q)
  : list Notification :=
  match chat with
  | Some chat_id =>
      if negb (Py.nonzero chat_id) then []
      else [PositionOpened chat_id strategy_name market_id direction
                           size entry_price]
  | None => []
  end.

(** The closed positions of an agent, as stored. *)
Definition closed_positions (agent_id : string) (w : World)
  : list Dynamodb.Position.t :=
  List.filter
    (fun p => (Dynamodb.Position.agent_id p =? agent_id)
              && Dynamodb.PositionStatus_eqb (Dynamodb.Position.status p)
                                             Dynamodb.CLOSED)
    (map snd (map_to_list (positions_table w))).

(** The position made a profit. *)
Definition profitable (p : Dynamodb.Position.t) : bool :=
  match Dynamodb.Position.pnl p with
  | Some pnl => Py.Qlt_bool 0 pnl
  | None => false
  end.

(** The sum of the recorded profits and losses of a list of positions. *)
Definition sum_pnl (positions : list Dynamodb.Position.t) : Q :=
  fold_right Qplus 0%Q
    (map (fun p => Py.get (Dynamodb.Position.pnl p) 0%Q) positions).

(** [p'] is the record [p] as [resolve_position] closes it against the
    market (at the time [updated_at p']). *)
Definition closed_as (market : WhetherApi.Market.t)
    (p p' : Dynamodb.Position.t) : Prop :=
  p' = DynamoDBClient.Position_updated Dynamodb.CLOSED
         (Some (MarketResolver.position_exit_price
                  (Dynamodb.Position.direction p)
                  (WhetherApi.Market.outcome market)))
         (Some (MarketResolver.position_pnl
                  (Dynamodb.Position.direction p)
                  (WhetherApi.Market.outcome market)
                  (Dynamodb.Position.size p)
                  (Dynamodb.Position.entry_price p)))
         (Dynamodb.Position.updated_at p') p.

(** The position is an open position on the market. *)
Definition open_on (market_id : string) (p : Dynamodb.Position.t) : bool :=
  (Dynamodb.Position.market_id p =? market_id)
  && (Dynamodb.PositionStatus_value (Dynamodb.Position.status p)
      =? Dynamodb.PositionStatus_value Dynamodb.OPEN).

(** Every position record is stored under its own identifier. *)
Definition keyed_by_id (table : gmap string Dynamodb.Position.t) : Prop :=
  forall key p, table !! key = Some p -> Dynamodb.Position.position_id p = key.

(** The table after some of the positions of the snapshot [T0] were
    resolved against the market: the records under the keys [ids] are
    closed, the others are as they were. *)
Definition resolved_under (market : WhetherApi.Market.t)
    (T0 T : gmap string Dynamodb.Position.t) (ids : list string) : Prop :=
  forall key,
    match T0 !! key with
    | None => T !! key = None
    | Some p =>
        (~ In key ids -> T !! key = Some p)
        /\ (In key ids -> exists p', T !! key = Some p' /\ closed_as market p p')
    end.

(** The prediction has no outcome yet and is on the market. *)
Definition unmarked_on (market_id : string) (p : Dynamodb.Prediction.t) : bool :=
  (Dynamodb.Prediction.market_id p =? market_id)
  && match Dynamodb.Prediction.was_correct p with
     | None => true
     | Some _ => false
     end.

(** The prediction record after the resolver went over the market: a
    prediction on the market without outcome is marked correct when its
    recommended direction is the market's outcome, and incorrect otherwise;
    any other record is as it was. *)
Definition marked_against (market : WhetherApi.Market.t)
    (p : Dynamodb.Prediction.t) : Dynamodb.Prediction.t :=
  if unmarked_on (WhetherApi.Market.id market) p
  then DynamoDBClient.Prediction_with_outcome
         (MarketResolver.outcome_is (WhetherApi.Market.outcome market)
            (Dynamodb.Prediction.recommended_direction p))
         (WhetherApi.Market.outcome market) p
  else p.

(** The same, for the predictions whose identifier is in [ids]. *)
Definition marked_under (market : WhetherApi.Market.t) (ids : list string)
    (p : Dynamodb.Prediction.t) : Dynamodb.Prediction.t :=
  if Py.str_in (Dynamodb.Prediction.prediction_id p) ids
  then DynamoDBClient.Prediction_with_outcome
         (MarketResolver.outcome_is (WhetherApi.Market.outcome market)
            (Dynamodb.Prediction.recommended_direction p))
         (WhetherApi.Market.outcome market) p
  else p.

(** The test of the resolver's loop on a scanned prediction item:
    [prediction_item.get("wasCorrect") is None]. *)
Definition unmarked (p : Dynamodb.Prediction.t) : bool :=
  match Dynamodb.Prediction.was_correct p with
  | None => true
  | Some _ => false
  end.

(** The open positions on a market, as the resolver scans them. *)
Definition open_positions (market_id : string) (w : World)
  : list Dynamodb.Position.t :=
  List.filter (open_on market_id) (map snd (map_to_list (positions_table w))).

(** Nothing is left to resolve on the market: no position is open on it
    and every prediction on it has an outcome. *)
Definition settled_on (market_id : string) (w : World) : Prop :=
  open_positions market_id w = []
  /\ List.filter (unmarked_on market_id) (predictions_table w) = [].

(** A list of scored agents in descending order of score. *)
Fixpoint descending (l : list LeaderboardUpdater.AgentScore) : Prop :=
  match l with
  | [] => True
  | x :: rest =>
      Forall (fun y => (LeaderboardUpdater.score y <= LeaderboardUpdater.score x)%Q)
             rest
      /\ descending rest
  end.

(** The scored agents whose score equals [s], in list order. *)
Definition with_score (s : Q) (l : list LeaderboardUpdater.AgentScore)
  : list LeaderboardUpdater.AgentScore :=
  List.filter (fun x => Qeq_bool (LeaderboardUpdater.score x) s) l.

(** Two states of the world that differ at most in the leaderboard. *)
Definition same_but_leaderboard (w w' : World) : Prop :=
  agents_table w' = agents_table w
  /\ positions_table w' = positions_table w
  /\ predictions_table w' = predictions_table w
  /\ position_queue w' = position_queue w
  /\ paper_positions w' = paper_positions w
  /\ telegram w' = telegram w.

(** A list of predictions from the latest to the earliest. *)
Fixpoint newest_first (l : list Dynamodb.Prediction.t) : Prop :=
  match l with
  | [] => True
  | x :: rest =>
      Forall (fun y => (Dynamodb.Prediction.created_at y
                        <= Dynamodb.Prediction.created_at x)%Z) rest
      /\ newest_first rest
  end.

(** The stored predictions of an agent. *)
Definition predictions_by (agent_id : string) (w : World)
  : list Dynamodb.Prediction.t :=
  List.filter (fun p => Dynamodb.Prediction.agent_id p =? agent_id)
              (predictions_table w).

(** Every agent record is stored under its own identifier. *)
Definition agents_keyed_by_id (table : gmap string Dynamodb.Agent.t) : Prop :=
  forall key agent, table !! key = Some agent ->
                    Dynamodb.Agent.agent_id agent = key.

(** A list of agents from the earliest created to the latest. *)
Fixpoint oldest_first (l : list Dynamodb.Agent.t) : Prop :=
  match l with
  | [] => True
  | x :: rest =>
      Forall (fun y => (Dynamodb.Agent.created_at x
                        <= Dynamodb.Agent.created_at y)%Z) rest
      /\ oldest_first rest
  end.

End Props.

(** ** Further concrete inputs *)

Module Cases.
Import Effects.

(** A model endpoint that fails on every call. *)
Definition env_failing (markets : list WhetherApi.Market.t) : Env :=
  {| invoke_analysis := fun _ _ _ => Raised (ServiceError "bedrock");
     paper_api_accepts := fun _ _ => true;
     api_get_markets := fun _ _ => Ok markets;
     bot_client := fun _ => Ok tt;
     telegram_accepts := fun _ _ => true |}.

(** A chat platform that is down: it refuses every message. *)
Definition env_chat_down : Env :=
  {| invoke_analysis := fun _ _ _ => Ok Examples.analysis;
     paper_api_accepts := fun _ _ => true;
     api_get_markets := fun _ _ => Ok [];
     bot_client := fun _ => Ok tt;
     telegram_accepts := fun _ _ => false |}.

(** An execution request without the key size, for an agent that is not
    stored, and its queue record. *)
Definition request_without_size : Message :=
  {| agentId := Some "agent-9";
     marketId := Some "market-0";
     direction := Some "YES";
     size := None;
     entryPrice := Some (40 # 100)%Q;
     predictionId := None;
     telegramChatId := None |}.

Definition record_without_size : PositionExecutor.SqsRecord :=
  {| PositionExecutor.messageId := Some "m-9";
     PositionExecutor.body :=
       Some (PositionExecutor.JsonObject request_without_size) |}.

(** A queue record without a body. *)
Definition record_without_body : PositionExecutor.SqsRecord :=
  {| PositionExecutor.messageId := Some "m-0";
     PositionExecutor.body := None |}.

(** The counters at the start of a run of the resolver. *)
Definition no_counters : MarketResolver.Counters :=
  {| MarketResolver.positions_updated := 0;
     MarketResolver.predictions_updated := 0;
     MarketResolver.agents_updated := ∅ |}.

(** The agent, its open position and its prediction on the market. *)
Definition world_to_resolve : World :=
  Examples.world_with {[ "agent-1" := Examples.agent ]}
    {[ "position-1" := Examples.open_position ]} [Examples.prediction]
    Examples.hour.

(** The strategy of the examples as the synthesizer holds it. *)
Definition synthesized : SynthesizedStrategy.t :=
  {| SynthesizedStrategy.strategy_name := "Rain fade";
     SynthesizedStrategy.thesis := "Markets overprice rain in New York";
     SynthesizedStrategy.market_selection :=
       {| SynthesizedStrategy.types := ["precipitation"];
          SynthesizedStrategy.locations := ["NYC"];
          SynthesizedStrategy.time_horizon := ["same_day"; "next_day"] |};
     SynthesizedStrategy.entry_conditions :=
       [ {| SynthesizedStrategy.field := "edge";
            SynthesizedStrategy.operator := "gte";
            SynthesizedStrategy.value := Strategy.VNum (1 # 10) |} ];
     SynthesizedStrategy.position_direction := Bedrock.DYNAMIC;
     SynthesizedStrategy.position_sizing :=
       {| SynthesizedStrategy.base_size := (5 # 100)%Q;
          SynthesizedStrategy.scaling_rule := SynthesizedStrategy.KELLY |};
     SynthesizedStrategy.risk_controls :=
       {| SynthesizedStrategy.min_confidence := Bedrock.MEDIUM;
          SynthesizedStrategy.min_edge := (5 # 100)%Q;
          SynthesizedStrategy.max_position_size := (20 # 100)%Q;
          SynthesizedStrategy.max_daily_trades := 10%Z |};
     SynthesizedStrategy.raw_response := "{...}" |}.

(** A user with two active agents; the second was created first. *)
Definition agent_created (agent_id : string) (created_at : Z) : Dynamodb.Agent.t :=
  {| Dynamodb.Agent.agent_id := agent_id;
     Dynamodb.Agent.user_id := "user-1";
     Dynamodb.Agent.telegram_chat_id := Py.Int 4242;
     Dynamodb.Agent.strategy_name := "Rain fade";
     Dynamodb.Agent.strategy_config := Examples.strategy;
     Dynamodb.Agent.status := Dynamodb.ACTIVE;
     Dynamodb.Agent.created_at := created_at;
     Dynamodb.Agent.updated_at := created_at;
     Dynamodb.Agent.total_trades := 0;
     Dynamodb.Agent.winning_trades := 0;
     Dynamodb.Agent.total_pnl := 0 |}.

Definition world_two_agents : World :=
  Examples.world_with
    {[ "agent-a" := agent_created "agent-a" 20;
       "agent-b" := agent_created "agent-b" 10 ]} ∅ [] 30.

(** A strategy whose entry condition orders the edge against a text. *)
Definition strategy_comparing_text : Strategy.t :=
  Strategy.with_entryConditions
    [ {| Strategy.field := Some "edge";
         Strategy.operator := Some "gt";
         Strategy.value := Some (Strategy.VStr "high") |} ]
    Examples.strategy.

End Cases.

(** * Properties of the embedded code *)

Local Open Scope list_scope.

(** ** Python's [min] and [max] *)

Section PyLemmas.
Local Open Scope Q_scope.

Lemma Qlt_bool_iff (a b : Q) : Py.Qlt_bool a b = true <-> a < b.
Proof.
  unfold Py.Qlt_bool. rewrite negb_true_iff.
  destruct (Qle_bool b a) eqn:E.
  - apply Qle_bool_iff in E. split; [discriminate | intros H; lra].
  - split; [intros _ | reflexivity].
    destruct (Qlt_le_dec a b) as [H | H]; [exact H |].
    apply Qle_bool_iff in H. congruence.
Qed.

Lemma Qlt_bool_false_iff (a b : Q) : Py.Qlt_bool a b = false <-> b <= a.
Proof.
  unfold Py.Qlt_bool. rewrite negb_false_iff. apply Qle_bool_iff.
Qed.

Lemma py_min_le_r (a b : Q) : Py.min a b <= b.
Proof.
  unfold Py.min. destruct (Py.Qlt_bool b a) eqn:E.
  - lra.
  - apply Qlt_bool_false_iff in E. exact E.
Qed.

Lemma py_min_le_l (a b : Q) : Py.min a b <= a.
Proof.
  unfold Py.min. destruct (Py.Qlt_bool b a) eqn:E.
  - apply Qlt_bool_iff in E. lra.
  - lra.
Qed.

Lemma py_min_Qmin (a b : Q) : Py.min a b == Qmin a b.
Proof.
  unfold Py.min. destruct (Py.Qlt_bool b a) eqn:E.
  - apply Qlt_bool_iff in E. rewrite Q.min_r; lra.
  - apply Qlt_bool_false_iff in E. rewrite Q.min_l; lra.
Qed.

Lemma py_max_Qmax (a b : Q) : Py.max a b == Qmax a b.
Proof.
  unfold Py.max. destruct (Py.Qlt_bool a b) eqn:E.
  - apply Qlt_bool_iff in E. rewrite Q.max_r; lra.
  - apply Qlt_bool_false_iff in E. rewrite Q.max_l; lra.
Qed.

Lemma py_min_mono_l (a a' b : Q) : a <= a' -> Py.min a b <= Py.min a' b.
Proof.
  intros H. rewrite !py_min_Qmin.
  apply Q.min_le_compat_r. exact H.
Qed.

End PyLemmas.

(** ** Position sizing *)

Section PositionSizing.
Local Open Scope Q_scope.

(** [max_position] is the configured maxPositionSize when there is one. *)
Lemma max_position_configured (strategy : Strategy.t)
    (risk_controls : Strategy.RiskControls) (limit : Q) :
  Strategy.riskControls strategy = Some risk_controls ->
  Strategy.maxPositionSize risk_controls = Some limit ->
  AgentOrchestrator.max_position strategy = limit.
Proof.
  intros H1 H2. unfold AgentOrchestrator.max_position. rewrite H1. simpl.
  rewrite H2. reflexivity.
Qed.

(** The local [max_position] is the maximum that the strategy configures. *)
Lemma max_position_spec (strategy : Strategy.t) :
  AgentOrchestrator.max_position strategy = Spec.configured_max strategy.
Proof.
  unfold AgentOrchestrator.max_position, Spec.configured_max.
  destruct (Strategy.riskControls strategy) as [risk_controls |]; simpl.
  - destruct (Strategy.maxPositionSize risk_controls); reflexivity.
  - reflexivity.
Qed.

(** The last line of [calculate_position_size]: [min(size, max_position)]. *)
Lemma calculate_position_size_le_max_position
    (prediction : Dynamodb.Prediction.t) (strategy : Strategy.t)
    (agent : Dynamodb.Agent.t) :
  AgentOrchestrator.calculate_position_size prediction strategy agent
  <= AgentOrchestrator.max_position strategy.
Proof.
  unfold AgentOrchestrator.calculate_position_size.
  apply py_min_le_r.
Qed.

(** C2. For every prediction, strategy and agent, the size returned by
    [calculate_position_size] is at most the strategy's maxPositionSize
    (0.20 when the strategy configures none), whichever scaling rule the
    strategy names: fixed, confidence_scaled, edge_scaled or kelly. *)
Theorem calculate_position_size_le_max
    (prediction : Dynamodb.Prediction.t) (strategy : Strategy.t)
    (agent : Dynamodb.Agent.t) :
  (forall (risk_controls : Strategy.RiskControls) (limit : Q),
     Strategy.riskControls strategy = Some risk_controls ->
     Strategy.maxPositionSize risk_controls = Some limit ->
     AgentOrchestrator.calculate_position_size prediction strategy agent
     <= limit)
  /\ AgentOrchestrator.calculate_position_size prediction strategy agent
     <= Spec.configured_max strategy.
Proof.
  split.
  - intros risk_controls limit Hr Hl.
    rewrite <- (max_position_configured strategy risk_controls limit Hr Hl).
    apply calculate_position_size_le_max_position.
  - rewrite <- max_position_spec.
    apply calculate_position_size_le_max_position.
Qed.

(** The four rules on the prediction of the examples (probability 0.70,
    edge 0.30, confidence high), base size 0.15: the maximum of 0.20 cuts
    the scaled sizes, and leaves the smaller ones. *)
Example sizes_of_the_four_rules :
  AgentOrchestrator.calculate_position_size Examples.prediction
    (Examples.strategy_sized (15 # 100) "fixed" (20 # 100)) Examples.agent
  == 15 # 100
  /\ AgentOrchestrator.calculate_position_size Examples.prediction
       (Examples.strategy_sized (15 # 100) "confidence_scaled" (20 # 100))
       Examples.agent
     == 20 # 100
  /\ AgentOrchestrator.calculate_position_size Examples.prediction
       (Examples.strategy_sized (15 # 100) "edge_scaled" (20 # 100))
       Examples.agent
     == 20 # 100
  /\ AgentOrchestrator.calculate_position_size Examples.prediction
       (Examples.strategy_sized (15 # 100) "kelly" (20 # 100)) Examples.agent
     == 3 # 100.
Proof. vm_compute. repeat split. Qed.

End PositionSizing.

(** ** Entry conditions *)

Section EntryConditions.
Import Effects.

Lemma str_in_In (x : string) (xs : list string) :
  Py.str_in x xs = true <-> In x xs.
Proof.
  unfold Py.str_in. rewrite existsb_exists. split.
  - intros [y [Hy E]]. apply String.eqb_eq in E. subst. exact Hy.
  - intros H. exists x. split; [exact H | apply String.eqb_refl].
Qed.

Lemma str_in_not_In (x : string) (xs : list string) :
  Py.str_in x xs = false <-> ~ In x xs.
Proof.
  rewrite <- str_in_In. destruct (Py.str_in x xs); split; congruence.
Qed.

Lemma truthy_nonempty {A} (xs : list A) : Py.truthy xs = true <-> xs <> [].
Proof. destruct xs; simpl; split; congruence. Qed.

Lemma truthy_empty {A} (xs : list A) : Py.truthy xs = false <-> xs = [].
Proof. destruct xs; simpl; split; congruence. Qed.

(** An operator outside the dispatch falls through to [return True]. *)
Lemma evaluate_operator_unknown (operator : string) (actual : Q)
    (value : option Strategy.Value) :
  ~ In operator Spec.evaluated_operators ->
  AgentOrchestrator.evaluate_operator operator actual value = Ok true.
Proof.
  intros H. unfold AgentOrchestrator.evaluate_operator.
  repeat match goal with
  | |- context [String.eqb operator ?s] =>
      destruct (String.eqb_spec operator s) as [-> | _];
      [exfalso; apply H; simpl; tauto |]
  end.
  reflexivity.
Qed.

(** A condition that evaluates to true can be dropped from the list. *)
Lemma check_entry_conditions_drop (condition : Strategy.EntryCondition)
    (prediction : Dynamodb.Prediction.t)
    (before after : list Strategy.EntryCondition) :
  AgentOrchestrator.evaluate_entry_condition condition prediction = Ok true ->
  AgentOrchestrator.check_entry_conditions (before ++ condition :: after) prediction
  = AgentOrchestrator.check_entry_conditions (before ++ after) prediction.
Proof.
  intros H. induction before as [| c before IH]; simpl.
  - rewrite H. reflexivity.
  - destruct (AgentOrchestrator.evaluate_entry_condition c prediction) as [[|] | e];
      [exact IH | reflexivity | reflexivity].
Qed.

(** C10. A condition whose field is none of edge, confidence,
    market_probability, forecast_probability, or whose operator is none of
    gt, lt, gte, lte, eq (an absent key reads as the empty string), is
    evaluated to true by [evaluate_entry_condition]; so
    [should_open_position] decides as if the condition were not in the
    strategy.  The operator "between" and the fields temperature_delta and
    precipitation_chance of the synthesis prompt are such operators and
    fields. *)
Theorem unevaluated_condition_is_true
    (condition : Strategy.EntryCondition) (prediction : Dynamodb.Prediction.t) :
  ~ In (Py.get (Strategy.field condition) "") Spec.evaluated_fields
  \/ ~ In (Py.get (Strategy.operator condition) "") Spec.evaluated_operators ->
  AgentOrchestrator.evaluate_entry_condition condition prediction = Ok true
  /\ forall (strategy : Strategy.t) (before after : list Strategy.EntryCondition),
       Strategy.entryConditions strategy = Some (before ++ condition :: after) ->
       AgentOrchestrator.should_open_position prediction strategy
       = AgentOrchestrator.should_open_position prediction
           (Strategy.with_entryConditions (before ++ after) strategy).
Proof.
  intros H.
  assert (E : AgentOrchestrator.evaluate_entry_condition condition prediction
              = Ok true).
  { unfold AgentOrchestrator.evaluate_entry_condition.
    destruct H as [Hf | Ho].
    - repeat match goal with
      | |- context [String.eqb (Py.get (Strategy.field condition) "") ?s] =>
          destruct (String.eqb_spec (Py.get (Strategy.field condition) "") s)
            as [Heq | _];
          [exfalso; apply Hf; rewrite Heq; simpl; tauto |]
      end.
      reflexivity.
    - repeat match goal with
      | |- context [if ?b then _ else _] =>
          match b with
          | String.eqb (Py.get (Strategy.field condition) "") _ => destruct b
          end
      end;
      try apply evaluate_operator_unknown; try exact Ho; reflexivity. }
  split; [exact E |].
  intros strategy before after Hc.
  unfold AgentOrchestrator.should_open_position. simpl.
  rewrite Hc. simpl.
  rewrite (check_entry_conditions_drop _ _ _ _ E). reflexivity.
Qed.

(** The prompt's "between", temperature_delta and precipitation_chance. *)
Lemma unevaluated_condition_is_true_witness :
  (~ In "temperature_delta" Spec.evaluated_fields
   \/ ~ In "between" Spec.evaluated_operators)
  /\ AgentOrchestrator.evaluate_entry_condition
       {| Strategy.field := Some "temperature_delta";
          Strategy.operator := Some "between";
          Strategy.value := Some (Strategy.VStr "5,10") |}
       Examples.prediction = Ok true.
Proof.
  assert (H : ~ In "temperature_delta" Spec.evaluated_fields
              \/ ~ In "between" Spec.evaluated_operators).
  { left. simpl. intros [H | [H | [H | [H | []]]]]; discriminate H. }
  split; [exact H |].
  exact (proj1 (unevaluated_condition_is_true
                  {| Strategy.field := Some "temperature_delta";
                     Strategy.operator := Some "between";
                     Strategy.value := Some (Strategy.VStr "5,10") |}
                  Examples.prediction H)).
Defined.

End EntryConditions.

(** ** Market filtering *)

Section MarketFilter.
Import Effects.
Local Open Scope Q_scope.

Variables allowed_types allowed_locations time_horizons : list string.
Variable now : Z.

(** The loop keeps what it had and appends the markets that reach the
    [append], in order. *)
Lemma filter_loop_filter (markets filtered : list WhetherApi.Market.t) :
  AgentOrchestrator.filter_loop allowed_types allowed_locations time_horizons
    now markets filtered
  = filtered
    ++ List.filter
         (AgentOrchestrator.reaches_append allowed_types allowed_locations
            time_horizons now)
         markets.
Proof.
  revert filtered. induction markets as [| m markets IH]; intros filtered; simpl.
  - rewrite app_nil_r. reflexivity.
  - rewrite IH.
    destruct (AgentOrchestrator.reaches_append _ _ _ _ m).
    + rewrite <- app_assoc. reflexivity.
    + reflexivity.
Qed.

(** The time-horizon test of one iteration, as the buckets of the spec. *)
Lemma horizon_test_bucket (hours : Q) :
  (if Py.str_in "same_day" time_horizons && Qle_bool hours 24 then true
   else if Py.str_in "next_day" time_horizons
           && (Py.Qlt_bool 24 hours && Qle_bool hours 48) then true
   else if Py.str_in "weekly" time_horizons
           && (Py.Qlt_bool 48 hours && Qle_bool hours 168) then true
   else false) = true
  <-> exists bucket, In bucket time_horizons /\ Spec.in_bucket hours bucket.
Proof.
  split.
  - intros H.
    destruct (Py.str_in "same_day" time_horizons && Qle_bool hours 24)%bool eqn:E1.
    { apply andb_true_iff in E1 as [Hin Hle].
      exists "same_day"%string. split; [apply str_in_In, Hin |].
      left. split; [reflexivity | apply Qle_bool_iff, Hle]. }
    destruct (Py.str_in "next_day" time_horizons
              && (Py.Qlt_bool 24 hours && Qle_bool hours 48))%bool eqn:E2.
    { apply andb_true_iff in E2 as [Hin Hb].
      apply andb_true_iff in Hb as [Hlt Hle].
      exists "next_day"%string. split; [apply str_in_In, Hin |].
      right; left. repeat split;
        [apply Qlt_bool_iff, Hlt | apply Qle_bool_iff, Hle]. }
    destruct (Py.str_in "weekly" time_horizons
              && (Py.Qlt_bool 48 hours && Qle_bool hours 168))%bool eqn:E3.
    { apply andb_true_iff in E3 as [Hin Hb].
      apply andb_true_iff in Hb as [Hlt Hle].
      exists "weekly"%string. split; [apply str_in_In, Hin |].
      right; right. repeat split;
        [apply Qlt_bool_iff, Hlt | apply Qle_bool_iff, Hle]. }
    discriminate H.
  - intros [bucket [Hin [[-> Hle] | [[-> [Hlt Hle]] | [-> [Hlt Hle]]]]]].
    + apply str_in_In in Hin. apply Qle_bool_iff in Hle.
      rewrite Hin, Hle. reflexivity.
    + apply str_in_In in Hin. apply Qle_bool_iff in Hle.
      apply Qlt_bool_iff in Hlt. rewrite Hin, Hlt, Hle. simpl.
      destruct (_ && _)%bool; reflexivity.
    + apply str_in_In in Hin. apply Qle_bool_iff in Hle.
      apply Qlt_bool_iff in Hlt. rewrite Hin, Hlt, Hle. simpl.
      repeat destruct (_ && _)%bool; reflexivity.
Qed.

Lemma reaches_append_iff (market : WhetherApi.Market.t) :
  AgentOrchestrator.reaches_append allowed_types allowed_locations
    time_horizons now market = true
  <-> (allowed_types = []
       \/ In (WhetherApi.MarketType_value (WhetherApi.Market.type market))
             allowed_types)
      /\ (allowed_locations = []
          \/ In (WhetherApi.Location_value (WhetherApi.Market.location market))
                allowed_locations)
      /\ (time_horizons <> [] ->
          exists bucket,
            In bucket time_horizons
            /\ Spec.in_bucket
                 (AgentOrchestrator.hours_until_resolution market now) bucket).
Proof.
  unfold AgentOrchestrator.reaches_append.
  destruct (Py.truthy allowed_types) eqn:Et;
    [apply (proj1 (truthy_nonempty _)) in Et
    | apply (proj1 (truthy_empty _)) in Et];
  (destruct (Py.str_in
               (WhetherApi.MarketType_value (WhetherApi.Market.type market))
               allowed_types) eqn:Eti;
    [apply (proj1 (str_in_In _ _)) in Eti
    | apply (proj1 (str_in_not_In _ _)) in Eti]);
  (destruct (Py.truthy allowed_locations) eqn:El;
    [apply (proj1 (truthy_nonempty _)) in El
    | apply (proj1 (truthy_empty _)) in El]);
  (destruct (Py.str_in
               (WhetherApi.Location_value (WhetherApi.Market.location market))
               allowed_locations) eqn:Eli;
    [apply (proj1 (str_in_In _ _)) in Eli
    | apply (proj1 (str_in_not_In _ _)) in Eli]);
  (destruct (Py.truthy time_horizons) eqn:Eh;
    [apply (proj1 (truthy_nonempty _)) in Eh
    | apply (proj1 (truthy_empty _)) in Eh]);
  cbn [andb negb];
  try rewrite horizon_test_bucket;
  (split; [intros H | intros [H1 [H2 H3]]]);
  first [ discriminate H
        | reflexivity
        | tauto
        | exfalso; tauto ].
Qed.

End MarketFilter.

Section MarketFilterClaim.
Import Effects.

(** The hours that the code computes are the hours from the clock reading
    to the resolution time. *)
Lemma hours_until_resolution_spec (market : WhetherApi.Market.t) (now : Z) :
  (AgentOrchestrator.hours_until_resolution market now
   == Spec.hours_ahead now market)%Q.
Proof.
  unfold AgentOrchestrator.hours_until_resolution, Spec.hours_ahead.
  change (inject_Z (3600 * 1000000)) with (3600000000 # 1)%Q.
  field.
Qed.

(** Membership in a bucket depends on the value of the hours only. *)
Lemma in_bucket_proper (hours hours' : Q) (bucket : string) :
  (hours == hours')%Q ->
  Spec.in_bucket hours bucket <-> Spec.in_bucket hours' bucket.
Proof.
  intros E. unfold Spec.in_bucket. rewrite E. reflexivity.
Qed.

(** The list that the filter returns at a clock reading. *)
Lemma filter_markets_at_iff (now : Z) (markets : list WhetherApi.Market.t)
    (strategy : Strategy.t) (market : WhetherApi.Market.t) :
  In market (AgentOrchestrator.filter_markets_at now markets strategy)
  <-> In market markets /\ Spec.passes now strategy market.
Proof.
  unfold AgentOrchestrator.filter_markets_at.
  rewrite filter_loop_filter. simpl.
  rewrite filter_In, reaches_append_iff.
  unfold Spec.passes, Spec.allowed_types, Spec.allowed_locations,
    Spec.time_horizons.
  assert (He : forall horizons : list string,
            (exists bucket,
               In bucket horizons
               /\ Spec.in_bucket
                    (AgentOrchestrator.hours_until_resolution market now) bucket)
            <-> (exists bucket,
                   In bucket horizons
                   /\ Spec.in_bucket (Spec.hours_ahead now market) bucket)).
  { intros horizons.
    split; intros [bucket [Hin H]]; exists bucket; (split; [exact Hin |]);
      [apply (in_bucket_proper _ _ _ (hours_until_resolution_spec market now))
      | apply (in_bucket_proper _ _ _ (hours_until_resolution_spec market now))];
      exact H. }
  destruct (Strategy.marketSelection strategy); cbn [Py.get];
    rewrite He; reflexivity.
Qed.

(** C6. A market is in the list returned by [filter_markets_for_strategy]
    if and only if it is one of the given markets and: its type is in the
    strategy's types or that list is empty; its location is in the
    strategy's locations or that list is empty; and, when the timeHorizon
    list is non-empty, its hours until resolution (against the clock
    reading of the call) are in a selected bucket: at most 24 for same_day,
    above 24 and at most 48 for next_day, above 48 and at most 168 for
    weekly. *)
Theorem filter_markets_for_strategy_iff
    (markets : list WhetherApi.Market.t) (strategy : Strategy.t) (w : World) :
  exists filtered,
    fst (AgentOrchestrator.filter_markets_for_strategy markets strategy w)
    = Ok filtered
    /\ forall market,
         In market filtered
         <-> In market markets /\ Spec.passes (clock w) strategy market.
Proof.
  exists (AgentOrchestrator.filter_markets_at (clock w) markets strategy).
  split; [reflexivity |].
  intros market. apply filter_markets_at_iff.
Qed.

End MarketFilterClaim.

(** ** Leaderboard score *)

Section LeaderboardScore.
Import Effects.
Local Open Scope Q_scope.

Lemma count_length_filter {A} (test : A -> bool) (l : list A) :
  Spec.count test l = Z.of_nat (length (List.filter test l)).
Proof.
  induction l as [| x l IH]; [reflexivity |].
  simpl. destruct (test x); simpl length; rewrite IH; lia.
Qed.

Lemma correct_predictions_count (predictions : list Dynamodb.Prediction.t) :
  LeaderboardUpdater.correct_predictions predictions
  = Spec.count Spec.marked_correct predictions.
Proof.
  rewrite count_length_filter. reflexivity.
Qed.

Lemma total_with_outcome_count (predictions : list Dynamodb.Prediction.t) :
  LeaderboardUpdater.total_with_outcome predictions
  = Spec.count Spec.annotated predictions.
Proof.
  rewrite count_length_filter. reflexivity.
Qed.

Lemma prediction_accuracy_spec (predictions : list Dynamodb.Prediction.t) :
  LeaderboardUpdater.prediction_accuracy predictions = Spec.accuracy predictions.
Proof.
  unfold LeaderboardUpdater.prediction_accuracy, Spec.accuracy.
  rewrite correct_predictions_count, total_with_outcome_count.
  assert (H : (0 <= Spec.count Spec.annotated predictions)%Z).
  { rewrite count_length_filter. lia. }
  destruct (Z.ltb_spec 0 (Spec.count Spec.annotated predictions));
    destruct (Z.eqb_spec (Spec.count Spec.annotated predictions) 0);
    try reflexivity; lia.
Qed.

Lemma clamp_py (x : Q) : Py.max (Py.min x 1) (-1) == Spec.clamp (-1) 1 x.
Proof.
  unfold Spec.clamp.
  rewrite py_max_Qmax, py_min_Qmin.
  rewrite Q.max_comm, (Q.min_comm x 1). reflexivity.
Qed.

(** *** The expression on run-time typed operands *)

Lemma combine_value (op : Q -> Q -> Q) (a b c : Py.number) :
  Number.combine op a b = Ok c -> Py.value c = op (Py.value a) (Py.value b).
Proof.
  destruct a, b; simpl; intros H;
    try discriminate H; injection H as <-; reflexivity.
Qed.

Lemma mul_value (a b c : Py.number) :
  Number.mul a b = Ok c -> Py.value c == Py.value a * Py.value b.
Proof.
  destruct a as [x | x | x], b as [y | y | y]; simpl; intros H;
    try discriminate H; injection H as <-; simpl;
    try rewrite inject_Z_mult; reflexivity.
Qed.

Lemma add_value (a b c : Py.number) :
  Number.add a b = Ok c -> Py.value c == Py.value a + Py.value b.
Proof.
  destruct a as [x | x | x], b as [y | y | y]; simpl; intros H;
    try discriminate H; injection H as <-; simpl;
    try rewrite inject_Z_plus; reflexivity.
Qed.

Lemma truediv_value (a b c : Py.number) :
  Number.truediv a b = Ok c -> Py.value c = Py.value a / Py.value b.
Proof.
  unfold Number.truediv.
  destruct (Number.combine Qdiv a b) as [quotient | e] eqn:E; [| discriminate].
  destruct (Py.nonzero b); [| discriminate].
  intros H. injection H as <-. apply combine_value. exact E.
Qed.

Lemma min_value (a b : Py.number) :
  Py.value (Number.min a b) = Py.min (Py.value a) (Py.value b).
Proof.
  unfold Number.min, Number.lt, Py.min.
  destruct (Py.Qlt_bool (Py.value b) (Py.value a)); reflexivity.
Qed.

Lemma max_value (a b : Py.number) :
  Py.value (Number.max a b) = Py.max (Py.value a) (Py.value b).
Proof.
  unfold Number.max, Number.lt, Py.max.
  destruct (Py.Qlt_bool (Py.value a) (Py.value b)); reflexivity.
Qed.

(** When the expression of lines 102 to 110 has a value, it is the
    composite score of the values of its operands. *)
Lemma score_expr_value
    (win_rate total_pnl total_trades prediction_accuracy score : Py.number)
    (trades : Z) :
  Py.value total_trades = inject_Z trades ->
  LeaderboardUpdater.score_expr win_rate total_pnl total_trades
    prediction_accuracy = Ok score ->
  Py.value score
  == LeaderboardUpdater.composite_score (Py.value win_rate)
       (Py.value total_pnl) trades (Py.value prediction_accuracy).
Proof.
  intros Htrades. unfold LeaderboardUpdater.score_expr, Number.then_.
  destruct (Number.truediv (Number.float total_pnl) (Py.Int 100))
    as [normalized_pnl |] eqn:E1; [| discriminate].
  destruct (Number.truediv total_trades (Py.Int 100))
    as [per_hundred |] eqn:E2; [| discriminate].
  destruct (Number.mul win_rate (Py.Float (4 # 10))) as [t1 |] eqn:E3;
    [| discriminate].
  destruct (Number.mul _ (Py.Float (3 # 10))) as [t2 |] eqn:E4; [| discriminate].
  destruct (Number.add t1 t2) as [s2 |] eqn:E5; [| discriminate].
  destruct (Number.mul _ (Py.Float (2 # 10))) as [t3 |] eqn:E6; [| discriminate].
  destruct (Number.add s2 t3) as [s3 |] eqn:E7; [| discriminate].
  destruct (Number.mul prediction_accuracy (Py.Float (1 # 10))) as [t4 |] eqn:E8;
    [| discriminate].
  intros E9.
  apply truediv_value in E1, E2.
  apply mul_value in E3, E4, E6, E8.
  apply add_value in E5, E7, E9.
  rewrite max_value, min_value in E4. rewrite min_value in E6.
  rewrite E1 in E4. rewrite E2, Htrades in E6.
  unfold LeaderboardUpdater.composite_score.
  rewrite E9, E7, E5, E3, E4, E6, E8. reflexivity.
Qed.

Lemma nonzero_positive (n : Py.number) :
  Number.lt (Py.Int 0) n = true -> Py.nonzero n = true.
Proof.
  unfold Number.lt, Py.nonzero. intros H. apply Qlt_bool_iff in H.
  apply negb_true_iff. destruct (Qeq_bool (Py.value n) 0) eqn:E; [| reflexivity].
  apply Qeq_bool_iff in E. simpl in H. rewrite E in H.
  exfalso. apply (Qlt_irrefl 0). exact H.
Qed.

(** A [Decimal] trade count never goes through the expression: the win
    rate of a positive count is a [Decimal], which does not multiply with
    the weight 0.4, and a count that is not positive leaves a [Decimal]
    normalized trade count, which does not multiply with the weight 0.2. *)
Lemma score_expr_decimal_trades (winning_trades total_trades total_pnl : Q)
    (prediction_accuracy : Py.number) :
  Number.then_
    (LeaderboardUpdater.win_rate_expr (Py.Decimal winning_trades)
       (Py.Decimal total_trades))
    (fun win_rate =>
       LeaderboardUpdater.score_expr win_rate (Py.Decimal total_pnl)
         (Py.Decimal total_trades) prediction_accuracy)
  = Raised TypeError.
Proof.
  unfold LeaderboardUpdater.win_rate_expr.
  destruct (Number.lt (Py.Int 0) (Py.Decimal total_trades)) eqn:Epos.
  - unfold Number.truediv at 1. simpl Number.combine.
    rewrite (nonzero_positive _ Epos). reflexivity.
  - unfold Number.lt in Epos. apply Qlt_bool_false_iff in Epos. simpl in Epos.
    assert (Hmin : Number.min (Py.Decimal (total_trades / inject_Z 100))
                     (Py.Float 1)
                   = Py.Decimal (total_trades / inject_Z 100)).
    { unfold Number.min, Number.lt. simpl Py.value.
      replace (Py.Qlt_bool 1 (total_trades / inject_Z 100)) with false;
        [reflexivity |].
      symmetry. apply Qlt_bool_false_iff.
      apply Qle_shift_div_r; [reflexivity |].
      apply Qle_trans with 0; [exact Epos | vm_compute; discriminate]. }
    unfold Number.then_ at 1. unfold LeaderboardUpdater.score_expr.
    unfold Number.truediv. simpl Number.combine.
    change (Py.nonzero (Py.Int 100)) with true. cbv iota.
    unfold Number.then_ at 1. cbv iota beta.
    unfold Number.then_ at 1. cbv iota beta.
    rewrite Hmin.
    unfold Number.max, Number.min, Number.lt. simpl Py.value.
    destruct (Py.Qlt_bool 1 _); destruct (Py.Qlt_bool _ (-1)); reflexivity.
Qed.

(** The two counts of the accuracy are [int]s: their quotient is a
    [float], and the division is guarded. *)
Lemma prediction_accuracy_expr_ok (predictions : list Dynamodb.Prediction.t) :
  exists accuracy,
    LeaderboardUpdater.prediction_accuracy_expr predictions = Ok accuracy.
Proof.
  unfold LeaderboardUpdater.prediction_accuracy_expr.
  destruct (Z.ltb_spec 0 (LeaderboardUpdater.total_with_outcome predictions))
    as [Hpos | _]; [| eexists; reflexivity].
  unfold Number.truediv. simpl Number.combine.
  rewrite nonzero_positive; [eexists; reflexivity |].
  unfold Number.lt. apply Qlt_bool_iff. simpl. rewrite <- Zlt_Qlt. exact Hpos.
Qed.

(** Scoring an agent item of the scan raises TypeError, whatever the
    item, and changes nothing. *)
Lemma score_agent_raises (item : Dynamodb.Agent.t) (w : World) :
  LeaderboardUpdater.score_agent item w = (Raised TypeError, w).
Proof.
  pose proof (score_expr_decimal_trades
                (inject_Z (Dynamodb.Agent.winning_trades item))
                (inject_Z (Dynamodb.Agent.total_trades item))
                (Dynamodb.Agent.total_pnl item)) as H.
  unfold LeaderboardUpdater.score_agent, LeaderboardUpdater.item_number.
  unfold Number.then_ in H.
  destruct (LeaderboardUpdater.win_rate_expr _ _) as [win_rate | e].
  - unfold bind at 1. unfold lift at 1.
    unfold bind at 1. unfold DynamoDBClient.get_predictions_by_agent, gets.
    unfold bind at 1.
    match goal with
    | |- context [LeaderboardUpdater.prediction_accuracy_expr ?l] =>
        destruct (prediction_accuracy_expr_ok l) as [accuracy Hok]
    end.
    rewrite Hok. unfold lift at 1. unfold bind, lift. rewrite H. reflexivity.
  - specialize (H (Py.Int 0)). injection H as ->. reflexivity.
Qed.

(** The win rate, when the expression has a value. *)
Lemma win_rate_expr_value (winning_trades total_trades win_rate : Py.number)
    (won trades : Z) :
  Py.value winning_trades = inject_Z won ->
  Py.value total_trades = inject_Z trades ->
  LeaderboardUpdater.win_rate_expr winning_trades total_trades = Ok win_rate ->
  Py.value win_rate == LeaderboardUpdater.win_rate won trades.
Proof.
  intros Hw Ht. unfold LeaderboardUpdater.win_rate_expr, LeaderboardUpdater.win_rate.
  unfold Number.lt. rewrite Ht. simpl (Py.value (Py.Int 0)).
  destruct (Z.ltb_spec 0 trades) as [Hpos | Hneg].
  - replace (Py.Qlt_bool (inject_Z 0) (inject_Z trades)) with true
      by (symmetry; apply Qlt_bool_iff; rewrite <- Zlt_Qlt; exact Hpos).
    intros H. apply truediv_value in H. rewrite H, Hw, Ht. reflexivity.
  - replace (Py.Qlt_bool (inject_Z 0) (inject_Z trades)) with false
      by (symmetry; apply Qlt_bool_false_iff; rewrite <- Zle_Qle; exact Hneg).
    intros H. injection H as <-. reflexivity.
Qed.

(** The prediction accuracy is the fraction of the claim. *)
Lemma prediction_accuracy_expr_value
    (predictions : list Dynamodb.Prediction.t) (accuracy : Py.number) :
  LeaderboardUpdater.prediction_accuracy_expr predictions = Ok accuracy ->
  Py.value accuracy == Spec.accuracy predictions.
Proof.
  rewrite <- prediction_accuracy_spec.
  unfold LeaderboardUpdater.prediction_accuracy_expr,
    LeaderboardUpdater.prediction_accuracy.
  destruct (0 <? LeaderboardUpdater.total_with_outcome predictions)%Z.
  - intros H. apply truediv_value in H. rewrite H. reflexivity.
  - intros H. injection H as <-. reflexivity.
Qed.

(** The formula of C4 is the value of the code's expressions whenever they
    have one, as they do on [int] counters. *)
Lemma score_is_formula
    (winning_trades total_trades total_pnl win_rate accuracy score : Py.number)
    (won trades : Z) (predictions : list Dynamodb.Prediction.t) :
  Py.value winning_trades = inject_Z won ->
  Py.value total_trades = inject_Z trades ->
  (0 < trades)%Z ->
  LeaderboardUpdater.win_rate_expr winning_trades total_trades = Ok win_rate ->
  LeaderboardUpdater.prediction_accuracy_expr predictions = Ok accuracy ->
  LeaderboardUpdater.score_expr win_rate total_pnl total_trades accuracy
  = Ok score ->
  Py.value score
  == inject_Z won / inject_Z trades * (4 # 10)
     + Spec.clamp (-1) 1 (Py.value total_pnl / 100) * (3 # 10)
     + Qmin (inject_Z trades / 100) 1 * (2 # 10)
     + Spec.accuracy predictions * (1 # 10).
Proof.
  intros Hw Ht Hpos Hrate Hacc Hscore.
  rewrite (score_expr_value _ _ _ _ _ trades Ht Hscore).
  unfold LeaderboardUpdater.composite_score.
  rewrite (win_rate_expr_value _ _ _ _ _ Hw Ht Hrate).
  rewrite (prediction_accuracy_expr_value _ _ Hacc).
  unfold LeaderboardUpdater.win_rate.
  apply Z.ltb_lt in Hpos. rewrite Hpos.
  rewrite clamp_py, py_min_Qmin. reflexivity.
Qed.

(** On [int] counters: 3 wins in 4 trades, a PnL of 0.25 and no annotated
    prediction score 0.30875. *)
Example score_of_int_counters :
  exists score,
    Number.then_ (LeaderboardUpdater.win_rate_expr (Py.Int 3) (Py.Int 4))
      (fun win_rate =>
         LeaderboardUpdater.score_expr win_rate (Py.Decimal (25 # 100))
           (Py.Int 4) (Py.Int 0))
    = Ok (Py.Float score)
    /\ score == 30875 # 100000.
Proof.
  eexists. split; vm_compute; reflexivity.
Qed.

(** C4. The code at an agent item with trades.  The agent of the examples
    has 3 wins in 4 trades.  The handler reads its item from the scan,
    where the counters are [Decimal]s: the win rate is a [Decimal], and
    the product [win_rate * 0.4] of the composite score raises TypeError.
    The handler does not catch it, so no score is computed and the
    leaderboard stays empty. *)
Theorem composite_score_type_error :
  (0 < Dynamodb.Agent.total_trades Examples.agent)%Z
  /\ LeaderboardUpdater.win_rate_expr
       (LeaderboardUpdater.item_number
          (Dynamodb.Agent.winning_trades Examples.agent))
       (LeaderboardUpdater.item_number
          (Dynamodb.Agent.total_trades Examples.agent))
     = Ok (Py.Decimal (inject_Z 3 / inject_Z 4))
  /\ Number.mul (Py.Decimal (inject_Z 3 / inject_Z 4)) (Py.Float (4 # 10))
     = Raised TypeError
  /\ fst (LeaderboardUpdater.score_agent Examples.agent Examples.world)
     = Raised TypeError
  /\ fst (LeaderboardUpdater.lambda_handler Examples.world) = Raised TypeError
  /\ leaderboard_table (snd (LeaderboardUpdater.lambda_handler Examples.world))
     = ∅.
Proof.
  split; [reflexivity |].
  split; [vm_compute; reflexivity |].
  split; [reflexivity |].
  split; [rewrite score_agent_raises; reflexivity |].
  split; vm_compute; reflexivity.
Qed.

(** The composite score does not decrease with the win rate. *)
Lemma composite_score_win_rate_le (win_rate win_rate' total_pnl : Q)
    (total_trades : Z) (prediction_accuracy : Q) :
  win_rate <= win_rate' ->
  LeaderboardUpdater.composite_score win_rate total_pnl total_trades
    prediction_accuracy
  <= LeaderboardUpdater.composite_score win_rate' total_pnl total_trades
       prediction_accuracy.
Proof.
  intros H. unfold LeaderboardUpdater.composite_score.
  set (a := Py.max _ _). set (b := Py.min _ _). lra.
Qed.

(** The composite score does not decrease with the trade count. *)
Lemma composite_score_trades_le (win_rate total_pnl : Q)
    (total_trades total_trades' : Z) (prediction_accuracy : Q) :
  (total_trades <= total_trades')%Z ->
  LeaderboardUpdater.composite_score win_rate total_pnl total_trades
    prediction_accuracy
  <= LeaderboardUpdater.composite_score win_rate total_pnl total_trades'
       prediction_accuracy.
Proof.
  intros H. unfold LeaderboardUpdater.composite_score.
  assert (Hm : Py.min (inject_Z total_trades / 100) 1
               <= Py.min (inject_Z total_trades' / 100) 1).
  { apply py_min_mono_l.
    apply Qmult_le_compat_r; [| vm_compute; discriminate].
    rewrite <- Zle_Qle. exact H. }
  set (a := Py.max _ _).
  set (b := Py.min (inject_Z total_trades / 100) 1) in *.
  set (b' := Py.min (inject_Z total_trades' / 100) 1) in *. lra.
Qed.

(** C5. With the other three inputs fixed, the composite score does not
    decrease when the win rate grows, and does not decrease when the total
    trade count grows. *)
Theorem composite_score_monotone :
  (forall (win_rate win_rate' total_pnl : Q) (total_trades : Z)
          (prediction_accuracy : Q),
     win_rate <= win_rate' ->
     LeaderboardUpdater.composite_score win_rate total_pnl total_trades
       prediction_accuracy
     <= LeaderboardUpdater.composite_score win_rate' total_pnl total_trades
          prediction_accuracy)
  /\ (forall (win_rate total_pnl : Q) (total_trades total_trades' : Z)
             (prediction_accuracy : Q),
        (total_trades <= total_trades')%Z ->
        LeaderboardUpdater.composite_score win_rate total_pnl total_trades
          prediction_accuracy
        <= LeaderboardUpdater.composite_score win_rate total_pnl total_trades'
             prediction_accuracy).
Proof.
  split.
  - intros. apply composite_score_win_rate_le. assumption.
  - intros. apply composite_score_trades_le. assumption.
Qed.

Lemma composite_score_monotone_witness :
  ((1 # 2) <= (3 # 4))
  /\ (10 <= 40)%Z
  /\ LeaderboardUpdater.composite_score (1 # 2) (25 # 100) 10 (1 # 2)
     <= LeaderboardUpdater.composite_score (3 # 4) (25 # 100) 10 (1 # 2)
  /\ LeaderboardUpdater.composite_score (1 # 2) (25 # 100) 10 (1 # 2)
     <= LeaderboardUpdater.composite_score (1 # 2) (25 # 100) 40 (1 # 2).
Proof.
  assert (H1 : (1 # 2) <= (3 # 4)) by (vm_compute; discriminate).
  assert (H2 : (10 <= 40)%Z) by lia.
  split; [exact H1 |]. split; [exact H2 |].
  split.
  - exact (proj1 composite_score_monotone
             (1 # 2) (3 # 4) (25 # 100) 10%Z (1 # 2) H1).
  - exact (proj2 composite_score_monotone
             (1 # 2) (25 # 100) 10%Z 40%Z (1 # 2) H2).
Defined.

End LeaderboardScore.

(** ** The score stored in a leaderboard entry *)

Section StoredScore.
Local Open Scope Q_scope.

Lemma round_half_even_proper (x y : Q) :
  x == y -> Py.round_half_even x = Py.round_half_even y.
Proof.
  intros H. unfold Py.round_half_even.
  rewrite (Qfloor_comp _ _ H).
  assert (E : x - inject_Z (Qfloor y) == y - inject_Z (Qfloor y))
    by (rewrite H; reflexivity).
  rewrite (Qcompare_comp _ _ E (1 # 2) (1 # 2) (Qeq_refl _)).
  reflexivity.
Qed.

(** The rounded value is within one half of the argument. *)
Lemma round_half_even_near (x : Q) :
  inject_Z (Py.round_half_even x) - (1 # 2) <= x
  /\ x <= inject_Z (Py.round_half_even x) + (1 # 2).
Proof.
  unfold Py.round_half_even.
  pose proof (Qfloor_le x) as Hlo.
  pose proof (Qlt_floor x) as Hhi.
  rewrite inject_Z_plus in Hhi.
  change (inject_Z 1) with 1 in Hhi.
  destruct (Qcompare_spec (x - inject_Z (Qfloor x)) (1 # 2)) as [E | L | G].
  - destruct (Z.even (Qfloor x));
      [| rewrite inject_Z_plus; change (inject_Z 1) with 1]; split; lra.
  - split; lra.
  - rewrite inject_Z_plus. change (inject_Z 1) with 1. split; lra.
Qed.

Lemma round_half_even_monotone (x y : Q) :
  x <= y -> (Py.round_half_even x <= Py.round_half_even y)%Z.
Proof.
  intros H.
  destruct (Z_le_gt_dec (Py.round_half_even x) (Py.round_half_even y))
    as [Hle | Hgt]; [exact Hle |].
  exfalso.
  destruct (round_half_even_near x) as [Hx _].
  destruct (round_half_even_near y) as [_ Hy].
  assert (Hz : inject_Z (Py.round_half_even y) + 1
               <= inject_Z (Py.round_half_even x)).
  { change 1 with (inject_Z 1). rewrite <- inject_Z_plus, <- Zle_Qle. lia. }
  assert (E : x == y) by lra.
  apply round_half_even_proper in E. lia.
Qed.

(** [round(x, ndigits)] is non-decreasing. *)
Lemma round_monotone (x y : Q) (ndigits : nat) :
  x <= y -> Py.round x ndigits <= Py.round y ndigits.
Proof.
  intros H. unfold Py.round.
  assert (Hs : 0 < inject_Z (10 ^ Z.of_nat ndigits)).
  { change 0 with (inject_Z 0). rewrite <- Zlt_Qlt.
    apply Z.pow_pos_nonneg; lia. }
  apply Qmult_le_compat_r.
  - rewrite <- Zle_Qle. apply round_half_even_monotone.
    apply Qmult_le_compat_r; [exact H | lra].
  - apply Qlt_le_weak, Qinv_lt_0_compat. exact Hs.
Qed.

(** The six-decimal score stored in the entry is monotone in the win rate
    and in the trade count as well. *)
Lemma stored_score_monotone (win_rate win_rate' total_pnl : Q)
    (total_trades total_trades' : Z) (prediction_accuracy : Q) :
  win_rate <= win_rate' ->
  (total_trades <= total_trades')%Z ->
  Py.round (LeaderboardUpdater.composite_score win_rate total_pnl total_trades
              prediction_accuracy) 6
  <= Py.round (LeaderboardUpdater.composite_score win_rate' total_pnl
                 total_trades' prediction_accuracy) 6.
Proof.
  intros Hw Ht. apply round_monotone.
  apply Qle_trans
    with (LeaderboardUpdater.composite_score win_rate' total_pnl total_trades
            prediction_accuracy).
  - apply composite_score_win_rate_le. exact Hw.
  - apply composite_score_trades_le. exact Ht.
Qed.

End StoredScore.

(** ** Resolution of a position *)

Section Resolution.
Import Effects.
Local Open Scope Q_scope.

(** [won] holds exactly when the direction is the outcome and is one of
    the two sides. *)
Lemma won_iff (direction : string) (outcome : option string) :
  MarketResolver.won direction outcome = true
  <-> Some direction = outcome
      /\ (direction = "YES"%string \/ direction = "NO"%string).
Proof.
  unfold MarketResolver.won, MarketResolver.outcome_is.
  rewrite orb_true_iff, !andb_true_iff.
  destruct outcome as [o |].
  - rewrite !String.eqb_eq. split.
    + intros [[-> ->] | [-> ->]]; split; auto.
    + intros [H [-> | ->]]; injection H as <-; auto.
  - split.
    + intros [[_ H] | [_ H]]; discriminate H.
    + intros [H _]. discriminate H.
Qed.

(** For a market with a binary outcome, [won] is the equality of the
    direction and the outcome. *)
Lemma won_binary (direction : string) (outcome : option string) :
  outcome = Some "YES"%string \/ outcome = Some "NO"%string ->
  MarketResolver.won direction outcome = true <-> Some direction = outcome.
Proof.
  intros H. rewrite won_iff. split; [tauto |].
  intros E. split; [exact E |].
  destruct H as [-> | ->]; injection E as ->; auto.
Qed.

(** The state of the positions table after [resolve_position]. *)
Lemma resolve_position_table (position : Dynamodb.Position.t)
    (market : WhetherApi.Market.t) (w : World) :
  fst (MarketResolver.resolve_position position market w) = Ok true
  /\ positions_table (snd (MarketResolver.resolve_position position market w))
     = alter
         (DynamoDBClient.Position_updated Dynamodb.CLOSED
            (Some (MarketResolver.position_exit_price
                     (Dynamodb.Position.direction position)
                     (WhetherApi.Market.outcome market)))
            (Some (MarketResolver.position_pnl
                     (Dynamodb.Position.direction position)
                     (WhetherApi.Market.outcome market)
                     (Dynamodb.Position.size position)
                     (Dynamodb.Position.entry_price position)))
            (clock w))
         (Dynamodb.Position.position_id position)
         (positions_table w).
Proof.
  unfold MarketResolver.resolve_position, bind,
    DynamoDBClient.update_position_status, DynamoDBClient.get_agent,
    datetime_now, modify, gets, bind. simpl.
  destruct (agents_table w !! Dynamodb.Position.agent_id position);
    split; reflexivity.
Qed.

(** C1. When the resolver resolves a stored position against a market
    whose outcome is YES or NO, the position is closed with
    pnl = size x (1 - entry price) and exit price 1 if the position's
    direction equals the outcome, and with pnl = -size x entry price and
    exit price 0 otherwise. *)
Theorem resolve_position_pnl (position : Dynamodb.Position.t)
    (market : WhetherApi.Market.t) (w : World) :
  positions_table w !! Dynamodb.Position.position_id position = Some position ->
  WhetherApi.Market.outcome market = Some "YES"%string
  \/ WhetherApi.Market.outcome market = Some "NO"%string ->
  exists closed : Dynamodb.Position.t,
    fst (MarketResolver.resolve_position position market w) = Ok true
    /\ positions_table (snd (MarketResolver.resolve_position position market w))
         !! Dynamodb.Position.position_id position = Some closed
    /\ Dynamodb.Position.status closed = Dynamodb.CLOSED
    /\ (Some (Dynamodb.Position.direction position)
        = WhetherApi.Market.outcome market ->
        Dynamodb.Position.pnl closed
        = Some (Dynamodb.Position.size position
                * (1 - Dynamodb.Position.entry_price position))
        /\ Dynamodb.Position.exit_price closed = Some 1)
    /\ (Some (Dynamodb.Position.direction position)
        <> WhetherApi.Market.outcome market ->
        Dynamodb.Position.pnl closed
        = Some (- Dynamodb.Position.size position
                * Dynamodb.Position.entry_price position)
        /\ Dynamodb.Position.exit_price closed = Some 0).
Proof.
  intros Hstored Hbinary.
  destruct (resolve_position_table position market w) as [Hr Ht].
  eexists. split; [exact Hr |].
  split.
  { rewrite Ht, lookup_alter_eq, Hstored. reflexivity. }
  split; [reflexivity |].
  cbn [Dynamodb.Position.pnl Dynamodb.Position.exit_price
       DynamoDBClient.Position_updated].
  unfold MarketResolver.position_pnl, MarketResolver.position_exit_price.
  pose proof (won_binary (Dynamodb.Position.direction position) _ Hbinary) as Hw.
  destruct (MarketResolver.won (Dynamodb.Position.direction position)
              (WhetherApi.Market.outcome market)).
  - split; [intros _; split; reflexivity |].
    intros Hne. exfalso. apply Hne. apply Hw. reflexivity.
  - split; [| intros _; split; reflexivity].
    intros E. apply Hw in E. discriminate E.
Qed.

(** The open YES position of the examples, bought at 0.40 for a size of
    0.03, against the market resolved YES: closed with a pnl of
    0.03 x 0.60. *)
Lemma resolve_position_pnl_witness :
  positions_table Examples.world_with_position !! "position-1"
  = Some Examples.open_position
  /\ WhetherApi.Market.outcome (Examples.market_with (Some "YES"%string))
     = Some "YES"%string
  /\ exists closed : Dynamodb.Position.t,
       positions_table
         (snd (MarketResolver.resolve_position Examples.open_position
                 (Examples.market_with (Some "YES"%string))
                 Examples.world_with_position))
         !! "position-1" = Some closed
       /\ Dynamodb.Position.status closed = Dynamodb.CLOSED
       /\ Dynamodb.Position.pnl closed = Some ((3 # 100) * (1 - (40 # 100)))
       /\ Dynamodb.Position.exit_price closed = Some 1.
Proof.
  assert (H1 : positions_table Examples.world_with_position
                 !! Dynamodb.Position.position_id Examples.open_position
               = Some Examples.open_position) by (vm_compute; reflexivity).
  assert (H2 : WhetherApi.Market.outcome (Examples.market_with (Some "YES"%string))
               = Some "YES"%string) by reflexivity.
  split; [exact H1 |]. split; [exact H2 |].
  destruct (resolve_position_pnl Examples.open_position
              (Examples.market_with (Some "YES"%string))
              Examples.world_with_position H1 (or_introl H2))
    as [closed [_ [Hl [Hs [Hwin _]]]]].
  exists closed. split; [exact Hl |]. split; [exact Hs |].
  exact (Hwin eq_refl).
Defined.

(** A daily run of the resolver over the market of the examples resolved
    YES: the open position is closed with exit price 1 and a pnl of 0.018,
    and the agent's counters are recomputed from its closed positions. *)
Example resolver_run :
  let w := snd (MarketResolver.lambda_handler
                  (Examples.env [Examples.market_with (Some "YES"%string)])
                  Examples.world_with_position) in
  (exists closed,
     positions_table w !! "position-1" = Some closed
     /\ Dynamodb.Position.status closed = Dynamodb.CLOSED
     /\ Dynamodb.Position.exit_price closed = Some 1
     /\ match Dynamodb.Position.pnl closed with
        | Some pnl => pnl == 18 # 1000
        | None => False
        end)
  /\ (exists agent,
        agents_table w !! "agent-1" = Some agent
        /\ Dynamodb.Agent.total_trades agent = 1%Z
        /\ Dynamodb.Agent.winning_trades agent = 1%Z
        /\ Dynamodb.Agent.total_pnl agent == 18 # 1000).
Proof.
  split; eexists; (split; [vm_compute; reflexivity |]); vm_compute; repeat split.
Qed.

End Resolution.

(** ** The position executor *)

Section Executor.
Import Effects.

Lemma AgentStatus_active (s : Dynamodb.AgentStatus) :
  (Dynamodb.AgentStatus_value s =? "active")%string = true <-> s = Dynamodb.ACTIVE.
Proof. destruct s; simpl; split; congruence. Qed.

Lemma process_position_message_executed (env : Env) (message : Message)
    (w : World) :
  Spec.executed env message w
    (fst (PositionExecutor.process_position_message env message w))
    (snd (PositionExecutor.process_position_message env message w)).
Proof.
  unfold PositionExecutor.process_position_message.
  destruct message as [a m d s e p t].
  destruct a as [a |];
    [| apply Spec.executed_malformed; intros [[x H] _]; discriminate H].
  destruct m as [m |];
    [| apply Spec.executed_malformed; intros [_ [[x H] _]]; discriminate H].
  destruct d as [d |];
    [| apply Spec.executed_malformed; intros [_ [_ [[x H] _]]]; discriminate H].
  destruct s as [s |];
    [| apply Spec.executed_malformed; intros [_ [_ [_ [[x H] _]]]]; discriminate H].
  destruct e as [e |];
    [| apply Spec.executed_malformed; intros [_ [_ [_ [_ [x H]]]]]; discriminate H].
  assert (Hc : Spec.complete_message
                 {| agentId := Some a; marketId := Some m; direction := Some d;
                    size := Some s; entryPrice := Some e; predictionId := p;
                    telegramChatId := t |}).
  { repeat split; eexists; reflexivity. }
  unfold subscript, bind, ret, DynamoDBClient.get_agent, gets. simpl.
  destruct (agents_table w !! a) as [agent |] eqn:Ha; simpl;
    [| eapply Spec.executed_unknown_agent; eauto].
  destruct (Dynamodb.AgentStatus_value (Dynamodb.Agent.status agent) =? "active")%string
    eqn:Hs; simpl.
  2:{ eapply Spec.executed_inactive_agent; eauto.
      intros Hact. apply AgentStatus_active in Hact. congruence. }
  apply AgentStatus_active in Hs.
  unfold try_except, WhetherAPIClient.create_paper_position, bind, gets. simpl.
  destruct (paper_api_accepts env _ w) eqn:Hp; simpl.
  2:{ eapply Spec.executed_refused; eauto. }
  destruct t as [chat |]; [destruct (Py.nonzero chat) |]; simpl;
    (match type of Hp with
     | paper_api_accepts env ?o w = true =>
         match goal with
         | |- context [base.insert _ ?v] =>
             apply Spec.executed_opened
               with (agent_id := a) (agent := agent) (order := o) (position := v)
         end
     end;
     first [reflexivity | exact Hc | exact Ha | exact Hs | exact Hp]).
Qed.

(** The loop of [lambda_handler]: it visits every record, and appends the
    identifier of exactly those whose processing raises. *)
Lemma lambda_handler_loop (env : Env) (records : list PositionExecutor.SqsRecord)
    (batch_item_failures : list (option string)) (w : World) :
  for_fold records batch_item_failures
    (fun batch_item_failures record =>
       try_except
         (bind (PositionExecutor.process_record env record)
               (fun _ => ret batch_item_failures))
         (fun e => ret (batch_item_failures
                        ++ [PositionExecutor.messageId record])))
    w
  = (Ok (batch_item_failures
         ++ map PositionExecutor.messageId (Spec.raised_records env records w)),
     Spec.after_records env records w).
Proof.
  revert batch_item_failures w.
  induction records as [| record records IH]; intros failures w; simpl.
  - rewrite app_nil_r. reflexivity.
  - unfold bind at 1. unfold try_except, bind at 1.
    destruct (PositionExecutor.process_record env record w) as [[[] | e] w'];
      simpl.
    + apply IH.
    + rewrite IH, <- app_assoc. reflexivity.
Qed.

(** The reported records are records of the batch. *)
Lemma raised_records_incl (env : Env) (records : list PositionExecutor.SqsRecord)
    (w : World) (record : PositionExecutor.SqsRecord) :
  In record (Spec.raised_records env records w) -> In record records.
Proof.
  revert w. induction records as [| r records IH]; intros w; simpl; [tauto |].
  destruct (PositionExecutor.process_record env r w) as [[[] | e] w'].
  - intros H. right. exact (IH w' H).
  - intros [-> | H]; [left; reflexivity | right; exact (IH w' H)].
Qed.

(** C9. For every batch of queue records and every state of the world, the
    batchItemFailures that the executor returns are the message
    identifiers of exactly the records whose processing raises, in batch
    order; the handler itself never raises and leaves the state in which
    every record of the batch was processed, whether or not an earlier one
    failed. *)
Theorem batch_item_failures_exact (env : Env)
    (records : list PositionExecutor.SqsRecord) (w : World) :
  PositionExecutor.lambda_handler env records w
  = (Ok (map PositionExecutor.messageId (Spec.raised_records env records w)),
     Spec.after_records env records w).
Proof.
  unfold PositionExecutor.lambda_handler.
  rewrite lambda_handler_loop. reflexivity.
Qed.




Example incomplete_request_failure :
  PositionExecutor.lambda_handler (Examples.env [])
    [Cases.record_without_size] Examples.world
  = (Ok [Some "m-9"%string], Examples.world).
Proof. vm_compute. reflexivity. Qed.

End Executor.

(** A batch whose second request fails: only its identifier is reported,
    and the first and the third request are executed. *)
Example batch_with_one_failure :
  fst (PositionExecutor.lambda_handler (Examples.env_refusing "market-2")
         Examples.batch Examples.world)
  = Effects.Ok [Some "m-2"%string]
  /\ map WhetherApi.po_market_id
       (Effects.paper_positions
          (snd (PositionExecutor.lambda_handler (Examples.env_refusing "market-2")
                  Examples.batch Examples.world)))
     = ["market-1"%string; "market-3"%string].
Proof. vm_compute. split; reflexivity. Qed.

(** ** The recent-prediction check of the orchestrator *)

Section RecentPrediction.
Import Effects.

(** When [get_prediction_for_market] finds a prediction and it is less
    than an hour old, the market is skipped: nothing is analysed or stored
    and the counters stay as they were. *)
Lemma process_market_skips_recent (env : Env) (agent : Dynamodb.Agent.t)
    (strategy : Strategy.t) (counters : Z * Z) (market : WhetherApi.Market.t)
    (w : World) (existing : Dynamodb.Prediction.t) :
  fst (DynamoDBClient.get_prediction_for_market
         (Dynamodb.Agent.agent_id agent) (WhetherApi.Market.id market) w)
  = Ok (Some existing) ->
  Spec.fresh (clock w) existing ->
  fst (AgentOrchestrator.process_market env agent strategy counters market w)
  = Ok counters
  /\ predictions_table
       (snd (AgentOrchestrator.process_market env agent strategy counters market w))
     = predictions_table w
  /\ position_queue
       (snd (AgentOrchestrator.process_market env agent strategy counters market w))
     = position_queue w.
Proof.
  intros Hfound Hfresh.
  unfold AgentOrchestrator.process_market, try_except.
  unfold bind at 1.
  unfold DynamoDBClient.get_prediction_for_market, bind, ret in Hfound |- *.
  unfold DynamoDBClient.get_predictions_by_agent, gets in Hfound |- *.
  simpl in Hfound |- *. injection Hfound as ->. simpl.
  assert (Hq : Py.Qlt_bool
                 (inject_Z (clock w - Dynamodb.Prediction.created_at existing)
                  / 1000000) 3600 = true).
  { apply Qlt_bool_iff. apply Qlt_shift_div_r; [reflexivity |].
    unfold Spec.fresh in Hfresh.
    change (3600 * 1000000)%Q with (inject_Z (3600 * 1000000)).
    rewrite <- Zlt_Qlt. exact Hfresh. }
  rewrite Hq. simpl. auto.
Qed.

(** With 100 active markets the second cycle finds every prediction of
    the first one and computes nothing. *)
Example second_cycle_skips_within_window :
  length (predictions_table (Examples.after_first_cycle 100)) = 100%nat
  /\ length (predictions_table (Examples.after_second_cycle 100)) = 100%nat.
Proof. vm_compute. split; reflexivity. Qed.

(** C3 fails at 101 active markets.  After the first cycle the agent has
    one prediction on market-0, and it is still fresh (less than an hour
    old) when the second cycle ends; yet the second cycle stores a second
    prediction for the same agent and market, as it does for each of the
    101 markets: the table grows from 101 to 202 predictions. *)
Theorem fresh_prediction_recomputed :
  (exists p,
     Spec.predictions_of "agent-1" "market-0" (Examples.after_first_cycle 101) = [p]
     /\ Spec.fresh (clock (Examples.after_second_cycle 101)) p)
  /\ length (Spec.predictions_of "agent-1" "market-0"
               (Examples.after_second_cycle 101)) = 2%nat
  /\ length (predictions_table (Examples.after_second_cycle 101)) = 202%nat.
Proof.
  split.
  - eexists. split.
    + vm_compute. reflexivity.
    + vm_compute. reflexivity.
  - split; vm_compute; reflexivity.
Qed.

End RecentPrediction.

(** ** What the handlers do to the positions table *)

Section Preservation.
Import Effects.

Variable I : World -> Prop.

Lemma preserves_ret {A} (a : A) : Spec.preserves I (ret a).
Proof. intros w H. exact H. Qed.

Lemma preserves_raise {A} (e : exn) : Spec.preserves I (@raise A e).
Proof. intros w H. exact H. Qed.

Lemma preserves_gets {A} (f : World -> A) : Spec.preserves I (gets f).
Proof. intros w H. exact H. Qed.

Lemma preserves_ask {A} (f : World -> result A) : Spec.preserves I (ask f).
Proof. intros w H. exact H. Qed.

Lemma preserves_lift {A} (r : result A) : Spec.preserves I (lift r).
Proof. intros w H. exact H. Qed.

Lemma preserves_subscript {A} (key : string) (entry : option A) :
  Spec.preserves I (subscript key entry).
Proof. destruct entry; intros w H; exact H. Qed.

Lemma preserves_bind {A B} (m : M A) (k : A -> M B) :
  Spec.preserves I m -> (forall a, Spec.preserves I (k a)) ->
  Spec.preserves I (bind m k).
Proof.
  intros Hm Hk w H. unfold bind.
  specialize (Hm w H). destruct (m w) as [[a | e] w']; simpl in *.
  - apply Hk. exact Hm.
  - exact Hm.
Qed.

Lemma preserves_try_except {A} (m : M A) (h : exn -> M A) :
  Spec.preserves I m -> (forall e, Spec.preserves I (h e)) ->
  Spec.preserves I (try_except m h).
Proof.
  intros Hm Hh w H. unfold try_except.
  specialize (Hm w H). destruct (m w) as [[a | e] w']; simpl in *.
  - exact Hm.
  - apply Hh. exact Hm.
Qed.

Lemma preserves_for_fold {A S} (xs : list A) (acc : S) (body : S -> A -> M S) :
  (forall acc x, Spec.preserves I (body acc x)) ->
  Spec.preserves I (for_fold xs acc body).
Proof.
  intros Hb. revert acc. induction xs as [| x xs IH]; intros acc; simpl.
  - apply preserves_ret.
  - apply preserves_bind; [apply Hb | intros acc'; apply IH].
Qed.

Lemma preserves_for_each {A} (xs : list A) (body : A -> M unit) :
  (forall x, Spec.preserves I (body x)) ->
  Spec.preserves I (for_each xs body).
Proof.
  intros Hb. induction xs as [| x xs IH]; simpl.
  - apply preserves_ret.
  - apply preserves_bind; [apply Hb | intros _; exact IH].
Qed.

Lemma preserves_modify (f : World -> World) :
  (forall w, I w -> I (f w)) -> Spec.preserves I (modify f).
Proof. intros Hf w H. apply Hf. exact H. Qed.

End Preservation.

Section PositionsPreservation.
Import Effects.

Variable P : gmap string Dynamodb.Position.t -> Prop.

Lemma preserves_datetime_now : Spec.preserves (Spec.on_positions P) datetime_now.
Proof. intros w H. exact H. Qed.

Lemma preserves_uuid4 : Spec.preserves (Spec.on_positions P) uuid4.
Proof. intros w H. exact H. Qed.

(** A step that writes to another table or service. *)
Lemma preserves_modify_elsewhere (f : World -> World) :
  (forall w, positions_table (f w) = positions_table w) ->
  Spec.preserves (Spec.on_positions P) (modify f).
Proof.
  intros Hf. apply preserves_modify. intros w H.
  unfold Spec.on_positions. rewrite Hf. exact H.
Qed.

End PositionsPreservation.

(** Breaks a handler down to its primitive steps. *)
Ltac preserves_step :=
  lazymatch goal with
  | |- Spec.preserves _ (Effects.bind _ _) =>
      apply preserves_bind; [| intros ?]
  | |- Spec.preserves _ (Effects.try_except _ _) =>
      apply preserves_try_except; [| intros ?]
  | |- Spec.preserves _ (Effects.for_fold _ _ _) =>
      apply preserves_for_fold; intros ? ?
  | |- Spec.preserves _ (Effects.for_each _ _) =>
      apply preserves_for_each; intros ?
  | |- Spec.preserves _ (Effects.ret _) => apply preserves_ret
  | |- Spec.preserves _ (Effects.raise _) => apply preserves_raise
  | |- Spec.preserves _ (Effects.gets _) => apply preserves_gets
  | |- Spec.preserves _ (Effects.ask _) => apply preserves_ask
  | |- Spec.preserves _ (Effects.lift _) => apply preserves_lift
  | |- Spec.preserves _ (Effects.subscript _ _) => apply preserves_subscript
  | |- Spec.preserves _ Effects.datetime_now => apply preserves_datetime_now
  | |- Spec.preserves _ Effects.uuid4 => apply preserves_uuid4
  | |- Spec.preserves _ (Effects.modify (Effects.set_predictions_table _)) =>
      apply preserves_modify_elsewhere; reflexivity
  | |- Spec.preserves _ (Effects.modify (Effects.set_agents_table _)) =>
      apply preserves_modify_elsewhere; reflexivity
  | |- Spec.preserves _ (Effects.modify (Effects.set_leaderboard_table _)) =>
      apply preserves_modify_elsewhere; reflexivity
  | |- Spec.preserves _ (Effects.modify (Effects.set_position_queue _)) =>
      apply preserves_modify_elsewhere; reflexivity
  | |- Spec.preserves _ (Effects.modify (Effects.set_paper_positions _)) =>
      apply preserves_modify_elsewhere; reflexivity
  | |- Spec.preserves _ (Effects.modify (Effects.set_telegram _)) =>
      apply preserves_modify_elsewhere; reflexivity
  | |- Spec.preserves _ (match ?x with _ => _ end) => destruct x
  end.

Section PositionsInvariant.
Import Effects.

Variable P : gmap string Dynamodb.Position.t -> Prop.

(** The orchestrator never writes to the positions table. *)
Lemma orchestrator_preserves (env : Env) :
  Spec.preserves (Spec.on_positions P) (AgentOrchestrator.lambda_handler env).
Proof.
  unfold AgentOrchestrator.lambda_handler, AgentOrchestrator.process_agent,
    AgentOrchestrator.process_market, AgentOrchestrator.send_agent_notification,
    AgentOrchestrator.queue_position, AgentOrchestrator.analyze_market_for_agent,
    AgentOrchestrator.filter_markets_for_strategy,
    BedrockClient.analyze_market,
    DynamoDBClient.get_active_agents, DynamoDBClient.get_prediction_for_market,
    DynamoDBClient.get_predictions_by_agent, DynamoDBClient.create_prediction,
    DynamoDBClient.Prediction_create.
  repeat preserves_step.
Qed.

(** Neither does the leaderboard updater. *)
Lemma leaderboard_preserves :
  Spec.preserves (Spec.on_positions P) LeaderboardUpdater.lambda_handler.
Proof.
  unfold LeaderboardUpdater.lambda_handler, LeaderboardUpdater.score_agent,
    LeaderboardUpdater.scan_agents_with_trades,
    DynamoDBClient.update_leaderboard, DynamoDBClient.get_predictions_by_agent.
  repeat preserves_step.
Qed.

End PositionsInvariant.

Section Settled.
Import Effects.

Lemma settled_empty : Spec.settled ∅.
Proof. intros key position H. rewrite lookup_empty in H. discriminate H. Qed.

Lemma settled_insert (table : gmap string Dynamodb.Position.t) (key : string)
    (position : Dynamodb.Position.t) :
  Spec.settled table ->
  Dynamodb.Position.status position = Dynamodb.OPEN ->
  Spec.settled (<[key := position]> table).
Proof.
  intros Ht Hs k p H.
  destruct (decide (key = k)) as [-> | Hne].
  - rewrite lookup_insert_eq in H. injection H as <-. left. exact Hs.
  - rewrite lookup_insert_ne in H by exact Hne. exact (Ht k p H).
Qed.

Lemma settled_close (table : gmap string Dynamodb.Position.t) (key : string)
    (exit_price pnl : option Q) (now : Z) :
  Spec.settled table ->
  Spec.settled
    (alter (DynamoDBClient.Position_updated Dynamodb.CLOSED exit_price pnl now)
           key table).
Proof.
  intros Ht k p H.
  destruct (decide (key = k)) as [-> | Hne].
  - rewrite lookup_alter_eq in H.
    destruct (table !! k) as [q |]; simpl in H; [| discriminate H].
    injection H as <-. right. reflexivity.
  - rewrite lookup_alter_ne in H by exact Hne. exact (Ht k p H).
Qed.

(** The executor only adds open records. *)
Lemma executor_preserves_settled (env : Env)
    (records : list PositionExecutor.SqsRecord) :
  Spec.preserves (Spec.on_positions Spec.settled)
    (PositionExecutor.lambda_handler env records).
Proof.
  unfold PositionExecutor.lambda_handler, PositionExecutor.process_record,
    PositionExecutor.loads_body, PositionExecutor.process_position_message,
    PositionExecutor.send_position_notification,
    WhetherAPIClient.create_paper_position,
    DynamoDBClient.get_agent, DynamoDBClient.create_position,
    DynamoDBClient.Position_create.
  repeat first
    [ preserves_step
    | apply preserves_modify; intros w Hw; apply settled_insert;
      [exact Hw | reflexivity] ].
Qed.

(** The resolver only closes records. *)
Lemma resolver_preserves_settled (env : Env) :
  Spec.preserves (Spec.on_positions Spec.settled)
    (MarketResolver.lambda_handler env).
Proof.
  unfold MarketResolver.lambda_handler, MarketResolver.resolve_market,
    MarketResolver.resolve_position, MarketResolver.update_prediction_outcome,
    MarketResolver.update_agent_stats, MarketResolver.scan_open_positions,
    MarketResolver.scan_predictions,
    MarketResolver.send_resolution_notification,
    DynamoDBClient.update_position_status, DynamoDBClient.get_agent,
    DynamoDBClient.update_prediction_outcome, DynamoDBClient.update_agent_stats,
    DynamoDBClient.get_positions_by_agent.
  repeat first
    [ preserves_step
    | apply preserves_modify; intros w Hw; apply settled_close; exact Hw ].
Qed.

(** From a state without position records, whichever of these handlers
    run and in whatever order, every record of the positions table is open
    or closed: no record is ever stored with status pending. *)
Theorem stored_positions_never_pending (env : Env) (w0 w : World) :
  positions_table w0 = ∅ ->
  Spec.reachable env w0 w ->
  forall key position,
    positions_table w !! key = Some position ->
    Dynamodb.Position.status position <> Dynamodb.PENDING.
Proof.
  intros Hempty Hreach.
  assert (Hsettled : Spec.settled (positions_table w)).
  { induction Hreach as [| w w' _ IH Hstep].
    - rewrite Hempty. apply settled_empty.
    - destruct Hstep.
      + exact (orchestrator_preserves Spec.settled env w IH).
      + exact (executor_preserves_settled env records w IH).
      + exact (resolver_preserves_settled env w IH).
      + exact (leaderboard_preserves Spec.settled w IH). }
  intros key position Hl Hp.
  destruct (Hsettled key position Hl) as [Ho | Hc]; congruence.
Qed.

End Settled.

(** A whole orchestration cycle leaves the positions table as it was. *)
Lemma orchestrator_keeps_positions_table (env : Effects.Env) (w : Effects.World) :
  Effects.positions_table (snd (AgentOrchestrator.lambda_handler env w))
  = Effects.positions_table w.
Proof.
  exact (orchestrator_preserves (fun table => table = Effects.positions_table w)
           env w eq_refl).
Qed.

(** ** Lifecycle of a position record *)

Section Lifecycle.
Import Effects.

(** Queueing only sends a message: the positions table is untouched. *)
Lemma queue_position_positions_table (agent : Dynamodb.Agent.t)
    (market : WhetherApi.Market.t) (prediction : Dynamodb.Prediction.t)
    (strategy : Strategy.t) (w : World) :
  positions_table
    (snd (AgentOrchestrator.queue_position agent market prediction strategy w))
  = positions_table w
  /\ (Py.json_serializable (Dynamodb.Agent.telegram_chat_id agent) = true ->
      length (position_queue
                (snd (AgentOrchestrator.queue_position agent market prediction
                        strategy w)))
      = S (length (position_queue w))).
Proof.
  unfold AgentOrchestrator.queue_position, bind, datetime_now, modify, raise.
  simpl.
  destruct (Py.json_serializable (Dynamodb.Agent.telegram_chat_id agent));
    simpl; (split; [reflexivity |]); intros H; [| discriminate H].
  rewrite length_app. simpl. lia.
Qed.

(** The request that [queue_position] sends carries every key that the
    executor subscripts. *)
Lemma queue_position_message_complete (agent : Dynamodb.Agent.t)
    (market : WhetherApi.Market.t) (prediction : Dynamodb.Prediction.t)
    (strategy : Strategy.t) (w : World) :
  Py.json_serializable (Dynamodb.Agent.telegram_chat_id agent) = true ->
  exists message,
    position_queue
      (snd (AgentOrchestrator.queue_position agent market prediction strategy w))
    = position_queue w ++ [message]
    /\ Spec.complete_message message
    /\ agentId message = Some (Dynamodb.Agent.agent_id agent)
    /\ marketId message = Some (WhetherApi.Market.id market).
Proof.
  intros Hchat.
  unfold AgentOrchestrator.queue_position, bind, datetime_now, modify.
  rewrite Hchat. simpl.
  eexists. split; [reflexivity |].
  split; [| split; reflexivity].
  repeat split; eexists; reflexivity.
Qed.

(** C7, as stated, fails: queueing the position of the examples leaves no
    pending record (no record at all) in the positions table. *)
Lemma queueing_creates_no_pending_record :
  ~ Spec.queued_as_pending Examples.agent Examples.market Examples.prediction
      Examples.strategy Examples.world.
Proof.
  intros [key [position [Hl _]]].
  rewrite (proj1 (queue_position_positions_table _ _ _ _ _)) in Hl.
  change (positions_table Examples.world) with (∅ : gmap string Dynamodb.Position.t) in Hl.
  rewrite lookup_empty in Hl. discriminate Hl.
Qed.

(** The scan of the resolver returns stored, open positions of the market. *)
Lemma scan_open_positions_open (market_id : string) (w : World)
    (position : Dynamodb.Position.t) :
  In position (match fst (MarketResolver.scan_open_positions market_id w) with
               | Ok items => items
               | Raised _ => []
               end) ->
  Dynamodb.Position.status position = Dynamodb.OPEN
  /\ Dynamodb.Position.market_id position = market_id
  /\ exists key, positions_table w !! key = Some position.
Proof.
  unfold MarketResolver.scan_open_positions, gets. simpl.
  rewrite filter_In. intros [Hin Hb].
  apply andb_true_iff in Hb as [Hm Hs].
  apply String.eqb_eq in Hm.
  split; [| split; [exact Hm |]].
  - destruct (Dynamodb.Position.status position); simpl in Hs;
      first [reflexivity | discriminate Hs].
  - apply in_map_iff in Hin as [[key p] [Hp Hin]]. simpl in Hp. subst p.
    exists key. apply elem_of_map_to_list. apply list_elem_of_In. exact Hin.
Qed.

(** C7, amended.  Queueing a position adds a message to the queue and
    creates no position record, and a whole orchestration cycle leaves the
    positions table unchanged.  The record is created when the executor
    executes the request: whenever the executor changes the positions
    table it inserts one record, with status open, and it does so for every
    complete request of an active agent that the market API accepts.  When
    the resolver resolves a stored position the record becomes closed.
    From an empty positions table, whatever handlers run, no stored record
    ever has status pending. *)
Theorem position_lifecycle :
  (forall agent market prediction strategy w,
     positions_table
       (snd (AgentOrchestrator.queue_position agent market prediction strategy w))
     = positions_table w)
  /\ (forall env w,
        positions_table (snd (AgentOrchestrator.lambda_handler env w))
        = positions_table w)
  /\ (forall env message w,
        positions_table
          (snd (PositionExecutor.process_position_message env message w))
        = positions_table w
        \/ exists position,
             positions_table
               (snd (PositionExecutor.process_position_message env message w))
             = <[Dynamodb.Position.position_id position := position]>
                 (positions_table w)
             /\ Dynamodb.Position.status position = Dynamodb.OPEN)
  /\ (forall env message w agent_id agent,
        Spec.complete_message message ->
        agentId message = Some agent_id ->
        agents_table w !! agent_id = Some agent ->
        Dynamodb.Agent.status agent = Dynamodb.ACTIVE ->
        (forall order, paper_api_accepts env order w = true) ->
        exists position,
          positions_table
            (snd (PositionExecutor.process_position_message env message w))
          = <[Dynamodb.Position.position_id position := position]>
              (positions_table w)
          /\ Dynamodb.Position.status position = Dynamodb.OPEN
          /\ Some (Dynamodb.Position.agent_id position) = agentId message
          /\ Some (Dynamodb.Position.market_id position) = marketId message)
  /\ (forall position market w,
        positions_table w !! Dynamodb.Position.position_id position
        = Some position ->
        exists closed,
          positions_table
            (snd (MarketResolver.resolve_position position market w))
            !! Dynamodb.Position.position_id position = Some closed
          /\ Dynamodb.Position.status closed = Dynamodb.CLOSED)
  /\ (forall env w0 w,
        positions_table w0 = ∅ ->
        Spec.reachable env w0 w ->
        forall key position,
          positions_table w !! key = Some position ->
          Dynamodb.Position.status position <> Dynamodb.PENDING).
Proof.
  split; [| split; [| split; [| split; [| split]]]].
  - intros. apply queue_position_positions_table.
  - apply orchestrator_keeps_positions_table.
  - intros env message w.
    pose proof (process_position_message_executed env message w) as H.
    remember (fst (PositionExecutor.process_position_message env message w)) as r.
    remember (snd (PositionExecutor.process_position_message env message w)) as w1.
    destruct H as [key Hm | id Hc Hid Hl | id ag Hc Hid Hl Hs
                  | id ag order Hc Hid Hl Hs Hrefused
                  | id ag order position w' Hc Hid Hl Hs Hp
                      Ho1 Ho2 Ho3 Ho4 Hp1 Hp2 Hp3 Hp4 Hp5 Hst Hpaper Htable Hagents];
      try (left; reflexivity).
    right. exists position. split; [exact Htable | exact Hst].
  - intros env message w agent_id agent Hcomplete Hagent Hlookup Hactive Haccept.
    pose proof (process_position_message_executed env message w) as H.
    remember (fst (PositionExecutor.process_position_message env message w)) as r.
    remember (snd (PositionExecutor.process_position_message env message w)) as w1.
    destruct H as [key Hm | id Hc Hid Hl | id ag Hc Hid Hl Hs
                  | id ag order Hc Hid Hl Hs Hrefused
                  | id ag order position w' Hc Hid Hl Hs Hp
                      Ho1 Ho2 Ho3 Ho4 Hp1 Hp2 Hp3 Hp4 Hp5 Hst Hpaper Htable Hagents].
    + contradiction.
    + congruence.
    + congruence.
    + rewrite Haccept in Hrefused. discriminate Hrefused.
    + exists position. auto.
  - intros position market w Hstored.
    destruct (resolve_position_table position market w) as [_ Ht].
    eexists. split.
    + rewrite Ht, lookup_alter_eq, Hstored. reflexivity.
    + reflexivity.
  - apply stored_positions_never_pending.
Qed.

(** The request of the examples is executed into an open record; the open
    position of the examples is closed when its market resolves NO; after
    the executor ran on the batch of the examples, the first record it
    stored is not pending. *)
Lemma position_lifecycle_witness :
  (exists position,
     positions_table
       (snd (PositionExecutor.process_position_message (Examples.env [])
               Examples.message Examples.world))
     = <[Dynamodb.Position.position_id position := position]>
         (positions_table Examples.world)
     /\ Dynamodb.Position.status position = Dynamodb.OPEN)
  /\ (exists closed,
        positions_table
          (snd (MarketResolver.resolve_position Examples.open_position
                  (Examples.market_with (Some "NO"%string))
                  Examples.world_with_position))
          !! "position-1" = Some closed
        /\ Dynamodb.Position.status closed = Dynamodb.CLOSED)
  /\ (exists position,
        positions_table
          (snd (PositionExecutor.lambda_handler (Examples.env [])
                  Examples.batch Examples.world))
          !! "uuid-0" = Some position
        /\ Dynamodb.Position.status position <> Dynamodb.PENDING).
Proof.
  destruct position_lifecycle as [_ [_ [_ [Hexecute [Hresolve Hnever]]]]].
  split; [| split].
  - assert (Hcomplete : Spec.complete_message Examples.message).
    { repeat split; eexists; reflexivity. }
    assert (Hlookup : agents_table Examples.world !! "agent-1"
                      = Some Examples.agent) by (vm_compute; reflexivity).
    destruct (Hexecute (Examples.env []) Examples.message Examples.world
                "agent-1"%string Examples.agent Hcomplete eq_refl Hlookup eq_refl
                (fun _ => eq_refl))
      as [position [Ht [Hs _]]].
    exists position. split; [exact Ht | exact Hs].
  - assert (Hstored : positions_table Examples.world_with_position
                        !! Dynamodb.Position.position_id Examples.open_position
                      = Some Examples.open_position) by (vm_compute; reflexivity).
    exact (Hresolve Examples.open_position
             (Examples.market_with (Some "NO"%string))
             Examples.world_with_position Hstored).
  - assert (Hempty : positions_table Examples.world = ∅) by reflexivity.
    assert (Hreach :
      Spec.reachable (Examples.env []) Examples.world
        (snd (PositionExecutor.lambda_handler (Examples.env [])
                Examples.batch Examples.world))).
    { eapply Spec.reachable_step;
        [apply Spec.reachable_start | apply Spec.invoke_executor]. }
    eexists. split.
    + vm_compute. reflexivity.
    + apply (Hnever (Examples.env []) Examples.world _ Hempty Hreach
               "uuid-0"%string).
      vm_compute. reflexivity.
Defined.

End Lifecycle.

(** ** Opening decisions of the orchestrator *)

Section OpeningDecision.
Import Effects.

Lemma check_entry_conditions_true (conditions : list Strategy.EntryCondition)
    (prediction : Dynamodb.Prediction.t) :
  AgentOrchestrator.check_entry_conditions conditions prediction = Ok true
  <-> Forall (fun condition =>
                AgentOrchestrator.evaluate_entry_condition condition prediction
                = Ok true) conditions.
Proof.
  induction conditions as [| c conditions IH]; simpl.
  - split; [intros _; constructor | reflexivity].
  - destruct (AgentOrchestrator.evaluate_entry_condition c prediction)
      as [[|] | e] eqn:E.
    + rewrite IH. split.
      * intros H. constructor; [exact E | exact H].
      * intros H. inversion H; assumption.
    + split; [discriminate |].
      intros H. inversion H as [| ? ? Hc _]. rewrite E in Hc. discriminate Hc.
    + split; [discriminate |].
      intros H. inversion H as [| ? ? Hc _]. rewrite E in Hc. discriminate Hc.
Qed.

(** X1. [should_open_position] answers True exactly when the prediction's
    confidence level is at least the strategy's minConfidence (medium when
    absent; an unknown prediction level counts as low, an unknown minimum as
    medium), its edge is at least minEdge (0.05 when absent) and every
    entry condition evaluates to True.  The two thresholds are tested
    first: a prediction below one of them is refused with False even when
    an entry condition could not be evaluated. *)
Theorem should_open_position_iff (prediction : Dynamodb.Prediction.t)
    (strategy : Strategy.t) :
  let risk_controls :=
    Py.get (Strategy.riskControls strategy) Strategy.no_RiskControls in
  let required :=
    Py.get (AgentOrchestrator.CONFIDENCE_ORDER
              (Py.get (Strategy.minConfidence risk_controls) "medium")) 1%Z in
  let actual :=
    Py.get (AgentOrchestrator.CONFIDENCE_ORDER
              (Dynamodb.Prediction.confidence prediction)) 0%Z in
  let min_edge := Py.get (Strategy.minEdge risk_controls) (5 # 100)%Q in
  (AgentOrchestrator.should_open_position prediction strategy = Ok true
   <-> (required <= actual)%Z
       /\ (min_edge <= Dynamodb.Prediction.edge prediction)%Q
       /\ Forall (fun condition =>
                    AgentOrchestrator.evaluate_entry_condition condition prediction
                    = Ok true)
                 (Py.get (Strategy.entryConditions strategy) []))
  /\ ((actual < required)%Z
      \/ (Dynamodb.Prediction.edge prediction < min_edge)%Q ->
      AgentOrchestrator.should_open_position prediction strategy = Ok false).
Proof.
  intros risk_controls required actual min_edge.
  unfold AgentOrchestrator.should_open_position.
  fold risk_controls. fold required. fold actual. fold min_edge.
  destruct (Z.ltb_spec actual required) as [Hlt | Hge].
  - split.
    + split; [discriminate | intros [H _]; lia].
    + reflexivity.
  - destruct (Py.Qlt_bool (Dynamodb.Prediction.edge prediction) min_edge) eqn:He.
    + apply Qlt_bool_iff in He. split.
      * split; [discriminate | intros [_ [H _]]; lra].
      * reflexivity.
    + apply Qlt_bool_false_iff in He. split.
      * rewrite check_entry_conditions_true. tauto.
      * intros [H | H]; [lia | lra].
Qed.

End OpeningDecision.

Section MarketStep.
Import Effects.

Local Opaque AgentOrchestrator.should_open_position
  AgentOrchestrator.calculate_position_size
  DynamoDBClient.first_for_market DynamoDBClient.latest_first
  Py.Qlt_bool pretty.

Lemma request_direction_queue (strategy : Strategy.t) (p : Dynamodb.Prediction.t) :
  match Strategy.positionDirection strategy with
  | Some d =>
      if Py.str_in d ["YES"; "NO"] then d
      else Dynamodb.Prediction.recommended_direction p
  | None => Dynamodb.Prediction.recommended_direction p
  end = Props.request_direction strategy p.
Proof.
  unfold Props.request_direction.
  destruct (Strategy.positionDirection strategy) as [d |]; [| reflexivity].
  unfold Py.str_in. simpl.
  destruct (String.eqb_spec d "YES") as [-> | Hy]; [reflexivity |].
  destruct (String.eqb_spec d "NO") as [-> | Hn]; [reflexivity |].
  simpl.
  repeat match goal with
  | |- context [match ?x with _ => _ end] => destruct x; try reflexivity
  end; congruence.
Qed.

Lemma built_edge (a : Bedrock.Analysis) (market : WhetherApi.Market.t) :
  (WhetherApi.Market.yes_probability market / 100
   == WhetherApi.Market.yes_price market)%Q
  /\ (Py.abs (Bedrock.predictedProbability a
              - WhetherApi.Market.yes_probability market / 100)
      == Qabs (Bedrock.predictedProbability a
               - WhetherApi.Market.yes_probability market / 100))%Q.
Proof.
  split; [| reflexivity].
  unfold WhetherApi.Market.yes_probability. field.
Qed.

(** [queue_position] reads the clock, and then appends one request, or
    raises TypeError when the chat identifier cannot be serialised. *)
Lemma queue_position_effects (agent : Dynamodb.Agent.t)
    (market : WhetherApi.Market.t) (p : Dynamodb.Prediction.t)
    (strategy : Strategy.t) (w : World) :
  exists m,
    Props.request_for agent market strategy p m
    /\ AgentOrchestrator.queue_position agent market p strategy w
       = if Py.json_serializable (Dynamodb.Agent.telegram_chat_id agent)
         then (Ok tt,
               set_position_queue (fun q => q ++ [m]) (snd (datetime_now w)))
         else (Raised TypeError, snd (datetime_now w)).
Proof.
  unfold AgentOrchestrator.queue_position.
  rewrite request_direction_queue.
  eexists. split; cycle 1.
  - unfold bind, datetime_now, modify, raise. cbn [fst snd].
    destruct (Py.json_serializable (Dynamodb.Agent.telegram_chat_id agent));
      reflexivity.
  - repeat split.
Qed.

Local Opaque AgentOrchestrator.queue_position Qabs Qminus Qdiv Qmult
  WhetherApi.Market.yes_probability.

Local Ltac market_step_done :=
  cbn; change (Z.of_nat 1) with 1%Z; change (Z.of_nat 0) with 0%Z;
  rewrite ?Z.add_0_r, ?app_nil_r, <- ?app_assoc;
  repeat split; try reflexivity; try lia; try discriminate;
  try (match goal with a : Bedrock.Analysis |- _ => apply (built_edge a) end);
  repeat (constructor; try split; try reflexivity).

Local Ltac market_step :=
  match goal with
  | |- context [AgentOrchestrator.queue_position ?a ?m ?p ?s ?w] =>
      let msg := fresh "msg" in
      let Hm := fresh "Hmsg" in
      let E := fresh "E" in
      destruct (queue_position_effects a m p s w) as [msg [Hm E]];
      rewrite E; cbn [fst snd]
  | |- context [match ?x with _ => _ end] =>
      lazymatch x with
      | context [match _ with _ => _ end] => fail
      | _ => destruct x eqn:?; cbn [fst snd]
      end
  end.

(** What one iteration of the loop of [process_agent] does.  It never
    raises.  It appends at most one prediction, built from a reply of the
    model, and after it at most one request, queued exactly when
    [should_open_position] answers True for the prediction.  The counters
    count what was appended. *)
Lemma process_market_effects (env : Env) (agent : Dynamodb.Agent.t)
    (strategy : Strategy.t) (counters : Z * Z) (market : WhetherApi.Market.t)
    (w : World) :
  let r := AgentOrchestrator.process_market env agent strategy counters market w in
  exists (stored : list Dynamodb.Prediction.t) (queued : list Message),
    fst r = Ok (fst counters + Z.of_nat (length stored),
                snd counters + Z.of_nat (length queued))%Z
    /\ predictions_table (snd r) = predictions_table w ++ stored
    /\ position_queue (snd r) = position_queue w ++ queued
    /\ (length queued <= length stored <= 1)%nat
    /\ Props.same_elsewhere w (snd r)
    /\ telegram (snd r) = telegram w
    /\ Forall (fun p =>
                 (exists w0 a,
                    invoke_analysis env agent market w0 = Ok a
                    /\ Props.built_from agent market a p)
                 /\ (queued <> []
                     <-> AgentOrchestrator.should_open_position p strategy
                         = Ok true
                         /\ Py.json_serializable
                              (Dynamodb.Agent.telegram_chat_id agent) = true)
                 /\ Forall (Props.request_for agent market strategy p) queued)
              stored.
Proof.
  intros r. subst r. destruct counters as [pc pq].
  unfold AgentOrchestrator.process_market,
    DynamoDBClient.get_prediction_for_market,
    DynamoDBClient.get_predictions_by_agent,
    AgentOrchestrator.analyze_market_for_agent, BedrockClient.analyze_market,
    DynamoDBClient.Prediction_create, DynamoDBClient.create_prediction.
  unfold try_except, bind, gets, ret, ask, lift, raise, modify, datetime_now,
    uuid4.
  cbn [fst snd].
  repeat market_step.
  all: first
    [ solve [exists [], []; market_step_done]
    | solve [eexists [_], []; market_step_done]
    | solve [eexists [_], [_]; market_step_done]
    | idtac ].
  all: cbn in *; subst;
    first [ match goal with
            | H : Py.json_serializable _ = false |- _ => eexists [_], []
            end
          | match goal with m : Message |- _ => eexists [_], [m] end
          | eexists [_], [] ];
    unfold Props.same_elsewhere, set_position_queue, set_predictions_table;
    cbn; change (Z.of_nat 1) with 1%Z; change (Z.of_nat 0) with 0%Z;
    rewrite ?Z.add_0_r, ?app_nil_r, <- ?app_assoc;
    repeat match goal with |- _ /\ _ => split end;
    try reflexivity; try lia.
  all: constructor 2; [| constructor 1].
  all: split;
    [ do 2 eexists; split; [eassumption |];
      unfold Props.built_from; cbn;
      repeat match goal with |- _ /\ _ => split end;
      try reflexivity; eauto;
      match goal with a : Bedrock.Analysis |- _ => apply (built_edge a) end
    | split;
      [ split;
        [ intros Hq;
          first [ exfalso; apply Hq; reflexivity
                | split; first [assumption | reflexivity] ]
        | intros [Ht Hj]; first [discriminate | congruence] ]
      | first [constructor 1
              | constructor 2; [assumption | constructor 1]] ] ].
Qed.



End MarketStep.

Section AgentRun.
Import Effects.

Lemma analysed_nil (env : Env) (agent : Dynamodb.Agent.t)
    (strategy : Strategy.t) (ms : list WhetherApi.Market.t) :
  Props.analysed env agent strategy ms [] [].
Proof.
  split; [constructor | split; [constructor |]].
  intros H. exfalso. apply H. reflexivity.
Qed.

Lemma analysed_app (env : Env) (agent : Dynamodb.Agent.t)
    (strategy : Strategy.t) (market : WhetherApi.Market.t)
    (ms : list WhetherApi.Market.t)
    (stored1 stored2 : list Dynamodb.Prediction.t) (queued1 queued2 : list Message) :
  Props.analysed env agent strategy [market] stored1 queued1 ->
  Props.analysed env agent strategy ms stored2 queued2 ->
  Props.analysed env agent strategy (market :: ms)
    (stored1 ++ stored2) (queued1 ++ queued2).
Proof.
  intros [Hs1 [Hq1 Hj1]] [Hs2 [Hq2 Hj2]]. split; [| split].
  - apply Forall_app. split.
    + eapply List.Forall_impl; [| exact Hs1].
      intros p [mk [Hin [Hb Ho]]]. exists mk.
      destruct Hin as [<- | []]. split; [left; reflexivity |].
      split; [exact Hb |].
      intros H Hj. destruct (Ho H Hj) as [m [Hm Hr]].
      exists m. split; [apply in_or_app; left; exact Hm | exact Hr].
    + eapply List.Forall_impl; [| exact Hs2].
      intros p [mk [Hin [Hb Ho]]]. exists mk.
      split; [right; exact Hin |]. split; [exact Hb |].
      intros H Hj. destruct (Ho H Hj) as [m [Hm Hr]].
      exists m. split; [apply in_or_app; right; exact Hm | exact Hr].
  - apply Forall_app. split.
    + eapply List.Forall_impl; [| exact Hq1].
      intros m [mk [p [Hin [Hp [Ho Hr]]]]]. exists mk, p.
      destruct Hin as [<- | []].
      split; [left; reflexivity |].
      split; [apply in_or_app; left; exact Hp |]. split; assumption.
    + eapply List.Forall_impl; [| exact Hq2].
      intros m [mk [p [Hin [Hp [Ho Hr]]]]]. exists mk, p.
      split; [right; exact Hin |].
      split; [apply in_or_app; right; exact Hp |]. split; assumption.
  - intros Hne. destruct queued1 as [| m queued1].
    + apply Hj2. exact Hne.
    + apply Hj1. discriminate.
Qed.

(** One step of the loop, in the vocabulary of [Props.analysed]. *)
Lemma process_market_analysed (env : Env) (agent : Dynamodb.Agent.t)
    (strategy : Strategy.t) (counters : Z * Z) (market : WhetherApi.Market.t)
    (w : World) :
  let r := AgentOrchestrator.process_market env agent strategy counters market w in
  exists stored queued,
    fst r = Ok (fst counters + Z.of_nat (length stored),
                snd counters + Z.of_nat (length queued))%Z
    /\ predictions_table (snd r) = predictions_table w ++ stored
    /\ position_queue (snd r) = position_queue w ++ queued
    /\ (length queued <= length stored <= 1)%nat
    /\ Props.same_elsewhere w (snd r)
    /\ telegram (snd r) = telegram w
    /\ Props.analysed env agent strategy [market] stored queued.
Proof.
  intros r.
  destruct (process_market_effects env agent strategy counters market w)
    as [stored [queued [H1 [H2 [H3 [H4 [H5 [H6 H7]]]]]]]].
  exists stored, queued. fold r in H1, H2, H3, H5, H6.
  repeat (split; [assumption |]).
  destruct stored as [| p [| p' stored]]; [| | simpl in H4; lia].
  - destruct queued; [apply analysed_nil | simpl in H4; lia].
  - inversion H7 as [| ? ? [Hb [Ho Hr]] _]; subst.
    destruct queued as [| m queued].
    + split; [| split; [constructor |]].
      * constructor 2; [| constructor 1].
        exists market. split; [left; reflexivity |]. split; [exact Hb |].
        intros Ht Hj. exfalso. apply (proj2 Ho); [| reflexivity].
        split; assumption.
      * intros Hne. exfalso. apply Hne. reflexivity.
    + assert (Ht : AgentOrchestrator.should_open_position p strategy = Ok true
                   /\ Py.json_serializable (Dynamodb.Agent.telegram_chat_id agent)
                      = true)
        by (apply Ho; discriminate).
      split; [| split].
      * constructor 2; [| constructor 1].
        exists market. split; [left; reflexivity |]. split; [exact Hb |].
        intros _ _. exists m. split; [left; reflexivity |].
        inversion Hr; assumption.
      * eapply List.Forall_impl; [| exact Hr].
        intros m' Hm. exists market, p.
        split; [left; reflexivity |]. split; [left; reflexivity |].
        split; [exact (proj1 Ht) | exact Hm].
      * intros _. exact (proj2 Ht).
Qed.

(** The loop of [process_agent] over the relevant markets. *)
Lemma process_markets_effects (env : Env) (agent : Dynamodb.Agent.t)
    (strategy : Strategy.t) (ms : list WhetherApi.Market.t) :
  forall (counters : Z * Z) (w : World),
  let r := for_fold ms counters
             (AgentOrchestrator.process_market env agent strategy) w in
  exists stored queued,
    fst r = Ok (fst counters + Z.of_nat (length stored),
                snd counters + Z.of_nat (length queued))%Z
    /\ predictions_table (snd r) = predictions_table w ++ stored
    /\ position_queue (snd r) = position_queue w ++ queued
    /\ (length queued <= length stored <= length ms)%nat
    /\ Props.same_elsewhere w (snd r)
    /\ telegram (snd r) = telegram w
    /\ Props.analysed env agent strategy ms stored queued.
Proof.
  induction ms as [| market ms IH]; intros counters w r.
  - exists [], []. subst r. simpl. unfold ret. simpl.
    rewrite !Z.add_0_r, !app_nil_r. destruct counters.
    repeat split; try reflexivity; try lia;
      first [constructor | intros H; exfalso; apply H; reflexivity].
  - subst r. simpl for_fold. unfold bind.
    destruct (process_market_analysed env agent strategy counters market w)
      as [s1 [q1 [H1 [H2 [H3 [H4 [H5 [H6 H7]]]]]]]].
    destruct (AgentOrchestrator.process_market env agent strategy counters market w)
      as [res w1].
    simpl in H1, H2, H3, H5, H6. subst res. cbv beta iota.
    destruct (IH (fst counters + Z.of_nat (length s1),
                  snd counters + Z.of_nat (length q1))%Z w1)
      as [s2 [q2 [G1 [G2 [G3 [G4 [G5 [G6 G7]]]]]]]].
    exists (s1 ++ s2), (q1 ++ q2).
    rewrite G1, G2, G3, G6, H2, H3, H6. cbn [fst snd].
    rewrite !length_app, !Nat2Z.inj_add, <- !app_assoc, !Z.add_assoc.
    repeat split; try reflexivity; try (simpl; lia).
    + destruct G5 as [? _], H5 as [? _]; congruence.
    + destruct G5 as [_ [? _]], H5 as [_ [? _]]; congruence.
    + destruct G5 as [_ [_ [? _]]], H5 as [_ [_ [? _]]]; congruence.
    + destruct G5 as [_ [_ [_ ?]]], H5 as [_ [_ [_ ?]]]; congruence.
    + apply (analysed_app _ _ _ _ _ _ _ _ _ H7 G7).
    + apply (analysed_app _ _ _ _ _ _ _ _ _ H7 G7).
    + apply (analysed_app _ _ _ _ _ _ _ _ _ H7 G7).
Qed.

(** [process_agent] never raises; its effects are those of the loop over
    the markets that pass the filter at the clock reading, and one
    notification when a request was queued. *)
Lemma process_agent_effects (env : Env) (agent : Dynamodb.Agent.t)
    (markets : list WhetherApi.Market.t) (w : World) :
  let strategy := Dynamodb.Agent.strategy_config agent in
  let relevant := AgentOrchestrator.filter_markets_at (clock w) markets strategy in
  let r := AgentOrchestrator.process_agent env agent markets w in
  exists stored queued,
    fst r = Ok {| AgentOrchestrator.summary_agentId := Dynamodb.Agent.agent_id agent;
                  AgentOrchestrator.marketsAnalyzed := Z.of_nat (length relevant);
                  AgentOrchestrator.predictions := Z.of_nat (length stored);
                  AgentOrchestrator.positionsQueued := Z.of_nat (length queued) |}
    /\ predictions_table (snd r) = predictions_table w ++ stored
    /\ position_queue (snd r) = position_queue w ++ queued
    /\ (length queued <= length stored <= length relevant)%nat
    /\ Props.same_elsewhere w (snd r)
    /\ telegram (snd r) = telegram w ++ Props.agent_update agent stored queued
    /\ Props.analysed env agent strategy relevant stored queued.
Proof.
  intros strategy relevant r.
  assert (Hr : r = AgentOrchestrator.process_agent env agent markets w)
    by reflexivity.
  clearbody r.
  unfold AgentOrchestrator.process_agent,
    AgentOrchestrator.filter_markets_for_strategy in Hr.
  fold strategy in Hr.
  unfold bind, datetime_now in Hr. cbn [fst snd] in Hr.
  unfold ret at 1 in Hr. cbn [fst snd] in Hr.
  fold relevant in Hr.
  destruct (Py.truthy relevant) eqn:Et.
  - cbn [negb] in Hr.
    match type of Hr with
    | context [for_fold ?ms ?c ?b ?w0] =>
        destruct (process_markets_effects env agent strategy ms c w0)
          as [stored [queued [H1 [H2 [H3 [H4 [H5 [H6 H7]]]]]]]];
        destruct (for_fold ms c b w0) as [res w1]
    end.
    cbn [fst snd] in H1, H2, H3, H5, H6. subst res.
    cbn [predictions_table position_queue telegram] in H2, H3, H6.
    rewrite !Z.add_0_l in Hr.
    cbn [fst snd] in Hr.
    exists stored, queued.
    destruct queued as [| m queued].
    + change (0 <? Z.of_nat (length (@nil Message)))%Z with false in Hr.
      unfold ret in Hr. subst r. cbn [fst snd Props.agent_update].
      unfold Props.agent_update. rewrite app_nil_r in H3. rewrite !app_nil_r.
      repeat split; try assumption; try apply H5; try apply H4; apply H7.
    + replace (0 <? Z.of_nat (length (m :: queued)))%Z with true in Hr
        by (symmetry; apply Z.ltb_lt; simpl length; lia).
      unfold ret, AgentOrchestrator.send_agent_notification, modify in Hr.
      subst r. cbn [fst snd Props.agent_update set_telegram predictions_table
                    position_queue telegram].
      unfold Props.agent_update. rewrite H6.
      repeat split; try assumption; try apply H5; try apply H4; apply H7.
  - cbn [negb] in Hr. unfold ret in Hr. subst r.
    assert (Hn : relevant = []) by (destruct relevant; [reflexivity | discriminate]).
    rewrite Hn.
    exists [], []. cbn. rewrite !app_nil_r.
    repeat split; try reflexivity; try lia;
      first [constructor | intros H; exfalso; apply H; reflexivity].
Qed.

End AgentRun.

(** ** One run of an agent *)

Section AgentRunProperties.
Import Effects.

Lemma filter_markets_at_incl (now : Z) (markets : list WhetherApi.Market.t)
    (strategy : Strategy.t) (market : WhetherApi.Market.t) :
  In market (AgentOrchestrator.filter_markets_at now markets strategy) ->
  In market markets.
Proof.
  unfold AgentOrchestrator.filter_markets_at.
  rewrite filter_loop_filter. simpl. rewrite filter_In. tauto.
Qed.

Lemma filter_markets_at_length (now : Z) (markets : list WhetherApi.Market.t)
    (strategy : Strategy.t) :
  (length (AgentOrchestrator.filter_markets_at now markets strategy)
   <= length markets)%nat.
Proof.
  unfold AgentOrchestrator.filter_markets_at.
  rewrite filter_loop_filter. simpl. apply filter_length_le.
Qed.

Lemma request_direction_cases (strategy : Strategy.t) (p : Dynamodb.Prediction.t) :
  Props.request_direction strategy p = "YES"
  \/ Props.request_direction strategy p = "NO"
  \/ Props.request_direction strategy p
     = Dynamodb.Prediction.recommended_direction p.
Proof.
  unfold Props.request_direction.
  repeat match goal with
  | |- context [match ?x with _ => _ end] => destruct x
  end; auto.
Qed.

Lemma PositionDirection_value_cases (side : Bedrock.PositionDirection) :
  In (Bedrock.PositionDirection_value side) ["YES"; "NO"; "dynamic"].
Proof. destruct side; simpl; auto. Qed.

(** X2. [process_agent] never raises.  Its summary names the agent and
    counts what the run did: marketsAnalyzed is the number of markets that
    pass the strategy's filter at the clock reading, predictions the number
    of prediction records appended to the table, positionsQueued the number
    of requests appended to the queue, and
    positionsQueued <= predictions <= marketsAnalyzed <= len(markets).
    One notification goes to the agent's chat exactly when a request was
    queued; the agents, the positions, the leaderboard and the paper
    positions are left as they were. *)
Theorem process_agent_summary (env : Env) (agent : Dynamodb.Agent.t)
    (markets : list WhetherApi.Market.t) (w : World) :
  let r := AgentOrchestrator.process_agent env agent markets w in
  exists summary stored queued,
    fst r = Ok summary
    /\ AgentOrchestrator.summary_agentId summary = Dynamodb.Agent.agent_id agent
    /\ AgentOrchestrator.marketsAnalyzed summary
       = Z.of_nat (length (AgentOrchestrator.filter_markets_at (clock w) markets
                             (Dynamodb.Agent.strategy_config agent)))
    /\ predictions_table (snd r) = predictions_table w ++ stored
    /\ AgentOrchestrator.predictions summary = Z.of_nat (length stored)
    /\ position_queue (snd r) = position_queue w ++ queued
    /\ AgentOrchestrator.positionsQueued summary = Z.of_nat (length queued)
    /\ (AgentOrchestrator.positionsQueued summary
        <= AgentOrchestrator.predictions summary
        <= AgentOrchestrator.marketsAnalyzed summary)%Z
    /\ (AgentOrchestrator.marketsAnalyzed summary <= Z.of_nat (length markets))%Z
    /\ telegram (snd r)
       = telegram w
         ++ (if (0 <? AgentOrchestrator.positionsQueued summary)%Z
             then [AgentUpdate (Dynamodb.Agent.telegram_chat_id agent)
                               (Dynamodb.Agent.strategy_name agent)
                               (AgentOrchestrator.positionsQueued summary)
                               (AgentOrchestrator.predictions summary)]
             else [])
    /\ agents_table (snd r) = agents_table w
    /\ positions_table (snd r) = positions_table w
    /\ leaderboard_table (snd r) = leaderboard_table w
    /\ paper_positions (snd r) = paper_positions w.
Proof.
  intros r.
  destruct (process_agent_effects env agent markets w)
    as [stored [queued [H1 [H2 [H3 [H4 [[E1 [E2 [E3 E4]]] [H6 H7]]]]]]]].
  fold r in H1, H2, H3, E1, E2, E3, E4, H6. clearbody r.
  eexists _, stored, queued. split; [exact H1 |]. cbn.
  pose proof (filter_markets_at_length (clock w) markets
                (Dynamodb.Agent.strategy_config agent)) as Hl.
  repeat match goal with |- _ /\ _ => split end;
    try reflexivity; try assumption; try lia.
  rewrite H6. f_equal. unfold Props.agent_update.
  destruct queued; reflexivity.
Qed.

(** X3. Every request that [process_agent] puts on the queue carries all
    the keys the executor reads, names the agent and its chat, and belongs
    to one of the given markets and to a prediction stored in the same run
    for which [should_open_position] answered True.  Its size is the value
    of [calculate_position_size] for that prediction, at most the
    maxPositionSize that the strategy configures (0.20 when it configures
    none); its direction is YES, NO or dynamic, and its entry price is the
    market's YES price for YES and its NO price otherwise. *)
Theorem process_agent_requests (env : Env) (agent : Dynamodb.Agent.t)
    (markets : list WhetherApi.Market.t) (w : World) :
  let strategy := Dynamodb.Agent.strategy_config agent in
  let r := AgentOrchestrator.process_agent env agent markets w in
  exists queued,
    position_queue (snd r) = position_queue w ++ queued
    /\ Forall
         (fun m =>
            Spec.complete_message m
            /\ agentId m = Some (Dynamodb.Agent.agent_id agent)
            /\ telegramChatId m = Some (Dynamodb.Agent.telegram_chat_id agent)
            /\ exists market p d,
                 In market markets
                 /\ In p (predictions_table (snd r))
                 /\ AgentOrchestrator.should_open_position p strategy = Ok true
                 /\ marketId m = Some (WhetherApi.Market.id market)
                 /\ predictionId m = Some (Dynamodb.Prediction.prediction_id p)
                 /\ size m
                    = Some (AgentOrchestrator.calculate_position_size p strategy agent)
                 /\ (AgentOrchestrator.calculate_position_size p strategy agent
                     <= Spec.configured_max strategy)%Q
                 /\ direction m = Some d
                 /\ In d ["YES"; "NO"; "dynamic"]
                 /\ entryPrice m
                    = Some (if d =? "YES" then WhetherApi.Market.yes_price market
                            else WhetherApi.Market.no_price market))
         queued.
Proof.
  intros strategy r.
  destruct (process_agent_effects env agent markets w)
    as [stored [queued [_ [H2 [H3 [_ [_ [_ [Hst [Hq _]]]]]]]]]].
  fold r in H2, H3. fold strategy in Hst, Hq. clearbody r.
  exists queued. split; [exact H3 |].
  rewrite List.Forall_forall in Hst. rewrite List.Forall_forall in Hq |- *.
  intros m Hmq.
  destruct (Hq m Hmq)
    as [market [p [Hin [Hp [Ho [Ha [Hm [Hd [Hs [He [Hi Hc]]]]]]]]]]].
  split; [| split; [exact Ha | split; [exact Hc |]]].
  { unfold Spec.complete_message. rewrite Ha, Hm, Hd, Hs, He.
    repeat split; eexists; reflexivity. }
  exists market, p, (Props.request_direction strategy p).
  split; [exact (filter_markets_at_incl _ _ _ _ Hin) |].
  split; [rewrite H2; apply in_or_app; right; exact Hp |].
  split; [exact Ho |]. split; [exact Hm |]. split; [exact Hi |].
  split; [exact Hs |].
  split; [rewrite <- max_position_spec;
          apply calculate_position_size_le_max_position |].
  split; [exact Hd |]. split; [| exact He].
  destruct (request_direction_cases strategy p) as [-> | [-> | ->]];
    [simpl; auto | simpl; auto |].
  destruct (Hst p Hp) as [mk [_ [[w0 [a [_ Hb]]] _]]].
  destruct Hb as [_ [_ [_ [_ [_ [_ [[side [_ ->]] _]]]]]]].
  apply PositionDirection_value_cases.
Qed.

End AgentRunProperties.

(** ** A model that gives no usable reply *)

Section UnusableReplies.
Import Effects.

(** X4. When the model gives no usable reply for the agent on any of the
    markets (the call raises, or the reply's confidence or recommended
    direction is outside its enumeration), [process_agent] still returns
    its summary, with predictions 0 and positionsQueued 0: no prediction is
    stored, nothing is queued and no notification is sent. *)
Theorem process_agent_without_replies (env : Env) (agent : Dynamodb.Agent.t)
    (markets : list WhetherApi.Market.t) (w : World)
    (Hno : forall market w0 a,
             In market markets ->
             invoke_analysis env agent market w0 = Ok a ->
             ~ Props.valid_reply a) :
  let r := AgentOrchestrator.process_agent env agent markets w in
  exists summary,
    fst r = Ok summary
    /\ AgentOrchestrator.predictions summary = 0%Z
    /\ AgentOrchestrator.positionsQueued summary = 0%Z
    /\ predictions_table (snd r) = predictions_table w
    /\ position_queue (snd r) = position_queue w
    /\ telegram (snd r) = telegram w.
Proof.
  intros r.
  destruct (process_agent_effects env agent markets w)
    as [stored [queued [H1 [H2 [H3 [H4 [_ [H6 [Hst _]]]]]]]]].
  fold r in H1, H2, H3, H6. clearbody r.
  assert (Hs : stored = []).
  { destruct stored as [| p stored]; [reflexivity | exfalso].
    inversion Hst as [| ? ? [market [Hin [[w0 [a [Ha Hb]]] _]]] _]; subst.
    apply (Hno market w0 a); [| exact Ha |].
    - exact (filter_markets_at_incl _ _ _ _ Hin).
    - destruct Hb as [_ [_ [_ [_ [_ [[level [Hl _]] [[side [Hd _]] _]]]]]]].
      split; eexists; eassumption. }
  subst stored.
  assert (Hq : queued = []) by (destruct queued; [reflexivity | simpl in H4; lia]).
  subst queued.
  rewrite app_nil_r in H2, H3. simpl in H6. rewrite app_nil_r in H6.
  eexists. split; [exact H1 |]. simpl. repeat split; assumption.
Qed.

Lemma process_agent_without_replies_witness :
  let r := AgentOrchestrator.process_agent (Cases.env_failing [Examples.market])
             Examples.agent [Examples.market] Examples.world in
  exists summary,
    fst r = Ok summary
    /\ AgentOrchestrator.predictions summary = 0%Z
    /\ AgentOrchestrator.positionsQueued summary = 0%Z
    /\ predictions_table (snd r) = predictions_table Examples.world
    /\ position_queue (snd r) = position_queue Examples.world
    /\ telegram (snd r) = telegram Examples.world.
Proof.
  apply (process_agent_without_replies (Cases.env_failing [Examples.market])
           Examples.agent [Examples.market] Examples.world).
  intros market w0 a _ H. simpl in H. discriminate H.
Defined.

End UnusableReplies.

(** ** One orchestration cycle *)

Section OrchestrationCycle.
Import Effects.

Lemma fold_left_add_from (l : list Z) (start : Z) :
  fold_left Z.add l start = (start + fold_left Z.add l 0)%Z.
Proof.
  revert start. induction l as [| x l IH]; intros start; simpl.
  - lia.
  - rewrite (IH (start + x)%Z), (IH (0 + x)%Z). lia.
Qed.

Lemma total_predictions_app (results results' : list AgentOrchestrator.AgentResult) :
  AgentOrchestrator.total_predictions (results ++ results')
  = (AgentOrchestrator.total_predictions results
     + AgentOrchestrator.total_predictions results')%Z.
Proof.
  unfold AgentOrchestrator.total_predictions.
  rewrite map_app, fold_left_app. apply fold_left_add_from.
Qed.

Lemma total_positions_queued_app
    (results results' : list AgentOrchestrator.AgentResult) :
  AgentOrchestrator.total_positions_queued (results ++ results')
  = (AgentOrchestrator.total_positions_queued results
     + AgentOrchestrator.total_positions_queued results')%Z.
Proof.
  unfold AgentOrchestrator.total_positions_queued.
  rewrite map_app, fold_left_app. apply fold_left_add_from.
Qed.

(** The loop of [lambda_handler] over the agents. *)
Lemma agents_loop_effects (env : Env) (markets : list WhetherApi.Market.t)
    (agents : list Dynamodb.Agent.t) :
  forall (results : list AgentOrchestrator.AgentResult) (w : World),
  let r :=
    for_fold agents results
      (fun results agent =>
         try_except
           (bind (AgentOrchestrator.process_agent env agent markets)
                 (fun result =>
                    ret (results ++ [AgentOrchestrator.Processed result])))
           (fun e =>
              ret (results
                   ++ [AgentOrchestrator.Failed (Dynamodb.Agent.agent_id agent) e])))
      w in
  exists more stored queued,
    fst r = Ok (results ++ more)
    /\ length more = length agents
    /\ AgentOrchestrator.total_predictions more = Z.of_nat (length stored)
    /\ AgentOrchestrator.total_positions_queued more = Z.of_nat (length queued)
    /\ predictions_table (snd r) = predictions_table w ++ stored
    /\ position_queue (snd r) = position_queue w ++ queued
    /\ Props.same_elsewhere w (snd r)
    /\ Forall (fun p => exists agent,
                 In agent agents
                 /\ Dynamodb.Prediction.agent_id p = Dynamodb.Agent.agent_id agent)
              stored
    /\ Forall (fun m => exists agent,
                 In agent agents
                 /\ agentId m = Some (Dynamodb.Agent.agent_id agent))
              queued
    /\ (queued = [] -> telegram (snd r) = telegram w)
    /\ (queued <> [] ->
        exists agent,
          In agent agents
          /\ Py.json_serializable (Dynamodb.Agent.telegram_chat_id agent) = true).
Proof.
  induction agents as [| agent agents IH]; intros results w r.
  - exists [], [], []. subst r. simpl. unfold ret. simpl.
    rewrite !app_nil_r.
    repeat split;
      first [constructor | intros H; exfalso; apply H; reflexivity].
  - assert (Hr : r = for_fold (agent :: agents) results
      (fun results agent =>
         try_except
           (bind (AgentOrchestrator.process_agent env agent markets)
                 (fun result =>
                    ret (results ++ [AgentOrchestrator.Processed result])))
           (fun e =>
              ret (results
                   ++ [AgentOrchestrator.Failed (Dynamodb.Agent.agent_id agent) e])))
      w) by reflexivity.
    clearbody r. simpl for_fold in Hr. unfold bind at 1, try_except at 1 in Hr.
    unfold bind at 1 in Hr.
    destruct (process_agent_effects env agent markets w)
      as [s1 [q1 [H1 [H2 [H3 [_ [H5 [H6 [Hs [Hq Hj]]]]]]]]]].
    destruct (AgentOrchestrator.process_agent env agent markets w) as [res w1].
    cbn [fst snd] in H1, H2, H3, H5, H6. subst res.
    unfold ret at 1 in Hr. cbn [fst snd] in Hr.
    match type of Hr with
    | r = for_fold _ ?acc _ _ =>
        destruct (IH acc w1)
          as [more [s2 [q2 [G1 [G2 [G3 [G4 [G5 [G6 [G7 [G8 [G9 [G10 G11]]]]]]]]]]]]]
    end.
    rewrite <- Hr in G1, G5, G6, G7, G10. clear Hr.
    eexists (_ :: more), (s1 ++ s2), (q1 ++ q2).
    rewrite G1, G5, G6, H2, H3, <- !app_assoc.
    change (?x :: more) with ([x] ++ more).
    rewrite total_predictions_app, total_positions_queued_app, G3, G4.
    rewrite !length_app, !Nat2Z.inj_add.
    split; [reflexivity |].
    split; [simpl; lia |].
    split; [unfold AgentOrchestrator.total_predictions; simpl; lia |].
    split; [unfold AgentOrchestrator.total_positions_queued; simpl; lia |].
    split; [reflexivity |]. split; [reflexivity |].
    split.
    { destruct H5 as [? [? [? ?]]], G7 as [? [? [? ?]]].
      repeat split; congruence. }
    split.
    { apply Forall_app. split.
      - eapply List.Forall_impl; [| exact Hs].
        intros p [market [_ [[w0 [a [_ Hb]]] _]]].
        exists agent. split; [left; reflexivity | apply Hb].
      - eapply List.Forall_impl; [| exact G8].
        intros p [ag [Hin Hp]]. exists ag. split; [right; exact Hin | exact Hp]. }
    split.
    { apply Forall_app. split.
      - eapply List.Forall_impl; [| exact Hq].
        intros m [market [p [_ [_ [_ Hm]]]]].
        exists agent. split; [left; reflexivity | apply Hm].
      - eapply List.Forall_impl; [| exact G9].
        intros m [ag [Hin Hm]]. exists ag. split; [right; exact Hin | exact Hm]. }
    split.
    + intros Hnil. apply app_eq_nil in Hnil as [-> ->].
      rewrite (G10 eq_refl), H6. unfold Props.agent_update.
      apply app_nil_r.
    + intros Hne. destruct q1 as [| m q1].
      * destruct (G11 Hne) as [ag [Hin Hag]].
        exists ag. split; [right; exact Hin | exact Hag].
      * exists agent. split; [left; reflexivity |].
        apply Hj. discriminate.
Qed.

(** Every agent of the scan is the record read from an item that is
    stored with status active; its chat identifier is a [Decimal]. *)
Lemma get_active_agents_active (w : World) (agent : Dynamodb.Agent.t) :
  In agent (map DynamoDBClient.Agent_from_dynamo_item
              (List.filter
                 (fun a => Dynamodb.AgentStatus_value (Dynamodb.Agent.status a)
                           =? "active")
                 (map snd (map_to_list (agents_table w))))) ->
  exists item,
    Props.active_in w item
    /\ agent = DynamoDBClient.Agent_from_dynamo_item item.
Proof.
  rewrite in_map_iff. intros [item [<- Hin]]. exists item.
  split; [| reflexivity].
  apply filter_In in Hin as [Hin Hs].
  apply in_map_iff in Hin as [[key a] [Ha Hin]]. simpl in Ha. subst a.
  exists key. split.
  - apply elem_of_map_to_list. apply list_elem_of_In. exact Hin.
  - apply AgentStatus_active. exact Hs.
Qed.


(** What one cycle appends, and the response it gives. *)
Lemma orchestrator_cycle_effects (env : Env) (w : World) :
  let r := AgentOrchestrator.lambda_handler env w in
  exists stored queued,
    predictions_table (snd r) = predictions_table w ++ stored
    /\ position_queue (snd r) = position_queue w ++ queued
    /\ Props.same_elsewhere w (snd r)
    /\ Forall (fun p => exists agent,
                 Props.active_in w agent
                 /\ Dynamodb.Prediction.agent_id p = Dynamodb.Agent.agent_id agent)
              stored
    /\ Forall (fun m => exists agent,
                 Props.active_in w agent
                 /\ agentId m = Some (Dynamodb.Agent.agent_id agent))
              queued
    /\ match fst r with
       | Ok (AgentOrchestrator.Completed results) =>
           (exists agents,
              fst (DynamoDBClient.get_active_agents w) = Ok agents
              /\ length results = length agents)
           /\ AgentOrchestrator.total_predictions results = Z.of_nat (length stored)
           /\ AgentOrchestrator.total_positions_queued results
              = Z.of_nat (length queued)
       | Ok _ => stored = [] /\ queued = []
       | Raised _ => False
       end
    /\ queued = []
    /\ telegram (snd r) = telegram w.
Proof.
  intros r.
  assert (Hr : r = AgentOrchestrator.lambda_handler env w) by reflexivity.
  clearbody r.
  unfold AgentOrchestrator.lambda_handler in Hr.
  unfold bind at 1, datetime_now at 1 in Hr. cbn [fst snd] in Hr.
  unfold bind at 1, DynamoDBClient.get_active_agents, gets in Hr.
  cbn [fst snd agents_table] in Hr.
  set (agents := map DynamoDBClient.Agent_from_dynamo_item _) in Hr.
  assert (Hact : forall agent,
            In agent agents ->
            exists item,
              Props.active_in w item
              /\ agent = DynamoDBClient.Agent_from_dynamo_item item)
    by (intros agent; apply get_active_agents_active).
  unfold DynamoDBClient.get_active_agents, gets. cbn [fst]. fold agents.
  clearbody agents.
  assert (Hnone : forall (x : result AgentOrchestrator.Response) w',
            r = (x, w') ->
            predictions_table w' = predictions_table w ->
            position_queue w' = position_queue w ->
            telegram w' = telegram w ->
            Props.same_elsewhere w w' ->
            match x with
            | Ok (AgentOrchestrator.Completed _) => False
            | Ok _ => True
            | Raised _ => False
            end ->
            exists stored queued,
              predictions_table (snd r) = predictions_table w ++ stored
              /\ position_queue (snd r) = position_queue w ++ queued
              /\ Props.same_elsewhere w (snd r)
              /\ Forall (fun p => exists agent,
                           Props.active_in w agent
                           /\ Dynamodb.Prediction.agent_id p
                              = Dynamodb.Agent.agent_id agent) stored
              /\ Forall (fun m => exists agent,
                           Props.active_in w agent
                           /\ agentId m = Some (Dynamodb.Agent.agent_id agent))
                        queued
              /\ match fst r with
                 | Ok (AgentOrchestrator.Completed results) =>
                     (exists agents0,
                        Ok agents = Ok agents0
                        /\ length results = length agents0)
                     /\ AgentOrchestrator.total_predictions results
                        = Z.of_nat (length stored)
                     /\ AgentOrchestrator.total_positions_queued results
                        = Z.of_nat (length queued)
                 | Ok _ => stored = [] /\ queued = []
                 | Raised _ => False
                 end
              /\ queued = []
              /\ telegram (snd r) = telegram w).
  { intros x w' -> Hp Hq Ht Hs Hx. exists [], []. cbn [fst snd].
    rewrite !app_nil_r.
    repeat split; try assumption; try apply Hs; try constructor.
    destruct x as [[] |]; try contradiction; split; reflexivity. }
  destruct (Py.truthy agents) eqn:Ht; cbn [negb] in Hr;
    [| unfold ret in Hr; eapply Hnone;
       [exact Hr | reflexivity | reflexivity | reflexivity | repeat split
       | exact I]].
  unfold bind at 1, try_except at 1, bind at 1, ask at 1 in Hr.
  destruct (api_get_markets env "active" _) as [markets | e];
    cbn [fst snd] in Hr;
    [| unfold ret in Hr; eapply Hnone;
       [exact Hr | reflexivity | reflexivity | reflexivity | repeat split
       | exact I]].
  unfold ret at 1 in Hr. cbn [fst snd] in Hr.
  destruct (Py.truthy markets) eqn:Hm; cbn [negb] in Hr;
    [| unfold ret in Hr; eapply Hnone;
       [exact Hr | reflexivity | reflexivity | reflexivity | repeat split
       | exact I]].
  clear Hnone.
  unfold bind at 1 in Hr.
  match type of Hr with
  | context [for_fold agents [] ?body ?w0] =>
      pose proof (agents_loop_effects env markets agents [] w0) as L;
      cbv zeta in L;
      destruct L as [more [stored [queued
        [G1 [G2 [G3 [G4 [G5 [G6 [G7 [G8 [G9 [G10 G11]]]]]]]]]]]]];
      destruct (for_fold agents [] body w0) as [res w1]
  end.
  cbn [fst snd] in G1, G5, G6, G7, G10. subst res. cbn [app] in Hr.
  unfold bind, datetime_now, ret in Hr. cbn [fst snd] in Hr. subst r.
  cbn [fst snd predictions_table position_queue telegram] in *.
  assert (Hnil : queued = []).
  { destruct queued as [| m queued]; [reflexivity | exfalso].
    destruct G11 as [agent [Hin Hj]]; [discriminate |].
    destruct (Hact _ Hin) as [item [_ ->]]. discriminate Hj. }
  exists stored, queued.
  split; [exact G5 |]. split; [exact G6 |].
  split; [destruct G7 as [? [? [? ?]]]; repeat split; assumption |].
  split.
  { eapply List.Forall_impl; [| exact G8].
    intros p [agent [Hin Hp]].
    destruct (Hact _ Hin) as [item [Hitem ->]].
    exists item. split; [exact Hitem | exact Hp]. }
  split.
  { eapply List.Forall_impl; [| exact G9].
    intros m [agent [Hin Hp]].
    destruct (Hact _ Hin) as [item [Hitem ->]].
    exists item. split; [exact Hitem | exact Hp]. }
  split; [| split; [exact Hnil | exact (G10 Hnil)]].
  split; [| split; assumption].
  exists agents. split; [reflexivity | exact G2].
Qed.

(** X5. One cycle of the orchestrator only appends: the predictions table
    and the queue keep what they held, and the agents, the positions, the
    leaderboard and the paper positions are left as they were.  Every
    prediction and every request it appends belongs to an agent that is
    stored with status active when the cycle starts: pending, paused and
    stopped agents are never analysed. *)
Theorem orchestrator_only_active_agents (env : Env) (w : World) :
  let w' := snd (AgentOrchestrator.lambda_handler env w) in
  exists stored queued,
    predictions_table w' = predictions_table w ++ stored
    /\ position_queue w' = position_queue w ++ queued
    /\ agents_table w' = agents_table w
    /\ positions_table w' = positions_table w
    /\ leaderboard_table w' = leaderboard_table w
    /\ paper_positions w' = paper_positions w
    /\ Forall (fun p => exists key agent,
                 agents_table w !! key = Some agent
                 /\ Dynamodb.Agent.status agent = Dynamodb.ACTIVE
                 /\ Dynamodb.Prediction.agent_id p = Dynamodb.Agent.agent_id agent)
              stored
    /\ Forall (fun m => exists key agent,
                 agents_table w !! key = Some agent
                 /\ Dynamodb.Agent.status agent = Dynamodb.ACTIVE
                 /\ agentId m = Some (Dynamodb.Agent.agent_id agent))
              queued.
Proof.
  intros w'.
  destruct (orchestrator_cycle_effects env w)
    as [stored [queued [H1 [H2 [[E1 [E2 [E3 E4]]] [H4 [H5 _]]]]]]].
  exists stored, queued.
  repeat (split; [assumption |]).
  split.
  - eapply List.Forall_impl; [| exact H4].
    intros p [agent [[key [Hk Hs]] Hp]]. exists key, agent. auto.
  - eapply List.Forall_impl; [| exact H5].
    intros p [agent [[key [Hk Hs]] Hp]]. exists key, agent. auto.
Qed.

(** X6. The handler of the orchestrator never raises.  When it completes
    a cycle it reports one result per active agent, and the totals of the
    response, the sums of the agents' predictions and positionsQueued, are
    the numbers of prediction records and of requests that the cycle
    appended.  When it returns early (no active agent, the market API
    failed, no active market) it appended nothing. *)
Theorem orchestrator_totals (env : Env) (w : World) :
  let r := AgentOrchestrator.lambda_handler env w in
  exists stored queued,
    predictions_table (snd r) = predictions_table w ++ stored
    /\ position_queue (snd r) = position_queue w ++ queued
    /\ match fst r with
       | Ok (AgentOrchestrator.Completed results) =>
           (exists agents,
              fst (DynamoDBClient.get_active_agents w) = Ok agents
              /\ length results = length agents)
           /\ AgentOrchestrator.total_predictions results = Z.of_nat (length stored)
           /\ AgentOrchestrator.total_positions_queued results
              = Z.of_nat (length queued)
       | Ok _ => stored = [] /\ queued = []
       | Raised _ => False
       end.
Proof.
  intros r.
  destruct (orchestrator_cycle_effects env w)
    as [stored [queued [H1 [H2 [_ [_ [_ [H6 _]]]]]]]].
  exists stored, queued. auto.
Qed.

(** X27. A cycle of the orchestrator never queues a request.  The agents
    it processes are read from the store, so their chat identifier is a
    [Decimal]; for such an agent [queue_position] raises TypeError in
    [json.dumps], inside the [try] of the loop of [process_agent].
    Whatever the model and the market API answer, the cycle leaves the
    queue as it was, sends no notification, and reports 0 positions
    queued. *)
Theorem orchestrator_never_queues (env : Env) (w : World) :
  let r := AgentOrchestrator.lambda_handler env w in
  position_queue (snd r) = position_queue w
  /\ telegram (snd r) = telegram w
  /\ forall results,
       fst r = Ok (AgentOrchestrator.Completed results) ->
       AgentOrchestrator.total_positions_queued results = 0%Z.
Proof.
  intros r.
  destruct (orchestrator_cycle_effects env w)
    as [stored [queued [_ [H2 [_ [_ [_ [H6 [Hnil Ht]]]]]]]]].
  fold r in H2, H6, Ht. subst queued. rewrite app_nil_r in H2.
  split; [exact H2 |]. split; [exact Ht |].
  intros results Hr. rewrite Hr in H6.
  destruct H6 as [_ [_ H6]]. exact H6.
Qed.

End OrchestrationCycle.

(** ** Execution of a request *)

Section Execution.
Import Effects.

(** The request of an active agent that the market API accepts: what the
    executor leaves behind. *)
Lemma process_position_message_opened (env : Env) (w : World)
    (a m d : string) (s e : Q) (p : option string) (t : option Py.number)
    (agent : Dynamodb.Agent.t) :
  agents_table w !! a = Some agent ->
  Dynamodb.Agent.status agent = Dynamodb.ACTIVE ->
  paper_api_accepts env (Props.paper_order a m d s) w = true ->
  let r := PositionExecutor.process_position_message env
             {| agentId := Some a; marketId := Some m; direction := Some d;
                size := Some s; entryPrice := Some e; predictionId := p;
                telegramChatId := t |} w in
  fst r = Ok tt
  /\ paper_positions (snd r) = paper_positions w ++ [Props.paper_order a m d s]
  /\ positions_table (snd r)
     = <[Dynamodb.Position.position_id (Props.opened_position a m d s e p w)
         := Props.opened_position a m d s e p w]> (positions_table w)
  /\ telegram (snd r)
     = telegram w
       ++ Props.opened_notification t (Dynamodb.Agent.strategy_name agent) m d s e
  /\ agents_table (snd r) = agents_table w
  /\ predictions_table (snd r) = predictions_table w
  /\ leaderboard_table (snd r) = leaderboard_table w
  /\ position_queue (snd r) = position_queue w
  /\ clock (snd r) = (clock w + 1)%Z
  /\ uuid_counter (snd r) = S (uuid_counter w).
Proof.
  intros Ha Hs Hp r. subst r.
  unfold PositionExecutor.process_position_message.
  unfold subscript, bind, ret, DynamoDBClient.get_agent, gets. cbn [fst snd
    agentId marketId direction size entryPrice predictionId telegramChatId].
  rewrite Ha.
  cbn [option_map DynamoDBClient.Agent_from_dynamo_item Dynamodb.Agent.status
       Dynamodb.Agent.strategy_name].
  replace (Dynamodb.AgentStatus_value (Dynamodb.Agent.status agent) =? "active")
    with true by (rewrite Hs; reflexivity).
  cbn [negb].
  unfold try_except, WhetherAPIClient.create_paper_position, bind, gets.
  cbn [fst snd]. unfold Props.paper_order in Hp. rewrite Hp.
  unfold Props.opened_notification.
  destruct t as [chat |]; [destruct (Py.nonzero chat) |]; cbn;
    rewrite ?app_nil_r; repeat split; reflexivity.
Qed.


(** A request that lacks one of the keys read with a subscript raises
    KeyError before anything is done. *)
Lemma process_position_message_incomplete (env : Env) (message : Message)
    (w : World) :
  ~ Spec.complete_message message ->
  exists key,
    PositionExecutor.process_position_message env message w
    = (Raised (KeyError key), w).
Proof.
  intros Hn.
  pose proof (process_position_message_executed env message w) as H.
  destruct (PositionExecutor.process_position_message env message w) as [res w1].
  cbn [fst snd] in H.
  inversion H; subst; try contradiction.
  eexists. reflexivity.
Qed.

(** X7. A queue record that the executor cannot read (it has no body, its
    body is not a JSON object, or the object lacks one of the keys agentId,
    marketId, direction, size, entryPrice) is reported in
    batchItemFailures and changes nothing; the records after it are
    processed as if it had not been in the batch. *)
Theorem unreadable_record_is_reported (env : Env)
    (record : PositionExecutor.SqsRecord)
    (rest : list PositionExecutor.SqsRecord) (w : World)
    (Hbody : match PositionExecutor.body record with
             | None => True
             | Some PositionExecutor.NotAnObject => True
             | Some (PositionExecutor.JsonObject message) =>
                 ~ Spec.complete_message message
             end) :
  exists failures w',
    PositionExecutor.lambda_handler env rest w = (Ok failures, w')
    /\ PositionExecutor.lambda_handler env (record :: rest) w
       = (Ok (PositionExecutor.messageId record :: failures), w').
Proof.
  unfold PositionExecutor.lambda_handler.
  rewrite !lambda_handler_loop.
  eexists _, _. split; [reflexivity |].
  assert (E : exists e, PositionExecutor.process_record env record w = (Raised e, w)).
  { unfold PositionExecutor.process_record, PositionExecutor.loads_body, bind.
    destruct (PositionExecutor.body record) as [[| message] |]; cbn.
    - eexists. reflexivity.
    - destruct (process_position_message_incomplete env message w Hbody)
        as [key ->].
      eexists. reflexivity.
    - eexists. reflexivity. }
  destruct E as [e E].
  cbn [Spec.raised_records Spec.after_records]. rewrite E. reflexivity.
Qed.

Lemma unreadable_record_is_reported_witness :
  exists failures w',
    PositionExecutor.lambda_handler (Examples.env []) Examples.batch Examples.world
    = (Ok failures, w')
    /\ PositionExecutor.lambda_handler (Examples.env [])
         (Cases.record_without_body :: Examples.batch) Examples.world
       = (Ok (Some "m-0"%string :: failures), w').
Proof.
  apply (unreadable_record_is_reported (Examples.env [])
           Cases.record_without_body Examples.batch Examples.world).
  exact I.
Defined.

(** X8. The executor does not recognise a request it has already
    executed: when the same complete request of an active agent is
    delivered twice and the market API accepts the order both times, two
    paper orders are registered and two open position records with
    different identifiers are stored for it. *)
Theorem redelivered_request_opens_twice (env : Env) (w : World)
    (a m d : string) (s e : Q) (p : option string) (t : option Py.number)
    (agent : Dynamodb.Agent.t)
    (Hagent : agents_table w !! a = Some agent)
    (Hactive : Dynamodb.Agent.status agent = Dynamodb.ACTIVE)
    (Haccepts : forall w', paper_api_accepts env (Props.paper_order a m d s) w'
                           = true) :
  let message :=
    {| agentId := Some a; marketId := Some m; direction := Some d;
       size := Some s; entryPrice := Some e; predictionId := p;
       telegramChatId := t |} in
  let w1 := snd (PositionExecutor.process_position_message env message w) in
  let w2 := snd (PositionExecutor.process_position_message env message w1) in
  paper_positions w2
  = paper_positions w ++ [Props.paper_order a m d s; Props.paper_order a m d s]
  /\ exists first second,
       positions_table w2 !! Dynamodb.Position.position_id first = Some first
       /\ positions_table w2 !! Dynamodb.Position.position_id second = Some second
       /\ Dynamodb.Position.position_id first
          <> Dynamodb.Position.position_id second
       /\ Forall (fun position =>
                    Dynamodb.Position.status position = Dynamodb.OPEN
                    /\ Dynamodb.Position.agent_id position = a
                    /\ Dynamodb.Position.market_id position = m
                    /\ Dynamodb.Position.direction position = d
                    /\ Dynamodb.Position.size position = s
                    /\ Dynamodb.Position.entry_price position = e)
                 [first; second].
Proof.
  intros message w1 w2.
  destruct (process_position_message_opened env w a m d s e p t agent
              Hagent Hactive (Haccepts w))
    as [_ [P1 [T1 [_ [A1 [_ [_ [_ [_ U1]]]]]]]]].
  fold message in P1, T1, A1, U1. fold w1 in P1, T1, A1, U1.
  assert (Hagent1 : agents_table w1 !! a = Some agent) by (rewrite A1; exact Hagent).
  destruct (process_position_message_opened env w1 a m d s e p t agent
              Hagent1 Hactive (Haccepts w1))
    as [_ [P2 [T2 _]]].
  fold message in P2, T2. fold w2 in P2, T2.
  clearbody w1 w2.
  assert (Hne : Dynamodb.Position.position_id (Props.opened_position a m d s e p w)
                <> Dynamodb.Position.position_id
                     (Props.opened_position a m d s e p w1)).
  { unfold Props.opened_position. cbn [Dynamodb.Position.position_id].
    rewrite U1. intros Heq0.
    assert (Hinj : pretty (uuid_counter w) = pretty (S (uuid_counter w))).
    { apply (inj (String.append "uuid-")). exact Heq0. }
    apply (inj pretty) in Hinj. lia. }
  split.
  - rewrite P2, P1, <- app_assoc. reflexivity.
  - exists (Props.opened_position a m d s e p w),
           (Props.opened_position a m d s e p w1).
    split; [| split; [| split; [exact Hne |]]].
    + rewrite T2, T1.
      rewrite lookup_insert_ne by (intros E; apply Hne; symmetry; exact E).
      apply lookup_insert_eq.
    + rewrite T2. apply lookup_insert_eq.
    + repeat constructor.
Qed.


Lemma redelivered_request_opens_twice_witness :
  let w1 := snd (PositionExecutor.process_position_message (Examples.env [])
                   Examples.message Examples.world) in
  let w2 := snd (PositionExecutor.process_position_message (Examples.env [])
                   Examples.message w1) in
  length (paper_positions w2) = 2%nat.
Proof.
  intros w1 w2.
  assert (Hagent : agents_table Examples.world !! "agent-1"%string
                   = Some Examples.agent) by (vm_compute; reflexivity).
  pose proof (redelivered_request_opens_twice (Examples.env []) Examples.world
                "agent-1" "market-0" "YES" (3 # 100) (40 # 100)
                (Some "prediction-1"%string) (Some (Py.Int 4242))
                Examples.agent
                Hagent eq_refl (fun _ => eq_refl)) as H.
  cbv zeta in H. destruct H as [H _].
  subst w2 w1. unfold Examples.message. rewrite H. reflexivity.
Defined.

(** X9. From the queue to the table, for a stored active agent and a
    market API that accepts the order.  When the chat identifier of the
    agent record passed to [queue_position] is a [Decimal], as in every
    record read from the store, [queue_position] raises TypeError and
    queues nothing.  When it can be serialised (an [int], as in a record
    built by [Agent.create]), one request is queued, and when the executor
    executes it exactly one record is added to the positions table: it is
    open, belongs to the agent, the market and the prediction, has the
    size computed by [calculate_position_size], which is at most the
    maxPositionSize that the strategy configures (0.20 when it configures
    none), the direction of the request, and as entry price the market's
    YES price for YES and its NO price otherwise; the paper order
    registered with the market API has the same size. *)
Theorem queued_request_is_executed (env : Env) (agent : Dynamodb.Agent.t)
    (market : WhetherApi.Market.t) (prediction : Dynamodb.Prediction.t)
    (strategy : Strategy.t) (w : World)
    (Hstored : agents_table w !! Dynamodb.Agent.agent_id agent = Some agent)
    (Hactive : Dynamodb.Agent.status agent = Dynamodb.ACTIVE)
    (Haccepts : forall order w', paper_api_accepts env order w' = true) :
  let r := AgentOrchestrator.queue_position agent market prediction strategy w in
  let w1 := snd r in
  (Py.json_serializable (Dynamodb.Agent.telegram_chat_id agent) = false ->
   fst r = Raised TypeError /\ position_queue w1 = position_queue w)
  /\ (Py.json_serializable (Dynamodb.Agent.telegram_chat_id agent) = true ->
      exists message position,
        fst r = Ok tt
        /\ position_queue w1 = position_queue w ++ [message]
        /\ fst (PositionExecutor.process_position_message env message w1) = Ok tt
        /\ positions_table
             (snd (PositionExecutor.process_position_message env message w1))
           = <[Dynamodb.Position.position_id position := position]>
               (positions_table w)
        /\ Dynamodb.Position.status position = Dynamodb.OPEN
        /\ Dynamodb.Position.agent_id position = Dynamodb.Agent.agent_id agent
        /\ Dynamodb.Position.market_id position = WhetherApi.Market.id market
        /\ Dynamodb.Position.prediction_id position
           = Some (Dynamodb.Prediction.prediction_id prediction)
        /\ Dynamodb.Position.size position
           = AgentOrchestrator.calculate_position_size prediction strategy agent
        /\ (Dynamodb.Position.size position <= Spec.configured_max strategy)%Q
        /\ Dynamodb.Position.direction position
           = Props.request_direction strategy prediction
        /\ Dynamodb.Position.entry_price position
           = (if Dynamodb.Position.direction position =? "YES"
              then WhetherApi.Market.yes_price market
              else WhetherApi.Market.no_price market)
        /\ paper_positions
             (snd (PositionExecutor.process_position_message env message w1))
           = paper_positions w
             ++ [Props.paper_order (Dynamodb.Agent.agent_id agent)
                   (WhetherApi.Market.id market)
                   (Dynamodb.Position.direction position)
                   (Dynamodb.Position.size position)]).
Proof.
  intros r w1.
  destruct (queue_position_effects agent market prediction strategy w)
    as [message [Hm Hq]].
  fold r in Hq.
  split; intros Hchat; rewrite Hchat in Hq.
  { unfold w1. rewrite Hq. split; reflexivity. }
  assert (Hw1 : w1 = set_position_queue (fun q => q ++ [message])
                       (snd (datetime_now w)))
    by (unfold w1; rewrite Hq; reflexivity).
  assert (Hok : fst r = Ok tt) by (rewrite Hq; reflexivity).
  clearbody w1 r. clear Hq.
  destruct message as [a m d s e p t].
  destruct Hm as [Ha [Hmk [Hd [Hs [He [Hp Ht]]]]]].
  cbn in Ha, Hmk, Hd, Hs, He, Hp, Ht. subst a m d s e p t.
  assert (Hstored1 : agents_table w1 !! Dynamodb.Agent.agent_id agent = Some agent)
    by (rewrite Hw1; exact Hstored).
  pose proof (process_position_message_opened env w1 _
                (WhetherApi.Market.id market)
                (Props.request_direction strategy prediction)
                (AgentOrchestrator.calculate_position_size prediction strategy agent)
                (if Props.request_direction strategy prediction =? "YES"
                 then WhetherApi.Market.yes_price market
                 else WhetherApi.Market.no_price market)
                (Some (Dynamodb.Prediction.prediction_id prediction))
                (Some (Dynamodb.Agent.telegram_chat_id agent))
                agent Hstored1 Hactive (Haccepts _ _)) as H.
  cbv zeta in H. destruct H as [R [P [T _]]].
  eexists _, _. split; [exact Hok |].
  split; [rewrite Hw1; reflexivity |].
  split; [exact R |].
  split; [rewrite T, Hw1; reflexivity |].
  cbn [Props.opened_position Dynamodb.Position.status Dynamodb.Position.agent_id
       Dynamodb.Position.market_id Dynamodb.Position.prediction_id
       Dynamodb.Position.size Dynamodb.Position.direction
       Dynamodb.Position.entry_price].
  repeat match goal with |- _ /\ _ => split end; try reflexivity.
  - rewrite <- max_position_spec. apply calculate_position_size_le_max_position.
  - rewrite P, Hw1. reflexivity.
Qed.

Lemma queued_request_is_executed_witness :
  exists message position,
    position_queue
      (snd (AgentOrchestrator.queue_position Examples.agent Examples.market
              Examples.prediction Examples.strategy Examples.world))
    = [message]
    /\ Dynamodb.Position.status position = Dynamodb.OPEN
    /\ (Dynamodb.Position.size position <= 20 # 100)%Q.
Proof.
  assert (Hstored : agents_table Examples.world
                      !! Dynamodb.Agent.agent_id Examples.agent
                    = Some Examples.agent) by (vm_compute; reflexivity).
  destruct (proj2 (queued_request_is_executed (Examples.env []) Examples.agent
                     Examples.market Examples.prediction Examples.strategy
                     Examples.world Hstored eq_refl (fun _ _ => eq_refl))
                  eq_refl)
    as [message [position [_ [Hq [_ [_ [Hs [_ [_ [_ [_ [Hle _]]]]]]]]]]]].
  exists message, position.
  split; [exact Hq |]. split; [exact Hs | exact Hle].
Defined.

End Execution.

(** ** Profit and loss of a resolved position *)

Section ProfitAndLoss.
Import Effects.
Local Open Scope Q_scope.

(** X10. For a position of non-negative size bought at a price between 0
    and 1, the profit or loss computed by [resolve_position] is bounded by
    the size: a position that won gains between 0 and its size, a position
    that did not win loses between 0 and its size. *)
Theorem position_pnl_bounds (direction : string) (outcome : option string)
    (size entry_price : Q)
    (Hsize : 0 <= size) (Hprice : 0 <= entry_price <= 1) :
  (MarketResolver.won direction outcome = true ->
   0 <= MarketResolver.position_pnl direction outcome size entry_price <= size)
  /\ (MarketResolver.won direction outcome = false ->
      - size <= MarketResolver.position_pnl direction outcome size entry_price
      <= 0).
Proof.
  unfold MarketResolver.position_pnl.
  destruct (MarketResolver.won direction outcome);
    (split; [intros H | intros H]; try discriminate H); nra.
Qed.

Lemma position_pnl_bounds_witness :
  - (3 # 100)
  <= MarketResolver.position_pnl "YES" (Some "NO"%string) (3 # 100) (40 # 100)
  <= 0.
Proof.
  apply (position_pnl_bounds "YES" (Some "NO"%string) (3 # 100) (40 # 100)).
  - vm_compute. discriminate.
  - split; vm_compute; discriminate.
  - reflexivity.
Defined.

(** X11. A stored position whose direction is not YES or NO (such as
    dynamic), or that is resolved against a market whose outcome is
    missing or is neither its direction, is closed as lost: exit price 0
    and pnl = -size x entry price. *)
Theorem offside_position_is_lost (position : Dynamodb.Position.t)
    (market : WhetherApi.Market.t) (w : World)
    (Hstored : positions_table w !! Dynamodb.Position.position_id position
               = Some position)
    (Hoff : (Dynamodb.Position.direction position <> "YES"%string
             /\ Dynamodb.Position.direction position <> "NO"%string)
            \/ WhetherApi.Market.outcome market
               <> Some (Dynamodb.Position.direction position)) :
  exists closed : Dynamodb.Position.t,
    fst (MarketResolver.resolve_position position market w) = Ok true
    /\ positions_table (snd (MarketResolver.resolve_position position market w))
         !! Dynamodb.Position.position_id position = Some closed
    /\ Dynamodb.Position.status closed = Dynamodb.CLOSED
    /\ Dynamodb.Position.exit_price closed = Some 0
    /\ Dynamodb.Position.pnl closed
       = Some (- Dynamodb.Position.size position
               * Dynamodb.Position.entry_price position).
Proof.
  destruct (resolve_position_table position market w) as [Hr Ht].
  eexists. split; [exact Hr |].
  split; [rewrite Ht, lookup_alter_eq, Hstored; reflexivity |].
  split; [reflexivity |].
  cbn [Dynamodb.Position.pnl Dynamodb.Position.exit_price
       DynamoDBClient.Position_updated].
  unfold MarketResolver.position_pnl, MarketResolver.position_exit_price.
  destruct (MarketResolver.won (Dynamodb.Position.direction position)
              (WhetherApi.Market.outcome market)) eqn:Hw.
  - exfalso. apply won_iff in Hw as [Heq Hside].
    destruct Hoff as [[Hy Hn] | Hne]; [tauto | congruence].
  - split; reflexivity.
Qed.

Lemma offside_position_is_lost_witness :
  exists closed : Dynamodb.Position.t,
    positions_table
      (snd (MarketResolver.resolve_position Examples.open_position
              Examples.market Examples.world_with_position))
      !! "position-1"%string = Some closed
    /\ Dynamodb.Position.exit_price closed = Some 0.
Proof.
  assert (H1 : positions_table Examples.world_with_position
                 !! Dynamodb.Position.position_id Examples.open_position
               = Some Examples.open_position) by (vm_compute; reflexivity).
  assert (H2 : WhetherApi.Market.outcome Examples.market
               <> Some (Dynamodb.Position.direction Examples.open_position))
    by discriminate.
  destruct (offside_position_is_lost Examples.open_position Examples.market
              Examples.world_with_position H1 (or_intror H2))
    as [closed [_ [Hl [_ [He _]]]]].
  exists closed. split; [exact Hl | exact He].
Defined.

(** X12. The headline of the resolution notice follows the sign of the
    pnl, not the test [won]: for a position of non-negative size bought at
    a price between 0 and 1 it reads WON exactly when the position won or
    its pnl is zero, so a lost position of size 0 or bought at price 0 is
    announced as WON. *)
Theorem result_text_won (direction : string) (outcome : option string)
    (size entry_price : Q)
    (Hsize : 0 <= size) (Hprice : 0 <= entry_price <= 1) :
  MarketResolver.result_text
    (MarketResolver.position_pnl direction outcome size entry_price)
  = "WON"%string
  <-> MarketResolver.won direction outcome = true
      \/ size * entry_price == 0.
Proof.
  unfold MarketResolver.result_text, MarketResolver.position_pnl.
  destruct (MarketResolver.won direction outcome).
  - replace (Qle_bool 0 (size * (1 - entry_price))) with true
      by (symmetry; apply Qle_bool_iff; nra).
    split; auto.
  - destruct (Qle_bool 0 (- size * entry_price)) eqn:E.
    + apply Qle_bool_iff in E. split; [intros _; right; nra | reflexivity].
    + split; [discriminate |].
      intros [H | H]; [discriminate H |].
      assert (Hle : 0 <= - size * entry_price) by nra.
      apply Qle_bool_iff in Hle. congruence.
Qed.

Lemma result_text_won_witness :
  MarketResolver.result_text
    (MarketResolver.position_pnl "YES" (Some "NO"%string) (3 # 100) 0)
  = "WON"%string.
Proof.
  apply (result_text_won "YES" (Some "NO"%string) (3 # 100) 0).
  - vm_compute. discriminate.
  - split; vm_compute; discriminate.
  - right. reflexivity.
Defined.

End ProfitAndLoss.

(** ** Statistics of an agent *)

Section AgentStatistics.
Import Effects.
Local Open Scope Q_scope.

Lemma fold_left_Qplus (l : list Q) (start : Q) :
  fold_left Qplus l start == start + fold_right Qplus 0 l.
Proof.
  revert start. induction l as [| x l IH]; intros start; simpl.
  - ring.
  - rewrite IH. ring.
Qed.

Lemma sum_truthy_pnl (positions : list Dynamodb.Position.t) :
  fold_right Qplus 0
    (map (fun p => Py.get (Dynamodb.Position.pnl p) 0)
         (List.filter (fun p => MarketResolver.pnl_truthy (Dynamodb.Position.pnl p))
                      positions))
  == Props.sum_pnl positions.
Proof.
  unfold Props.sum_pnl.
  induction positions as [| p positions IH]; simpl; [reflexivity |].
  unfold MarketResolver.pnl_truthy at 1.
  destruct (Dynamodb.Position.pnl p) as [x |] eqn:E; simpl.
  - destruct (Qeq_bool x 0) eqn:Ex; simpl.
    + apply Qeq_bool_iff in Ex. rewrite IH, Ex. ring.
    + rewrite E. simpl. rewrite IH. reflexivity.
  - rewrite IH. ring.
Qed.

Lemma filter_filter {A} (f g : A -> bool) (l : list A) :
  List.filter f (List.filter g l) = List.filter (fun x => g x && f x) l.
Proof.
  induction l as [| x l IH]; simpl; [reflexivity |].
  destruct (g x); simpl; [destruct (f x) |]; rewrite IH; reflexivity.
Qed.

(** X13. [update_agent_stats] of the resolver recomputes the counters of
    an agent from its closed positions: totalTrades is their number,
    winningTrades the number of those with a pnl above 0 (so
    0 <= winningTrades <= totalTrades) and totalPnl the sum of their pnl.
    Nothing else of the agent's record changes but updatedAt, no other
    agent changes, and an agent without closed position is left
    untouched. *)
Theorem update_agent_stats_counts (agent_id : string) (w : World) :
  let closed := Props.closed_positions agent_id w in
  let r := MarketResolver.update_agent_stats agent_id w in
  fst r = Ok tt
  /\ positions_table (snd r) = positions_table w
  /\ (forall key, key <> agent_id ->
        agents_table (snd r) !! key = agents_table w !! key)
  /\ (closed = [] -> snd r = w)
  /\ (closed <> [] ->
      forall agent,
        agents_table w !! agent_id = Some agent ->
        exists updated,
          agents_table (snd r) !! agent_id = Some updated
          /\ Dynamodb.Agent.total_trades updated = Z.of_nat (length closed)
          /\ Dynamodb.Agent.winning_trades updated
             = Z.of_nat (length (List.filter Props.profitable closed))
          /\ (0 <= Dynamodb.Agent.winning_trades updated
              <= Dynamodb.Agent.total_trades updated)%Z
          /\ Dynamodb.Agent.total_pnl updated == Props.sum_pnl closed
          /\ Dynamodb.Agent.agent_id updated = Dynamodb.Agent.agent_id agent
          /\ Dynamodb.Agent.user_id updated = Dynamodb.Agent.user_id agent
          /\ Dynamodb.Agent.status updated = Dynamodb.Agent.status agent
          /\ Dynamodb.Agent.strategy_config updated
             = Dynamodb.Agent.strategy_config agent).
Proof.
  intros closed r.
  assert (Hr : r = MarketResolver.update_agent_stats agent_id w) by reflexivity.
  assert (Hc : closed = Props.closed_positions agent_id w) by reflexivity.
  clearbody r closed.
  unfold MarketResolver.update_agent_stats,
    DynamoDBClient.get_positions_by_agent, bind, gets, ret in Hr.
  cbn [fst snd] in Hr.
  rewrite filter_filter in Hr.
  change (List.filter _ (map snd (map_to_list (positions_table w))))
    with (Props.closed_positions agent_id w) in Hr.
  rewrite <- Hc in Hr. clear Hc.
  destruct closed as [| p0 rest].
  - cbn [Py.truthy negb] in Hr. subst r. cbn [fst snd].
    repeat split; try reflexivity. intros H. contradiction.
  - cbn [Py.truthy negb] in Hr.
    unfold DynamoDBClient.update_agent_stats, bind, datetime_now, modify in Hr.
    cbn [fst snd] in Hr. subst r.
    cbn [fst snd set_agents_table agents_table positions_table].
    split; [reflexivity |]. split; [reflexivity |].
    split; [intros key Hk; apply lookup_alter_ne; congruence |].
    split; [discriminate |].
    intros _ agent Ha.
    eexists. split; [rewrite lookup_alter_eq, Ha; reflexivity |].
    cbn [DynamoDBClient.Agent_with_stats Dynamodb.Agent.total_trades
         Dynamodb.Agent.winning_trades Dynamodb.Agent.total_pnl
         Dynamodb.Agent.agent_id Dynamodb.Agent.user_id Dynamodb.Agent.status
         Dynamodb.Agent.strategy_config].
    assert (Hw : List.filter
                   (fun p => MarketResolver.pnl_truthy (Dynamodb.Position.pnl p)
                             && Py.Qlt_bool 0 (Py.get (Dynamodb.Position.pnl p) 0))
                   (p0 :: rest)
                 = List.filter Props.profitable (p0 :: rest)).
    { apply filter_ext. intros p. unfold Props.profitable,
        MarketResolver.pnl_truthy.
      destruct (Dynamodb.Position.pnl p) as [x |]; [| reflexivity]. simpl.
      destruct (Py.Qlt_bool 0 x) eqn:E; [| apply andb_false_r].
      rewrite andb_true_r. apply Qlt_bool_iff in E.
      destruct (Qeq_bool x 0) eqn:Ex; [| reflexivity].
      apply Qeq_bool_iff in Ex. lra. }
    rewrite Hw.
    split; [reflexivity |]. split; [reflexivity |].
    split.
    { split; [lia |]. apply inj_le. apply filter_length_le. }
    split; [| repeat split; reflexivity].
    rewrite fold_left_Qplus, sum_truthy_pnl. ring.
Qed.

End AgentStatistics.

(** ** Resolution of a market *)

Section MarketResolution.
Import Effects.

Variable market : WhetherApi.Market.t.

Lemma resolve_loop (T0 : gmap string Dynamodb.Position.t)
    (items : list Dynamodb.Position.t) :
  forall (done : list string) (c : MarketResolver.Counters) (w : World),
    let r := for_fold items c
      (fun (c : MarketResolver.Counters) (position_item : Dynamodb.Position.t) =>
       try_except
         (bind (MarketResolver.resolve_position position_item market)
            (fun result : bool =>
               if result then
                 ret {| MarketResolver.positions_updated :=
                          (MarketResolver.positions_updated c + 1)%Z;
                        MarketResolver.predictions_updated :=
                          MarketResolver.predictions_updated c;
                        MarketResolver.agents_updated :=
                          MarketResolver.agents_updated c
                          ∪ {[Dynamodb.Position.agent_id position_item]} |}
               else ret c))
         (fun _ => ret c)) w in
    exists c',
      fst r = Ok c'
      /\ MarketResolver.positions_updated c'
         = (MarketResolver.positions_updated c + Z.of_nat (length items))%Z
      /\ MarketResolver.predictions_updated c'
         = MarketResolver.predictions_updated c
      /\ predictions_table (snd r) = predictions_table w
      /\ agents_table (snd r) = agents_table w
      /\ ((forall item, In item items ->
             T0 !! Dynamodb.Position.position_id item = Some item) ->
          Props.resolved_under market T0 (positions_table w) done ->
          Props.resolved_under market T0 (positions_table (snd r))
            (done ++ map Dynamodb.Position.position_id items)).
Proof.
  induction items as [| item items IH]; intros done c w r.
  - exists c. subst r. simpl. unfold ret. simpl. rewrite app_nil_r.
    repeat split; [lia | auto].
  - assert (Hr : r = for_fold (item :: items) c
      (fun (c : MarketResolver.Counters) (position_item : Dynamodb.Position.t) =>
       try_except
         (bind (MarketResolver.resolve_position position_item market)
            (fun result : bool =>
               if result then
                 ret {| MarketResolver.positions_updated :=
                          (MarketResolver.positions_updated c + 1)%Z;
                        MarketResolver.predictions_updated :=
                          MarketResolver.predictions_updated c;
                        MarketResolver.agents_updated :=
                          MarketResolver.agents_updated c
                          ∪ {[Dynamodb.Position.agent_id position_item]} |}
               else ret c))
         (fun _ => ret c)) w) by reflexivity.
    clearbody r. simpl for_fold in Hr. unfold bind at 1 in Hr.
    unfold try_except at 1, bind at 1 in Hr.
    destruct (resolve_position_table item market w) as [Hres Htab].
    assert (Hpred : predictions_table
                      (snd (MarketResolver.resolve_position item market w))
                    = predictions_table w).
    { unfold MarketResolver.resolve_position, bind,
        DynamoDBClient.update_position_status, DynamoDBClient.get_agent,
        datetime_now, modify, gets, MarketResolver.send_resolution_notification.
      simpl.
      destruct (agents_table w !! Dynamodb.Position.agent_id item); reflexivity. }
    assert (Hag : agents_table
                    (snd (MarketResolver.resolve_position item market w))
                  = agents_table w).
    { unfold MarketResolver.resolve_position, bind,
        DynamoDBClient.update_position_status, DynamoDBClient.get_agent,
        datetime_now, modify, gets, MarketResolver.send_resolution_notification.
      simpl.
      destruct (agents_table w !! Dynamodb.Position.agent_id item); reflexivity. }
    destruct (MarketResolver.resolve_position item market w) as [res w1].
    cbn [fst snd] in Hres, Htab, Hpred, Hag. subst res. unfold ret at 1 in Hr.
    cbn [fst snd] in Hr.
    match type of Hr with
    | r = for_fold items ?c1 _ w1 =>
        destruct (IH (done ++ [Dynamodb.Position.position_id item]) c1 w1)
          as [c' [G1 [G2 [G3 [G4 [G4' G5]]]]]]
    end.
    rewrite <- Hr in G1, G4, G4', G5. exists c'.
    split; [exact G1 |].
    split; [rewrite G2; cbn [MarketResolver.positions_updated length];
            rewrite Nat2Z.inj_succ; lia |].
    split; [rewrite G3; reflexivity |].
    split; [rewrite G4; exact Hpred |].
    split; [rewrite G4'; exact Hag |].
    intros Hitems Hinv.
    cbn [map].
    match goal with
    | |- context [done ++ ?a :: ?l] =>
        replace (done ++ a :: l) with ((done ++ [a]) ++ l)
          by (rewrite <- app_assoc; reflexivity)
    end.
    apply G5; [intros i Hi; apply Hitems; right; exact Hi |].
    (* the invariant after this step *)
    intros key. specialize (Hinv key).
    rewrite Htab.
    destruct (String.eqb_spec key (Dynamodb.Position.position_id item))
      as [-> | Hne].
    + rewrite (Hitems item (or_introl eq_refl)) in Hinv |- *.
      destruct Hinv as [Hout Hin]. split.
      { intros Hn. exfalso. apply Hn. apply in_or_app. right. left. reflexivity. }
      intros _. rewrite lookup_alter_eq.
      destruct (in_dec String.string_dec
                  (Dynamodb.Position.position_id item) done) as [Hd | Hd].
      * destruct (Hin Hd) as [p' [-> Hp']]. eexists. split; [reflexivity |].
        unfold Props.closed_as in Hp' |- *. rewrite Hp'. reflexivity.
      * rewrite (Hout Hd). eexists. split; [reflexivity |].
        unfold Props.closed_as. reflexivity.
    + rewrite lookup_alter_ne by congruence.
      destruct (T0 !! key) as [p |]; [| exact Hinv].
      destruct Hinv as [Hout Hin]. split.
      { intros Hn. apply Hout. intros Hd. apply Hn. apply in_or_app. left. exact Hd. }
      intros Hd. apply in_app_or in Hd as [Hd | [Hd | []]]; [auto | congruence].
Qed.

Lemma NoDup_map_eq {A B} (f : A -> B) (l : list A) (x y : A) :
  List.NoDup (map f l) -> In x l -> In y l -> f x = f y -> x = y.
Proof.
  induction l as [| a l IH]; simpl; [tauto |].
  intros Hnd Hx Hy Hf. apply NoDup_cons_iff in Hnd as [Hna Hnd].
  destruct Hx as [-> | Hx], Hy as [-> | Hy].
  - reflexivity.
  - exfalso. apply Hna. rewrite Hf. apply in_map. exact Hy.
  - exfalso. apply Hna. rewrite <- Hf. apply in_map. exact Hx.
  - exact (IH Hnd Hx Hy Hf).
Qed.

Lemma marked_under_id (ids : list string) (p : Dynamodb.Prediction.t) :
  Dynamodb.Prediction.prediction_id (Props.marked_under market ids p)
  = Dynamodb.Prediction.prediction_id p.
Proof.
  unfold Props.marked_under.
  destruct (Py.str_in _ ids); reflexivity.
Qed.

Lemma str_in_app (x : string) (xs ys : list string) :
  Py.str_in x (xs ++ ys) = Py.str_in x xs || Py.str_in x ys.
Proof. unfold Py.str_in. apply existsb_app. Qed.

(** The loop of [resolve_market] over the scanned predictions. *)
Lemma mark_loop (T0 : list Dynamodb.Prediction.t)
    (items : list Dynamodb.Prediction.t) :
  forall (done : list string) (c : MarketResolver.Counters) (w : World),
    let r := for_fold items c
      (fun (c : MarketResolver.Counters) (prediction_item : Dynamodb.Prediction.t) =>
         try_except
           (match Dynamodb.Prediction.was_correct prediction_item with
            | None =>
                bind (MarketResolver.update_prediction_outcome prediction_item market)
                  (fun _ =>
                     ret {| MarketResolver.positions_updated :=
                              MarketResolver.positions_updated c;
                            MarketResolver.predictions_updated :=
                              (MarketResolver.predictions_updated c + 1)%Z;
                            MarketResolver.agents_updated :=
                              MarketResolver.agents_updated c |})
            | Some _ => ret c
            end)
           (fun _ => ret c)) w in
    exists c',
      fst r = Ok c'
      /\ MarketResolver.predictions_updated c'
         = (MarketResolver.predictions_updated c
            + Z.of_nat (length (List.filter Props.unmarked items)))%Z
      /\ MarketResolver.positions_updated c' = MarketResolver.positions_updated c
      /\ MarketResolver.agents_updated c' = MarketResolver.agents_updated c
      /\ positions_table (snd r) = positions_table w
      /\ agents_table (snd r) = agents_table w
      /\ telegram (snd r) = telegram w
      /\ (List.NoDup (map Dynamodb.Prediction.prediction_id T0) ->
          (forall item, In item items -> In item T0) ->
          predictions_table w = map (Props.marked_under market done) T0 ->
          predictions_table (snd r)
          = map (Props.marked_under market
                   (done ++ map Dynamodb.Prediction.prediction_id
                              (List.filter Props.unmarked items))) T0).
Proof.
  induction items as [| item items IH]; intros done c w r.
  - exists c. subst r. simpl. unfold ret. simpl. rewrite app_nil_r.
    repeat split; [lia | auto].
  - assert (Hr : r = for_fold (item :: items) c
      (fun (c : MarketResolver.Counters) (prediction_item : Dynamodb.Prediction.t) =>
         try_except
           (match Dynamodb.Prediction.was_correct prediction_item with
            | None =>
                bind (MarketResolver.update_prediction_outcome prediction_item market)
                  (fun _ =>
                     ret {| MarketResolver.positions_updated :=
                              MarketResolver.positions_updated c;
                            MarketResolver.predictions_updated :=
                              (MarketResolver.predictions_updated c + 1)%Z;
                            MarketResolver.agents_updated :=
                              MarketResolver.agents_updated c |})
            | Some _ => ret c
            end)
           (fun _ => ret c)) w) by reflexivity.
    clearbody r. simpl for_fold in Hr. unfold bind at 1 in Hr.
    unfold try_except at 1 in Hr.
    cbn [List.filter].
    destruct (Dynamodb.Prediction.was_correct item) as [b |] eqn:Ewc.
    + replace (Props.unmarked item) with false
        by (unfold Props.unmarked; rewrite Ewc; reflexivity).
      unfold ret at 1 in Hr.
      destruct (IH done c w) as [c' [G1 [G2 [G3 [G4 [G5 [G6 [G7 G8]]]]]]]].
      rewrite <- Hr in G1, G5, G6, G7, G8. exists c'.
      repeat (split; [assumption |]).
      intros Hnd Hitems Htab.
      apply G8; [exact Hnd | | exact Htab].
      intros i Hi. apply Hitems. right. exact Hi.
    + replace (Props.unmarked item) with true
        by (unfold Props.unmarked; rewrite Ewc; reflexivity).
      unfold bind at 1, MarketResolver.update_prediction_outcome,
        DynamoDBClient.update_prediction_outcome, modify in Hr.
      unfold ret at 1 in Hr. cbn [fst snd] in Hr.
      match type of Hr with
      | r = for_fold items ?c1 _ ?w1 =>
          destruct (IH (done ++ [Dynamodb.Prediction.prediction_id item]) c1 w1)
            as [c' [G1 [G2 [G3 [G4 [G5 [G6 [G7 G8]]]]]]]]
      end.
      subst r. exists c'.
      split; [exact G1 |].
      split; [rewrite G2; cbn [MarketResolver.predictions_updated length];
              rewrite Nat2Z.inj_succ; lia |].
      split; [exact G3 |]. split; [exact G4 |].
      split; [exact G5 |]. split; [exact G6 |]. split; [exact G7 |].
      intros Hnd Hitems Htab.
      etransitivity;
        [apply G8; [exact Hnd | intros i Hi; apply Hitems; right; exact Hi |]
        | cbn [map]; rewrite <- app_assoc; reflexivity].
      cbn [set_predictions_table predictions_table]. rewrite Htab, map_map.
      apply map_ext_in. intros p Hp.
      rewrite marked_under_id.
      unfold Props.marked_under at 3. rewrite str_in_app.
      destruct (String.eqb_spec (Dynamodb.Prediction.prediction_id p)
                  (Dynamodb.Prediction.prediction_id item)) as [Heq | Hne].
      * assert (p = item)
          by (apply (NoDup_map_eq _ _ _ _ Hnd Hp
                       (Hitems item (or_introl eq_refl)) Heq)).
        subst p.
        replace (Py.str_in (Dynamodb.Prediction.prediction_id item)
                   [Dynamodb.Prediction.prediction_id item]) with true
          by (symmetry; apply str_in_In; left; reflexivity).
        rewrite orb_true_r.
        unfold Props.marked_under.
        destruct (Py.str_in _ done); reflexivity.
      * replace (Py.str_in (Dynamodb.Prediction.prediction_id p)
                   [Dynamodb.Prediction.prediction_id item]) with false
          by (symmetry; apply str_in_not_In; intros [E | []]; congruence).
        rewrite orb_false_r. reflexivity.
Qed.


Lemma in_table_values {A} (table : gmap string A) (x : A) :
  In x (map snd (map_to_list table)) <-> exists key, table !! key = Some x.
Proof.
  rewrite in_map_iff. split.
  - intros [[key y] [Hy Hin]]. simpl in Hy. subst y. exists key.
    apply elem_of_map_to_list. apply list_elem_of_In. exact Hin.
  - intros [key Hk]. exists (key, x). split; [reflexivity |].
    apply list_elem_of_In. apply elem_of_map_to_list. exact Hk.
Qed.

Lemma filter_nil_iff {A} (f : A -> bool) (l : list A) :
  (forall x, In x l -> f x = false) -> List.filter f l = [].
Proof.
  induction l as [| a l IH]; simpl; [reflexivity |].
  intros H. rewrite (H a (or_introl eq_refl)). apply IH.
  intros x Hx. apply H. right. exact Hx.
Qed.

Lemma closed_as_not_open (p p' : Dynamodb.Position.t) (market_id : string) :
  Props.closed_as market p p' -> Props.open_on market_id p' = false.
Proof.
  unfold Props.closed_as, Props.open_on. intros ->. simpl.
  apply andb_false_r.
Qed.

Lemma marked_under_nil (T : list Dynamodb.Prediction.t) :
  map (Props.marked_under market []) T = T.
Proof.
  rewrite <- (map_id T) at 2. apply map_ext. intros p. reflexivity.
Qed.

Lemma marked_under_against (T : list Dynamodb.Prediction.t) :
  List.NoDup (map Dynamodb.Prediction.prediction_id T) ->
  map (Props.marked_under market
         (map Dynamodb.Prediction.prediction_id
            (List.filter (Props.unmarked_on (WhetherApi.Market.id market)) T))) T
  = map (Props.marked_against market) T.
Proof.
  intros Hnd. apply map_ext_in. intros p Hp.
  unfold Props.marked_under, Props.marked_against.
  destruct (Props.unmarked_on (WhetherApi.Market.id market) p) eqn:Eu.
  - replace (Py.str_in _ _) with true; [reflexivity |].
    symmetry. apply str_in_In. apply in_map. apply filter_In. auto.
  - replace (Py.str_in _ _) with false; [reflexivity |].
    symmetry. apply str_in_not_In. intros Hin.
    apply in_map_iff in Hin as [q [Hq Hin]].
    apply filter_In in Hin as [Hin Hu].
    assert (q = p) by (apply (NoDup_map_eq _ _ _ _ Hnd Hin Hp Hq)).
    subst q. congruence.
Qed.

(** What [resolve_market] does to the tables and the counters. *)
Lemma resolve_market_effects (counters : MarketResolver.Counters) (w : World) :
  let r := MarketResolver.resolve_market counters market w in
  exists c',
    fst r = Ok c'
    /\ MarketResolver.positions_updated c'
       = (MarketResolver.positions_updated counters
          + Z.of_nat (length (Props.open_positions (WhetherApi.Market.id market) w)))%Z
    /\ MarketResolver.predictions_updated c'
       = (MarketResolver.predictions_updated counters
          + Z.of_nat (length (List.filter
                                (Props.unmarked_on (WhetherApi.Market.id market))
                                (predictions_table w))))%Z
    /\ agents_table (snd r) = agents_table w
    /\ (Props.keyed_by_id (positions_table w) ->
        Props.resolved_under market (positions_table w) (positions_table (snd r))
          (map Dynamodb.Position.position_id
             (Props.open_positions (WhetherApi.Market.id market) w)))
    /\ (List.NoDup (map Dynamodb.Prediction.prediction_id (predictions_table w)) ->
        predictions_table (snd r)
        = map (Props.marked_against market) (predictions_table w)).
Proof.
  intros r.
  assert (Hr : r = MarketResolver.resolve_market counters market w) by reflexivity.
  clearbody r.
  unfold MarketResolver.resolve_market in Hr.
  unfold bind at 1, MarketResolver.scan_open_positions, gets in Hr.
  cbn [fst snd] in Hr.
  change (List.filter _ (map snd (map_to_list (positions_table w))))
    with (Props.open_positions (WhetherApi.Market.id market) w) in Hr.
  unfold bind at 1 in Hr.
  match type of Hr with
  | context [for_fold ?items counters ?body w] =>
      pose proof (resolve_loop (positions_table w) items [] counters w) as L;
      cbv zeta in L;
      destruct L as [c1 [G1 [G2 [G3 [G4 [G5 G6]]]]]];
      destruct (for_fold items counters body w) as [res w1]
  end.
  cbn [fst snd] in G1, G4, G5, G6. subst res.
  unfold bind at 1, MarketResolver.scan_predictions, gets in Hr.
  cbn [fst snd] in Hr.
  match type of Hr with
  | r = for_fold ?items c1 ?body w1 =>
      pose proof (mark_loop (predictions_table w) items [] c1 w1) as L;
      cbv zeta in L;
      destruct L as [c2 [M1 [M2 [M3 [M4 [M5 [M6 [M7 M8]]]]]]]]
  end.
  rewrite <- Hr in M1, M5, M6, M7, M8. clear Hr.
  exists c2. split; [exact M1 |].
  split; [rewrite M3, G2; reflexivity |].
  split.
  { rewrite M2, G3, G4, filter_filter. reflexivity. }
  split; [rewrite M6; exact G5 |].
  split.
  { intros Hkeys. rewrite M5. apply G6.
    - intros item Hin. apply filter_In in Hin as [Hin _].
      apply in_table_values in Hin as [key Hk].
      rewrite (Hkeys _ _ Hk). exact Hk.
    - intros key. destruct (positions_table w !! key); [| reflexivity].
      split; [reflexivity | intros []]. }
  intros Hnd. rewrite M8.
  - rewrite G4, filter_filter. cbn [app].
    apply (marked_under_against _ Hnd).
  - exact Hnd.
  - rewrite G4. intros item Hin. apply filter_In in Hin. tauto.
  - rewrite G4. symmetry. apply marked_under_nil.
Qed.

(** The positions table after [resolve_market], key by key. *)
Lemma resolve_market_positions (counters : MarketResolver.Counters) (w : World) :
  Props.keyed_by_id (positions_table w) ->
  forall key,
    match positions_table w !! key with
    | None =>
        positions_table (snd (MarketResolver.resolve_market counters market w))
          !! key = None
    | Some p =>
        if Props.open_on (WhetherApi.Market.id market) p
        then exists p',
               positions_table
                 (snd (MarketResolver.resolve_market counters market w))
                 !! key = Some p'
               /\ Props.closed_as market p p'
        else positions_table
               (snd (MarketResolver.resolve_market counters market w))
               !! key = Some p
    end.
Proof.
  intros Hkeys key.
  destruct (resolve_market_effects counters w)
    as [c' [_ [_ [_ [_ [Hres _]]]]]].
  specialize (Hres Hkeys key).
  destruct (positions_table w !! key) as [p |] eqn:Ek; [| exact Hres].
  destruct Hres as [Hout Hin].
  destruct (Props.open_on (WhetherApi.Market.id market) p) eqn:Eo.
  - apply Hin. apply in_map_iff. exists p.
    split; [exact (Hkeys _ _ Ek) |].
    apply filter_In. split; [| exact Eo].
    apply in_table_values. exists key. exact Ek.
  - apply Hout. intros Hid.
    apply in_map_iff in Hid as [item [Hid Hitem]].
    apply filter_In in Hitem as [Hitem Ho].
    apply in_table_values in Hitem as [k' Hk'].
    assert (k' = key) by (rewrite <- (Hkeys _ _ Hk'); exact Hid).
    subst k'. congruence.
Qed.

Lemma resolve_market_keyed (counters : MarketResolver.Counters) (w : World) :
  Props.keyed_by_id (positions_table w) ->
  Props.keyed_by_id
    (positions_table (snd (MarketResolver.resolve_market counters market w))).
Proof.
  intros Hkeys key p' Hk.
  pose proof (resolve_market_positions counters w Hkeys key) as Hchar.
  destruct (positions_table w !! key) as [p |] eqn:Ek; [| congruence].
  destruct (Props.open_on (WhetherApi.Market.id market) p).
  - destruct Hchar as [q [Hq Hc]].
    assert (q = p') by congruence. subst q.
    rewrite Hc. simpl. exact (Hkeys _ _ Ek).
  - assert (p = p') by congruence. subst p'. exact (Hkeys _ _ Ek).
Qed.

Lemma open_positions_nil (market_id : string) (w : World) :
  Props.open_positions market_id w = []
  <-> forall key p, positions_table w !! key = Some p ->
                    Props.open_on market_id p = false.
Proof.
  unfold Props.open_positions. split.
  - intros Hnil key p Hk.
    destruct (Props.open_on market_id p) eqn:Eo; [| reflexivity].
    assert (Hin : In p (List.filter (Props.open_on market_id)
                          (map snd (map_to_list (positions_table w))))).
    { apply filter_In. split; [| exact Eo].
      apply in_table_values. exists key. exact Hk. }
    rewrite Hnil in Hin. destruct Hin.
  - intros H. apply filter_nil_iff. intros x Hx.
    apply in_table_values in Hx as [key Hk]. exact (H key x Hk).
Qed.

(** Positions that are not open on some market stay so. *)
Lemma resolve_market_keeps_closed (counters : MarketResolver.Counters)
    (w : World) (market_id : string) :
  Props.keyed_by_id (positions_table w) ->
  (market_id = WhetherApi.Market.id market
   \/ Props.open_positions market_id w = []) ->
  Props.open_positions market_id
    (snd (MarketResolver.resolve_market counters market w)) = [].
Proof.
  intros Hkeys Hm. apply open_positions_nil. intros key x Hk.
  pose proof (resolve_market_positions counters w Hkeys key) as Hchar.
  destruct (positions_table w !! key) as [p |] eqn:Ek; [| congruence].
  destruct (Props.open_on (WhetherApi.Market.id market) p) eqn:Eo.
  - destruct Hchar as [q [Hq Hc]].
    assert (q = x) by congruence. subst q.
    exact (closed_as_not_open _ _ _ Hc).
  - assert (p = x) by congruence. subst x.
    destruct Hm as [-> | Hnil]; [exact Eo |].
    exact (proj1 (open_positions_nil _ _) Hnil key p Ek).
Qed.

Lemma unmarked_on_marked (market_id : string) (p : Dynamodb.Prediction.t) :
  Props.unmarked_on market_id (Props.marked_against market p) = true ->
  Props.unmarked_on market_id p = true
  /\ market_id <> WhetherApi.Market.id market.
Proof.
  unfold Props.marked_against.
  destruct (Props.unmarked_on (WhetherApi.Market.id market) p) eqn:E.
  - unfold Props.unmarked_on. simpl. rewrite andb_false_r. discriminate.
  - intros H. split; [exact H |]. intros ->. congruence.
Qed.

(** Predictions that have an outcome keep it. *)
Lemma resolve_market_keeps_marked (counters : MarketResolver.Counters)
    (w : World) (market_id : string) :
  List.NoDup (map Dynamodb.Prediction.prediction_id (predictions_table w)) ->
  (market_id = WhetherApi.Market.id market
   \/ List.filter (Props.unmarked_on market_id) (predictions_table w) = []) ->
  List.filter (Props.unmarked_on market_id)
    (predictions_table (snd (MarketResolver.resolve_market counters market w)))
  = [].
Proof.
  intros Hids Hm.
  destruct (resolve_market_effects counters w)
    as [c' [_ [_ [_ [_ [_ Hmark]]]]]].
  rewrite (Hmark Hids). apply filter_nil_iff. intros x Hx.
  apply in_map_iff in Hx as [p [<- Hp]].
  destruct (Props.unmarked_on market_id (Props.marked_against market p)) eqn:E;
    [| reflexivity].
  apply unmarked_on_marked in E as [Eu Hne].
  destruct Hm as [-> | Hnil]; [congruence |].
  assert (Hin : In p (List.filter (Props.unmarked_on market_id)
                        (predictions_table w)))
    by (apply filter_In; auto).
  rewrite Hnil in Hin. destruct Hin.
Qed.

Lemma resolve_market_ids (counters : MarketResolver.Counters) (w : World) :
  List.NoDup (map Dynamodb.Prediction.prediction_id (predictions_table w)) ->
  List.NoDup
    (map Dynamodb.Prediction.prediction_id
       (predictions_table (snd (MarketResolver.resolve_market counters market w)))).
Proof.
  intros Hids.
  destruct (resolve_market_effects counters w)
    as [c' [_ [_ [_ [_ [_ Hmark]]]]]].
  rewrite (Hmark Hids), map_map.
  erewrite map_ext; [exact Hids |].
  intros p. unfold Props.marked_against.
  destruct (Props.unmarked_on _ p); reflexivity.
Qed.

(** X14. [resolve_market] closes every open position on the market: when
    each position record is stored under its own identifier, the records
    that were open on the market are closed with the exit price and the
    pnl of [resolve_position], every other record is exactly as it was,
    no record appears or disappears, and positionsUpdated grows by the
    number of positions that were open on the market.  Afterwards the scan
    for open positions on the market is empty, so a later run finds nothing
    to resolve there. *)
Theorem resolve_market_closes_open_positions
    (counters : MarketResolver.Counters) (w : World)
    (Hkeys : Props.keyed_by_id (positions_table w)) :
  let r := MarketResolver.resolve_market counters market w in
  (forall key,
     match positions_table w !! key with
     | None => positions_table (snd r) !! key = None
     | Some p =>
         if Props.open_on (WhetherApi.Market.id market) p
         then exists p',
                positions_table (snd r) !! key = Some p'
                /\ Dynamodb.Position.status p' = Dynamodb.CLOSED
                /\ Props.closed_as market p p'
         else positions_table (snd r) !! key = Some p
     end)
  /\ (exists c',
        fst r = Ok c'
        /\ MarketResolver.positions_updated c'
           = (MarketResolver.positions_updated counters
              + Z.of_nat (length (Props.open_positions
                                    (WhetherApi.Market.id market) w)))%Z)
  /\ MarketResolver.scan_open_positions (WhetherApi.Market.id market) (snd r)
     = (Ok [], snd r).
Proof.
  intros r.
  split; [| split].
  - intros key.
    pose proof (resolve_market_positions counters w Hkeys key) as Hchar.
    fold r in Hchar.
    destruct (positions_table w !! key) as [p |]; [| exact Hchar].
    destruct (Props.open_on (WhetherApi.Market.id market) p); [| exact Hchar].
    destruct Hchar as [p' [Hp' Hc]]. exists p'.
    split; [exact Hp' |]. split; [rewrite Hc; reflexivity | exact Hc].
  - destruct (resolve_market_effects counters w) as [c' [H1 [H2 _]]].
    exists c'. split; assumption.
  - unfold MarketResolver.scan_open_positions, gets. f_equal. f_equal.
    apply (resolve_market_keeps_closed counters w _ Hkeys). left. reflexivity.
Qed.

(** X15. [resolve_market] marks the predictions on the market: when the
    stored predictions have distinct identifiers, every prediction on the
    market that has no outcome yet gets the market's outcome and is marked
    correct exactly when its recommended direction equals that outcome,
    and every other prediction record (on another market, or already
    marked) is exactly as it was; predictionsUpdated grows by the number of
    predictions marked.  Afterwards no prediction on the market is without
    outcome, so a prediction is marked once. *)
Theorem resolve_market_marks_predictions
    (counters : MarketResolver.Counters) (w : World)
    (Hids : List.NoDup (map Dynamodb.Prediction.prediction_id
                          (predictions_table w))) :
  let r := MarketResolver.resolve_market counters market w in
  predictions_table (snd r)
  = map (Props.marked_against market) (predictions_table w)
  /\ (exists c',
        fst r = Ok c'
        /\ MarketResolver.predictions_updated c'
           = (MarketResolver.predictions_updated counters
              + Z.of_nat (length (List.filter
                                    (Props.unmarked_on (WhetherApi.Market.id market))
                                    (predictions_table w))))%Z)
  /\ List.filter (Props.unmarked_on (WhetherApi.Market.id market))
       (predictions_table (snd r)) = [].
Proof.
  intros r.
  destruct (resolve_market_effects counters w)
    as [c' [H1 [_ [H3 [_ [_ Hmark]]]]]].
  fold r in H1, Hmark.
  split; [exact (Hmark Hids) |].
  split; [exists c'; split; assumption |].
  apply (resolve_market_keeps_marked counters w _ Hids). left. reflexivity.
Qed.

End MarketResolution.

Lemma resolve_market_closes_open_positions_witness :
  MarketResolver.scan_open_positions "market-0"
    (snd (MarketResolver.resolve_market Cases.no_counters
            (Examples.market_with (Some "YES"%string)) Cases.world_to_resolve))
  = (Effects.Ok [],
     snd (MarketResolver.resolve_market Cases.no_counters
            (Examples.market_with (Some "YES"%string)) Cases.world_to_resolve)).
Proof.
  refine (proj2 (proj2 (resolve_market_closes_open_positions
                          (Examples.market_with (Some "YES"%string))
                          Cases.no_counters Cases.world_to_resolve _))).
  intros key p H.
  unfold Cases.world_to_resolve, Examples.world_with in H.
  cbn [Effects.positions_table] in H.
  apply lookup_singleton_Some in H as [<- <-]. reflexivity.
Defined.

Lemma resolve_market_marks_predictions_witness :
  map Dynamodb.Prediction.was_correct
    (Effects.predictions_table
       (snd (MarketResolver.resolve_market Cases.no_counters
               (Examples.market_with (Some "NO"%string)) Cases.world_to_resolve)))
  = [Some false].
Proof.
  rewrite (proj1 (resolve_market_marks_predictions
                    (Examples.market_with (Some "NO"%string))
                    Cases.no_counters Cases.world_to_resolve
                    ltac:(repeat constructor; simpl; tauto))).
  reflexivity.
Defined.

(** ** Running the resolver again *)

Section ResolverRerun.
Import Effects.

Lemma mark_loop_noop (market : WhetherApi.Market.t)
    (items : list Dynamodb.Prediction.t) (c : MarketResolver.Counters)
    (w : World) :
  List.filter Props.unmarked items = [] ->
  for_fold items c
    (fun (c : MarketResolver.Counters) (prediction_item : Dynamodb.Prediction.t) =>
       try_except
         (match Dynamodb.Prediction.was_correct prediction_item with
          | None =>
              bind (MarketResolver.update_prediction_outcome prediction_item market)
                (fun _ =>
                   ret {| MarketResolver.positions_updated :=
                            MarketResolver.positions_updated c;
                          MarketResolver.predictions_updated :=
                            (MarketResolver.predictions_updated c + 1)%Z;
                          MarketResolver.agents_updated :=
                            MarketResolver.agents_updated c |})
          | Some _ => ret c
          end)
         (fun _ => ret c)) w
  = (Ok c, w).
Proof.
  induction items as [| item items IH]; intros Hnil; [reflexivity |].
  simpl in Hnil. unfold Props.unmarked at 1 in Hnil.
  simpl for_fold. unfold bind at 1, try_except at 1.
  destruct (Dynamodb.Prediction.was_correct item); [| discriminate Hnil].
  unfold ret at 1. exact (IH Hnil).
Qed.

(** On a market on which nothing is left to resolve, [resolve_market]
    does nothing. *)
Lemma resolve_market_noop (market : WhetherApi.Market.t)
    (c : MarketResolver.Counters) (w : World) :
  Props.settled_on (WhetherApi.Market.id market) w ->
  MarketResolver.resolve_market c market w = (Ok c, w).
Proof.
  intros [Hopen Hmarked].
  unfold MarketResolver.resolve_market.
  unfold bind at 1, MarketResolver.scan_open_positions, gets. cbn [fst snd].
  change (List.filter _ (map snd (map_to_list (positions_table w))))
    with (Props.open_positions (WhetherApi.Market.id market) w).
  rewrite Hopen. simpl for_fold. unfold bind at 1, ret at 1.
  unfold bind at 1, MarketResolver.scan_predictions, gets. cbn [fst snd].
  apply mark_loop_noop.
  rewrite filter_filter. exact Hmarked.
Qed.

(** The loop of the handler over the resolved markets. *)
Lemma resolve_markets_settled (markets : list WhetherApi.Market.t) :
  forall (c : MarketResolver.Counters) (w : World),
    Props.keyed_by_id (positions_table w) ->
    List.NoDup (map Dynamodb.Prediction.prediction_id (predictions_table w)) ->
    let r := for_fold markets c MarketResolver.resolve_market w in
    (exists c', fst r = Ok c')
    /\ Props.keyed_by_id (positions_table (snd r))
    /\ List.NoDup (map Dynamodb.Prediction.prediction_id (predictions_table (snd r)))
    /\ forall market_id,
         (In market_id (map WhetherApi.Market.id markets)
          \/ Props.settled_on market_id w) ->
         Props.settled_on market_id (snd r).
Proof.
  induction markets as [| market markets IH]; intros c w Hkeys Hids r.
  - subst r. simpl. unfold ret. simpl.
    split; [eexists; reflexivity |]. split; [exact Hkeys |].
    split; [exact Hids |]. intros mid [[] | H]. exact H.
  - assert (Hr : r = for_fold (market :: markets) c
                       MarketResolver.resolve_market w) by reflexivity.
    clearbody r. simpl for_fold in Hr. unfold bind at 1 in Hr.
    pose proof (resolve_market_keyed market c w Hkeys) as K1.
    pose proof (resolve_market_ids market c w Hids) as N1.
    pose proof (fun mid => resolve_market_keeps_closed market c w mid Hkeys) as P1.
    pose proof (fun mid => resolve_market_keeps_marked market c w mid Hids) as M1.
    destruct (resolve_market_effects market c w) as [c1 [E1 _]].
    destruct (MarketResolver.resolve_market c market w) as [res w1].
    cbn [fst snd] in K1, N1, P1, M1, E1. subst res.
    destruct (IH c1 w1 K1 N1) as [G1 [G2 [G3 G4]]].
    rewrite <- Hr in G1, G2, G3, G4.
    split; [exact G1 |]. split; [exact G2 |]. split; [exact G3 |].
    intros mid Hmid. apply G4.
    destruct Hmid as [[<- | Hin] | [Ho Hm]].
    + right. split; [apply P1 | apply M1]; left; reflexivity.
    + left. exact Hin.
    + right. split; [apply P1 | apply M1]; right; assumption.
Qed.

Lemma resolve_markets_noop (markets : list WhetherApi.Market.t) :
  forall (c : MarketResolver.Counters) (w : World),
    (forall market, In market markets ->
       Props.settled_on (WhetherApi.Market.id market) w) ->
    for_fold markets c MarketResolver.resolve_market w = (Ok c, w).
Proof.
  induction markets as [| market markets IH]; intros c w H; [reflexivity |].
  simpl for_fold. unfold bind at 1.
  rewrite (resolve_market_noop market c w (H market (or_introl eq_refl))).
  apply IH. intros m Hm. apply H. right. exact Hm.
Qed.

(** [update_agent_stats] only writes to the agents table. *)
Lemma update_agent_stats_frame (agent_id : string) (w : World) :
  let r := MarketResolver.update_agent_stats agent_id w in
  fst r = Ok tt
  /\ positions_table (snd r) = positions_table w
  /\ predictions_table (snd r) = predictions_table w.
Proof.
  unfold MarketResolver.update_agent_stats,
    DynamoDBClient.get_positions_by_agent, bind, gets, ret. cbn [fst snd].
  destruct (Py.truthy _); cbn [negb]; [| repeat split].
  unfold DynamoDBClient.update_agent_stats, bind, datetime_now, modify.
  cbn. repeat split.
Qed.

Lemma update_agents_frame (ids : list string) :
  forall w,
    let r := for_each ids
               (fun agent_id =>
                  try_except (MarketResolver.update_agent_stats agent_id)
                             (fun _ => ret tt)) w in
    fst r = Ok tt
    /\ positions_table (snd r) = positions_table w
    /\ predictions_table (snd r) = predictions_table w.
Proof.
  induction ids as [| agent_id ids IH]; intros w r.
  - subst r. simpl. repeat split.
  - assert (Hr : r = for_each (agent_id :: ids)
               (fun agent_id =>
                  try_except (MarketResolver.update_agent_stats agent_id)
                             (fun _ => ret tt)) w) by reflexivity.
    clearbody r. simpl for_each in Hr. unfold bind at 1, try_except at 1 in Hr.
    destruct (update_agent_stats_frame agent_id w) as [F1 [F2 F3]].
    destruct (MarketResolver.update_agent_stats agent_id w) as [res w1].
    cbn [fst snd] in F1, F2, F3. subst res.
    destruct (IH w1) as [G1 [G2 G3]].
    rewrite <- Hr in G1, G2, G3.
    split; [exact G1 |]. split; congruence.
Qed.


Lemma settled_on_ext (market_id : string) (w w' : World) :
  positions_table w' = positions_table w ->
  predictions_table w' = predictions_table w ->
  Props.settled_on market_id w -> Props.settled_on market_id w'.
Proof.
  unfold Props.settled_on, Props.open_positions. intros -> ->. tauto.
Qed.

(** After a run of the resolver nothing is left to resolve on the markets
    it went over. *)
Lemma resolver_run_settles (env : Env) (markets : list WhetherApi.Market.t)
    (w : World) :
  (forall w', api_get_markets env "resolved" w' = Ok markets) ->
  Props.keyed_by_id (positions_table w) ->
  List.NoDup (map Dynamodb.Prediction.prediction_id (predictions_table w)) ->
  forall market, In market markets ->
    Props.settled_on (WhetherApi.Market.id market)
      (snd (MarketResolver.lambda_handler env w)).
Proof.
  intros Hapi Hkeys Hids market Hin.
  unfold MarketResolver.lambda_handler.
  unfold bind at 1, datetime_now at 1. cbn [fst snd].
  unfold bind at 1, try_except at 1, bind at 1, ask at 1. rewrite Hapi.
  cbn [fst snd]. unfold ret at 1. cbn [fst snd].
  replace (Py.truthy markets) with true
    by (destruct markets; [destruct Hin | reflexivity]).
  cbn [negb]. unfold bind at 1.
  match goal with
  | |- context [for_fold markets ?c MarketResolver.resolve_market ?w0] =>
      destruct (resolve_markets_settled markets c w0 Hkeys Hids)
        as [[c' G1] [_ [_ G4]]];
      destruct (for_fold markets c MarketResolver.resolve_market w0) as [res wA]
  end.
  cbn [fst snd] in G1, G4. subst res.
  unfold bind at 1.
  destruct (update_agents_frame
              (elements (MarketResolver.agents_updated c')) wA) as [F1 [F2 F3]].
  destruct (for_each (elements (MarketResolver.agents_updated c')) _ wA)
    as [res wB].
  cbn [fst snd] in F1, F2, F3. subst res.
  unfold bind, datetime_now, ret. cbn [fst snd].
  apply (settled_on_ext _ wA); [exact F2 | exact F3 |].
  apply G4. left. apply in_map. exact Hin.
Qed.

(** X16. The daily run of the resolver is idempotent on what it resolved:
    when each position record is stored under its own identifier, the
    stored predictions have distinct identifiers and the market API lists
    the same resolved markets again, a second run reports 0 positions and
    0 predictions updated and no agent, and leaves the positions, the
    predictions and the agents as the first run left them, and sends no
    notification. *)
Theorem resolver_rerun_changes_nothing (env : Env)
    (markets : list WhetherApi.Market.t) (w : World)
    (Hapi : forall w', api_get_markets env "resolved" w' = Ok markets)
    (Hkeys : Props.keyed_by_id (positions_table w))
    (Hids : List.NoDup (map Dynamodb.Prediction.prediction_id
                          (predictions_table w))) :
  let w1 := snd (MarketResolver.lambda_handler env w) in
  let r2 := MarketResolver.lambda_handler env w1 in
  fst r2
  = Ok (if Py.truthy markets
        then MarketResolver.Completed
               {| MarketResolver.positions_updated := 0;
                  MarketResolver.predictions_updated := 0;
                  MarketResolver.agents_updated := ∅ |}
        else MarketResolver.NoResolvedMarkets)
  /\ positions_table (snd r2) = positions_table w1
  /\ predictions_table (snd r2) = predictions_table w1
  /\ agents_table (snd r2) = agents_table w1
  /\ telegram (snd r2) = telegram w1.
Proof.
  intros w1 r2.
  pose proof (resolver_run_settles env markets w Hapi Hkeys Hids) as Hset.
  fold w1 in Hset. clearbody w1.
  assert (Hr : r2 = MarketResolver.lambda_handler env w1) by reflexivity.
  clearbody r2. unfold MarketResolver.lambda_handler in Hr.
  unfold bind at 1, datetime_now at 1 in Hr. cbn [fst snd] in Hr.
  unfold bind at 1, try_except at 1, bind at 1, ask at 1 in Hr.
  rewrite Hapi in Hr.
  cbn [fst snd] in Hr. unfold ret at 1 in Hr. cbn [fst snd] in Hr.
  destruct (Py.truthy markets); cbn [negb] in Hr;
    [| unfold ret in Hr; subst r2; repeat split].
  unfold bind at 1 in Hr. rewrite resolve_markets_noop in Hr.
  - cbn [MarketResolver.agents_updated] in Hr. rewrite elements_empty in Hr.
    cbn in Hr. subst r2. repeat split.
  - intros market Hin.
    apply (settled_on_ext _ w1); [reflexivity | reflexivity |].
    exact (Hset market Hin).
Qed.

Lemma resolver_rerun_changes_nothing_witness :
  fst (MarketResolver.lambda_handler
         (Examples.env [Examples.market_with (Some "YES"%string)])
         (snd (MarketResolver.lambda_handler
                 (Examples.env [Examples.market_with (Some "YES"%string)])
                 Cases.world_to_resolve)))
  = Ok (MarketResolver.Completed
          {| MarketResolver.positions_updated := 0;
             MarketResolver.predictions_updated := 0;
             MarketResolver.agents_updated := ∅ |}).
Proof.
  refine (proj1 (resolver_rerun_changes_nothing
                   (Examples.env [Examples.market_with (Some "YES"%string)])
                   [Examples.market_with (Some "YES"%string)]
                   Cases.world_to_resolve (fun _ => eq_refl) _ _)).
  - intros key p H.
    unfold Cases.world_to_resolve, Examples.world_with in H.
    cbn [positions_table] in H.
    apply lookup_singleton_Some in H as [<- <-]. reflexivity.
  - repeat constructor. simpl. tauto.
Defined.

End ResolverRerun.

(** ** Scores and ranks of the leaderboard *)

Section LeaderboardRanks.
Import Effects.
Local Open Scope Q_scope.

Lemma insert_by_score_perm (x : LeaderboardUpdater.AgentScore)
    (l : list LeaderboardUpdater.AgentScore) :
  Permutation (LeaderboardUpdater.insert_by_score x l) (x :: l).
Proof.
  induction l as [| y l IH]; simpl; [reflexivity |].
  destruct (Py.Qlt_bool _ _); [| reflexivity].
  rewrite IH. apply perm_swap.
Qed.

Lemma insert_by_score_descending (x : LeaderboardUpdater.AgentScore)
    (l : list LeaderboardUpdater.AgentScore) :
  Props.descending l -> Props.descending (LeaderboardUpdater.insert_by_score x l).
Proof.
  induction l as [| y l IH]; simpl.
  - intros _. split; [constructor | exact I].
  - intros [Hy Hl].
    destruct (Py.Qlt_bool (LeaderboardUpdater.score x) (LeaderboardUpdater.score y))
      eqn:E.
    + apply Qlt_bool_iff in E. simpl. split; [| exact (IH Hl)].
      rewrite insert_by_score_perm.
      constructor 2; [lra | exact Hy].
    + apply Qlt_bool_false_iff in E. simpl. split; [| split; assumption].
      constructor 2; [exact E |].
      eapply List.Forall_impl; [| exact Hy]. intros z Hz. simpl in Hz. lra.
Qed.

Lemma insert_by_score_with_score (s : Q) (x : LeaderboardUpdater.AgentScore)
    (l : list LeaderboardUpdater.AgentScore) :
  Props.descending l ->
  Props.with_score s (LeaderboardUpdater.insert_by_score x l)
  = Props.with_score s (x :: l).
Proof.
  unfold Props.with_score.
  induction l as [| y l IH]; intros Hd; [reflexivity |].
  destruct Hd as [Hy Hl]. cbn [LeaderboardUpdater.insert_by_score].
  destruct (Py.Qlt_bool (LeaderboardUpdater.score x) (LeaderboardUpdater.score y))
    eqn:E; [| reflexivity].
  apply Qlt_bool_iff in E.
  cbn [List.filter]. rewrite (IH Hl). cbn [List.filter].
  destruct (Qeq_bool (LeaderboardUpdater.score x) s) eqn:Ex;
    destruct (Qeq_bool (LeaderboardUpdater.score y) s) eqn:Ey;
    try reflexivity.
  apply Qeq_bool_iff in Ex. apply Qeq_bool_iff in Ey. lra.
Qed.

Lemma sort_by_score_descending (l : list LeaderboardUpdater.AgentScore) :
  Props.descending (LeaderboardUpdater.sort_by_score l).
Proof.
  induction l as [| x l IH]; simpl; [exact I |].
  apply insert_by_score_descending. exact IH.
Qed.

Lemma sort_by_score_perm (l : list LeaderboardUpdater.AgentScore) :
  Permutation (LeaderboardUpdater.sort_by_score l) l.
Proof.
  induction l as [| x l IH]; simpl; [reflexivity |].
  rewrite insert_by_score_perm. constructor. exact IH.
Qed.

(** X17. The scoring step of the leaderboard updater raises TypeError on
    every agent item of the scan, and changes nothing.  The counters of an
    item are [Decimal]s: with a positive trade count the win rate is their
    quotient, a [Decimal], and the first product of the score,
    [win_rate * 0.4], raises; without trades the win rate is the [int] 0
    and the product that raises is [normalized_trades * 0.2]. *)
Theorem score_agent_type_error (item : Dynamodb.Agent.t) (w : World) :
  LeaderboardUpdater.score_agent item w = (Raised TypeError, w)
  /\ match
       LeaderboardUpdater.win_rate_expr
         (LeaderboardUpdater.item_number (Dynamodb.Agent.winning_trades item))
         (LeaderboardUpdater.item_number (Dynamodb.Agent.total_trades item))
     with
     | Ok win_rate =>
         if (0 <? Dynamodb.Agent.total_trades item)%Z
         then Py.json_serializable win_rate = false
              /\ Number.mul win_rate (Py.Float (4 # 10)) = Raised TypeError
         else win_rate = Py.Int 0
              /\ Number.mul
                   (Number.min
                      (Py.Decimal
                         (inject_Z (Dynamodb.Agent.total_trades item)
                          / inject_Z 100))
                      (Py.Float 1))
                   (Py.Float (2 # 10))
                 = Raised TypeError
     | Raised _ => False
     end.
Proof.
  split; [apply score_agent_raises |].
  unfold LeaderboardUpdater.win_rate_expr, LeaderboardUpdater.item_number.
  unfold Number.lt. cbn [Py.value].
  destruct (Z.ltb_spec 0 (Dynamodb.Agent.total_trades item)) as [Hpos | Hneg].
  - replace (Py.Qlt_bool (inject_Z 0) (inject_Z (Dynamodb.Agent.total_trades item)))
      with true
      by (symmetry; apply Qlt_bool_iff; rewrite <- Zlt_Qlt; exact Hpos).
    unfold Number.truediv. cbn [Number.combine].
    rewrite nonzero_positive; [split; reflexivity |].
    unfold Number.lt. apply Qlt_bool_iff. cbn [Py.value].
    rewrite <- Zlt_Qlt. exact Hpos.
  - replace (Py.Qlt_bool (inject_Z 0) (inject_Z (Dynamodb.Agent.total_trades item)))
      with false
      by (symmetry; apply Qlt_bool_false_iff; rewrite <- Zle_Qle; exact Hneg).
    split; [reflexivity |].
    unfold Number.min, Number.lt. cbn [Py.value].
    replace (Py.Qlt_bool 1 (inject_Z (Dynamodb.Agent.total_trades item)
                            / inject_Z 100)) with false; [reflexivity |].
    symmetry. apply Qlt_bool_false_iff.
    apply Qle_shift_div_r; [reflexivity |].
    apply Qle_trans with (inject_Z 0);
      [rewrite <- Zle_Qle; exact Hneg | vm_compute; discriminate].
Qed.

(** X18. The ranking order of the leaderboard: [sort_by_score] returns the
    same scored agents (a permutation of them), in descending order of
    score, and agents with equal scores keep the order in which they were
    scanned. *)
Theorem sort_by_score_stable (l : list LeaderboardUpdater.AgentScore) :
  Permutation (LeaderboardUpdater.sort_by_score l) l
  /\ Props.descending (LeaderboardUpdater.sort_by_score l)
  /\ forall s,
       Props.with_score s (LeaderboardUpdater.sort_by_score l)
       = Props.with_score s l.
Proof.
  split; [apply sort_by_score_perm |].
  split; [apply sort_by_score_descending |].
  intros s. induction l as [| x l IH]; [reflexivity |].
  cbn [LeaderboardUpdater.sort_by_score fold_right].
  change (fold_right LeaderboardUpdater.insert_by_score [] l)
    with (LeaderboardUpdater.sort_by_score l).
  rewrite insert_by_score_with_score by apply sort_by_score_descending.
  unfold Props.with_score in *. cbn [List.filter]. rewrite IH. reflexivity.
Qed.


(** The scoring loop stops at its first item. *)
Lemma score_agents_loop (items : list Dynamodb.Agent.t)
    (agent_scores : list LeaderboardUpdater.AgentScore) (w : World) :
  items <> [] ->
  for_fold items agent_scores
    (fun agent_scores item =>
       bind (LeaderboardUpdater.score_agent item)
            (fun entry => ret (agent_scores ++ [entry])))
    w
  = (Raised TypeError, w).
Proof.
  destruct items as [| item items]; [contradiction |]. intros _.
  cbn [for_fold]. unfold bind. rewrite score_agent_raises. reflexivity.
Qed.

(** X19. The leaderboard updater never writes the leaderboard.  When no
    stored agent has a trade it returns with 0 agents ranked.  When the
    scan returns an agent, scoring the first item raises TypeError (the
    counters of an item are [Decimal]s, which do not multiply with the
    [float] weights) and nothing catches it: the handler raises before it
    sorts or puts any entry.  In both cases every table is left as it
    was. *)
Theorem leaderboard_never_written (w : World) :
  let items :=
    List.filter (fun a => (0 <? Dynamodb.Agent.total_trades a)%Z)
                (map snd (map_to_list (agents_table w))) in
  let r := LeaderboardUpdater.lambda_handler w in
  fst r = (if Py.truthy items then Raised TypeError else Ok 0%Z)
  /\ leaderboard_table (snd r) = leaderboard_table w
  /\ Props.same_but_leaderboard w (snd r).
Proof.
  intros items r.
  assert (Hr : r = LeaderboardUpdater.lambda_handler w) by reflexivity.
  clearbody r.
  unfold LeaderboardUpdater.lambda_handler in Hr.
  unfold bind at 1, datetime_now at 1 in Hr. cbn [fst snd] in Hr.
  unfold bind at 1, LeaderboardUpdater.scan_agents_with_trades, gets in Hr.
  cbn [fst snd agents_table] in Hr. fold items in Hr.
  destruct (Py.truthy items) eqn:Ht; cbn [negb] in Hr.
  - unfold bind at 1 in Hr.
    rewrite score_agents_loop in Hr
      by (apply truthy_nonempty; exact Ht).
    subst r. cbn. repeat split; reflexivity.
  - unfold ret in Hr. subst r. cbn. repeat split; reflexivity.
Qed.

End LeaderboardRanks.

(** ** Reading the predictions of an agent *)

Section PredictionQueries.
Import Effects.

Lemma insert_by_created_at_perm (p : Dynamodb.Prediction.t)
    (l : list Dynamodb.Prediction.t) :
  Permutation (DynamoDBClient.insert_by_created_at p l) (p :: l).
Proof.
  induction l as [| x l IH]; simpl; [reflexivity |].
  destruct (_ <=? _)%Z; [reflexivity |].
  rewrite IH. apply perm_swap.
Qed.

Lemma latest_first_perm (l : list Dynamodb.Prediction.t) :
  Permutation (DynamoDBClient.latest_first l) l.
Proof.
  induction l as [| x l IH]; simpl; [reflexivity |].
  rewrite insert_by_created_at_perm. constructor. exact IH.
Qed.

Lemma insert_by_created_at_sorted (p : Dynamodb.Prediction.t)
    (l : list Dynamodb.Prediction.t) :
  Props.newest_first l ->
  Props.newest_first (DynamoDBClient.insert_by_created_at p l).
Proof.
  induction l as [| x l IH]; simpl.
  - intros _. split; [constructor | exact I].
  - intros [Hx Hl].
    destruct (Z.leb_spec (Dynamodb.Prediction.created_at x)
                         (Dynamodb.Prediction.created_at p)) as [Hle | Hgt].
    + simpl. split; [| split; assumption].
      constructor 2; [exact Hle |].
      eapply List.Forall_impl; [| exact Hx]. intros y Hy. simpl in Hy. lia.
    + simpl. split; [| exact (IH Hl)].
      rewrite insert_by_created_at_perm.
      constructor 2; [lia | exact Hx].
Qed.

Lemma latest_first_sorted (l : list Dynamodb.Prediction.t) :
  Props.newest_first (DynamoDBClient.latest_first l).
Proof.
  induction l as [| x l IH]; simpl; [exact I |].
  apply insert_by_created_at_sorted. exact IH.
Qed.

Lemma in_firstn {A} (n : nat) (l : list A) (x : A) :
  In x (firstn n l) -> In x l.
Proof.
  revert n. induction l as [| a l IH]; intros [| n]; simpl; try tauto.
  intros [-> | H]; [left; reflexivity | right; exact (IH n H)].
Qed.

Lemma in_skipn {A} (n : nat) (l : list A) (x : A) :
  In x (skipn n l) -> In x l.
Proof.
  revert n. induction l as [| a l IH]; intros [| n]; simpl; try tauto.
  intros H. right. exact (IH n H).
Qed.

Lemma newest_first_firstn (n : nat) (l : list Dynamodb.Prediction.t) :
  Props.newest_first l ->
  Props.newest_first (firstn n l)
  /\ forall p q, In p (firstn n l) -> In q (skipn n l) ->
       (Dynamodb.Prediction.created_at q <= Dynamodb.Prediction.created_at p)%Z.
Proof.
  revert l. induction n as [| n IH]; intros l Hl.
  - simpl. split; [exact I | intros p q []].
  - destruct l as [| x l]; [simpl; split; [exact I | intros p q []] |].
    destruct Hl as [Hx Hl]. destruct (IH l Hl) as [Hs Hc].
    rewrite List.Forall_forall in Hx.
    cbn [firstn skipn]. split.
    + simpl. split; [| exact Hs].
      rewrite List.Forall_forall.
      intros y Hy. apply Hx. exact (in_firstn _ _ _ Hy).
    + intros p q [<- | Hp] Hq.
      * apply Hx. exact (in_skipn _ _ _ Hq).
      * exact (Hc p q Hp Hq).
Qed.

(** X20. [get_predictions_by_agent] changes nothing and returns at most
    [limit] predictions, all of them stored predictions of the agent,
    from the latest to the earliest; a stored prediction of the agent that
    is left out is not later than any that is returned.  When the agent
    has at most [limit] predictions all of them are returned. *)
Theorem get_predictions_by_agent_latest (agent_id : string) (limit : nat)
    (w : World) :
  exists l,
    DynamoDBClient.get_predictions_by_agent agent_id limit w = (Ok l, w)
    /\ (length l <= limit)%nat
    /\ Props.newest_first l
    /\ (forall p, In p l ->
          In p (predictions_table w)
          /\ Dynamodb.Prediction.agent_id p = agent_id)
    /\ (forall p q,
          In p l -> In q (Props.predictions_by agent_id w) -> ~ In q l ->
          (Dynamodb.Prediction.created_at q <= Dynamodb.Prediction.created_at p)%Z)
    /\ ((length (Props.predictions_by agent_id w) <= limit)%nat ->
        Permutation l (Props.predictions_by agent_id w)).
Proof.
  unfold DynamoDBClient.get_predictions_by_agent, gets.
  change (List.filter _ (predictions_table w))
    with (Props.predictions_by agent_id w).
  set (all := DynamoDBClient.latest_first (Props.predictions_by agent_id w)).
  exists (firstn limit all). split; [reflexivity |].
  pose proof (latest_first_perm (Props.predictions_by agent_id w)) as Hperm.
  fold all in Hperm.
  destruct (newest_first_firstn limit all (latest_first_sorted _)) as [Hs Hc].
  split; [apply firstn_le_length |]. split; [exact Hs |].
  split.
  { intros p Hp. apply in_firstn in Hp.
    apply (Permutation_in _ Hperm) in Hp.
    apply filter_In in Hp as [Hin He]. split; [exact Hin |].
    apply String.eqb_eq. exact He. }
  split.
  { intros p q Hp Hq Hn.
    apply (Permutation_in _ (Permutation_sym Hperm)) in Hq.
    rewrite <- (firstn_skipn limit all) in Hq.
    apply in_app_or in Hq as [Hq | Hq]; [contradiction |].
    exact (Hc p q Hp Hq). }
  intros Hlen. rewrite firstn_all2; [exact Hperm |].
  rewrite (Permutation_length Hperm). exact Hlen.
Qed.

Lemma first_for_market_first (market_id : string)
    (l : list Dynamodb.Prediction.t) :
  Props.newest_first l ->
  match DynamoDBClient.first_for_market market_id l with
  | Some p =>
      In p l
      /\ Dynamodb.Prediction.market_id p = market_id
      /\ forall q, In q l -> Dynamodb.Prediction.market_id q = market_id ->
           (Dynamodb.Prediction.created_at q
            <= Dynamodb.Prediction.created_at p)%Z
  | None =>
      forall q, In q l -> Dynamodb.Prediction.market_id q <> market_id
  end.
Proof.
  induction l as [| x l IH]; simpl; [intros _ q [] |].
  intros [Hx Hl].
  destruct (String.eqb_spec (Dynamodb.Prediction.market_id x) market_id)
    as [Heq | Hne].
  - split; [left; reflexivity |]. split; [exact Heq |].
    intros q [<- | Hq] _; [lia |].
    rewrite List.Forall_forall in Hx. exact (Hx q Hq).
  - specialize (IH Hl).
    destruct (DynamoDBClient.first_for_market market_id l) as [p |].
    + destruct IH as [Hp [Hm Hlatest]].
      split; [right; exact Hp |]. split; [exact Hm |].
      intros q [<- | Hq] Hqm; [contradiction | exact (Hlatest q Hq Hqm)].
    + intros q [<- | Hq]; [exact Hne | exact (IH q Hq)].
Qed.

(** X21. For an agent with at most 100 stored predictions,
    [get_prediction_for_market] returns the agent's most recent prediction
    on the market: a stored prediction of the agent on the market that no
    other one is later than; and it returns None exactly when the agent
    has no prediction on the market. *)
Theorem get_prediction_for_market_latest (agent_id market_id : string)
    (w : World)
    (Hwindow : (length (Props.predictions_by agent_id w) <= 100)%nat) :
  exists found,
    DynamoDBClient.get_prediction_for_market agent_id market_id w = (Ok found, w)
    /\ match found with
       | Some p =>
           In p (predictions_table w)
           /\ Dynamodb.Prediction.agent_id p = agent_id
           /\ Dynamodb.Prediction.market_id p = market_id
           /\ forall q,
                In q (predictions_table w) ->
                Dynamodb.Prediction.agent_id q = agent_id ->
                Dynamodb.Prediction.market_id q = market_id ->
                (Dynamodb.Prediction.created_at q
                 <= Dynamodb.Prediction.created_at p)%Z
       | None =>
           forall q,
             In q (predictions_table w) ->
             Dynamodb.Prediction.agent_id q = agent_id ->
             Dynamodb.Prediction.market_id q <> market_id
       end.
Proof.
  unfold DynamoDBClient.get_prediction_for_market, bind,
    DynamoDBClient.get_predictions_by_agent, gets, ret. cbn [fst snd].
  eexists. split; [reflexivity |].
  change (List.filter _ (predictions_table w))
    with (Props.predictions_by agent_id w).
  pose proof (latest_first_perm (Props.predictions_by agent_id w)) as Hperm.
  rewrite firstn_all2 by (rewrite (Permutation_length Hperm); exact Hwindow).
  pose proof (first_for_market_first market_id _
                (latest_first_sorted (Props.predictions_by agent_id w))) as H.
  assert (Hall : forall q, In q (predictions_table w) ->
                   Dynamodb.Prediction.agent_id q = agent_id ->
                   In q (DynamoDBClient.latest_first
                           (Props.predictions_by agent_id w))).
  { intros q Hq Ha. apply (Permutation_in _ (Permutation_sym Hperm)).
    apply filter_In. split; [exact Hq | apply String.eqb_eq; exact Ha]. }
  destruct (DynamoDBClient.first_for_market market_id _) as [p |].
  - destruct H as [Hp [Hm Hlatest]].
    apply (Permutation_in _ Hperm) in Hp.
    apply filter_In in Hp as [Hin He]. apply String.eqb_eq in He.
    repeat split; try assumption.
    intros q Hq Ha Hqm. exact (Hlatest q (Hall q Hq Ha) Hqm).
  - intros q Hq Ha. exact (H q (Hall q Hq Ha)).
Qed.

Lemma get_prediction_for_market_latest_witness :
  exists found,
    DynamoDBClient.get_prediction_for_market "agent-1" "market-0"
      Cases.world_to_resolve
    = (Ok found, Cases.world_to_resolve)
    /\ found <> None.
Proof.
  destruct (get_prediction_for_market_latest "agent-1" "market-0"
              Cases.world_to_resolve) as [found [Hf Hm]].
  - simpl. lia.
  - exists found. split; [exact Hf |].
    destruct found as [p |]; [discriminate |].
    exfalso. apply (Hm Examples.prediction); [left | |]; reflexivity.
Defined.

End PredictionQueries.

(** ** The synthesized strategy and its stored document *)

Section StrategyDocument.
Import Effects.

Lemma ConfidenceLevel_of_value (s : string) (c : Bedrock.ConfidenceLevel) :
  Bedrock.ConfidenceLevel_of s = Some c -> Bedrock.ConfidenceLevel_value c = s.
Proof.
  unfold Bedrock.ConfidenceLevel_of.
  repeat match goal with
  | |- context [String.eqb ?a ?b] => destruct (String.eqb_spec a b)
  end; intros H; inversion H; subst; reflexivity.
Qed.

Lemma PositionDirection_of_value (s : string) (d : Bedrock.PositionDirection) :
  Bedrock.PositionDirection_of s = Some d -> Bedrock.PositionDirection_value d = s.
Proof.
  unfold Bedrock.PositionDirection_of.
  repeat match goal with
  | |- context [String.eqb ?a ?b] => destruct (String.eqb_spec a b)
  end; intros H; inversion H; subst; reflexivity.
Qed.

Lemma ScalingRule_of_value (s : string) (r : SynthesizedStrategy.ScalingRule) :
  SynthesizedStrategy.ScalingRule_of s = Some r ->
  SynthesizedStrategy.ScalingRule_value r = s.
Proof.
  unfold SynthesizedStrategy.ScalingRule_of.
  repeat match goal with
  | |- context [String.eqb ?a ?b] => destruct (String.eqb_spec a b)
  end; intros H; inversion H; subst; reflexivity.
Qed.

Lemma entry_conditions_round_trip (conditions : list SynthesizedStrategy.EntryCondition) :
  SynthesizedStrategy.entry_conditions_from
    (map (fun c => {| Strategy.field := Some (SynthesizedStrategy.field c);
                      Strategy.operator := Some (SynthesizedStrategy.operator c);
                      Strategy.value := Some (SynthesizedStrategy.value c) |})
         conditions)
  = Ok conditions.
Proof.
  induction conditions as [| [f o v] conditions IH]; simpl; [reflexivity |].
  rewrite IH. reflexivity.
Qed.

(** X22. A synthesized strategy survives storage: reading back with
    [from_dict] the document written by [to_dict] (with the same raw
    response) gives the strategy again, whatever its contents. *)
Theorem from_dict_to_dict (strategy : SynthesizedStrategy.t) :
  SynthesizedStrategy.from_dict (SynthesizedStrategy.to_dict strategy)
    (SynthesizedStrategy.raw_response strategy)
  = Ok strategy.
Proof.
  destruct strategy as [name thesis [types locations horizon] conditions
                        direction [base rule] [level edge size trades] raw].
  unfold SynthesizedStrategy.from_dict, SynthesizedStrategy.to_dict.
  cbn -[SynthesizedStrategy.entry_conditions_from map
        Bedrock.PositionDirection_of Bedrock.ConfidenceLevel_of
        SynthesizedStrategy.ScalingRule_of].
  rewrite entry_conditions_round_trip.
  destruct direction, rule, level; reflexivity.
Qed.

Lemma entry_conditions_from_map (conditions : list Strategy.EntryCondition)
    (read : list SynthesizedStrategy.EntryCondition) :
  SynthesizedStrategy.entry_conditions_from conditions = Ok read ->
  map (fun c => {| Strategy.field := Some (SynthesizedStrategy.field c);
                   Strategy.operator := Some (SynthesizedStrategy.operator c);
                   Strategy.value := Some (SynthesizedStrategy.value c) |}) read
  = conditions.
Proof.
  revert read. induction conditions as [| [f o v] conditions IH]; intros read.
  - simpl. intros H. injection H as <-. reflexivity.
  - simpl. destruct f as [f |], o as [o |], v as [v |]; try discriminate.
    simpl.
    destruct (SynthesizedStrategy.entry_conditions_from conditions) as [rest | e];
      [| discriminate].
    simpl. intros H. injection H as <-. simpl. rewrite (IH rest eq_refl).
    reflexivity.
Qed.


(** A document that [from_dict] accepts is the document that [to_dict]
    writes back, but for the two defaults that [from_dict] fills in. *)
Lemma to_dict_from_dict (data : Strategy.t) (raw : string)
    (strategy : SynthesizedStrategy.t) :
  SynthesizedStrategy.from_dict data raw = Ok strategy ->
  exists controls,
    Strategy.riskControls data = Some controls
    /\ SynthesizedStrategy.to_dict strategy
       = {| Strategy.strategyName := Strategy.strategyName data;
            Strategy.thesis := Strategy.thesis data;
            Strategy.marketSelection := Strategy.marketSelection data;
            Strategy.entryConditions := Strategy.entryConditions data;
            Strategy.positionDirection := Strategy.positionDirection data;
            Strategy.positionSizing := Strategy.positionSizing data;
            Strategy.riskControls :=
              Some {| Strategy.minConfidence := Strategy.minConfidence controls;
                      Strategy.minEdge := Strategy.minEdge controls;
                      Strategy.maxPositionSize :=
                        Some (Py.get (Strategy.maxPositionSize controls)
                                     (20 # 100)%Q);
                      Strategy.maxDailyTrades :=
                        Some (Py.get (Strategy.maxDailyTrades controls) 10%Z) |} |}.
Proof.
  destruct data as [name thesis selection conditions direction sizing controls].
  unfold SynthesizedStrategy.from_dict.
  cbn -[SynthesizedStrategy.entry_conditions_from
        Bedrock.PositionDirection_of Bedrock.ConfidenceLevel_of
        SynthesizedStrategy.ScalingRule_of].
  destruct name as [name |]; [| discriminate].
  destruct thesis as [thesis |]; [| discriminate].
  destruct selection as [[types locations horizon] |]; [| discriminate].
  destruct types as [types |]; [| discriminate].
  destruct locations as [locations |]; [| discriminate].
  destruct horizon as [horizon |]; [| discriminate].
  destruct conditions as [conditions |]; [| discriminate].
  cbn -[SynthesizedStrategy.entry_conditions_from
        Bedrock.PositionDirection_of Bedrock.ConfidenceLevel_of
        SynthesizedStrategy.ScalingRule_of].
  destruct (SynthesizedStrategy.entry_conditions_from conditions)
    as [read | e] eqn:Ec; [| discriminate].
  apply entry_conditions_from_map in Ec.
  destruct direction as [direction |]; [| discriminate].
  cbn -[Bedrock.PositionDirection_of Bedrock.ConfidenceLevel_of
        SynthesizedStrategy.ScalingRule_of].
  destruct (Bedrock.PositionDirection_of direction) as [side |] eqn:Ed;
    [| discriminate].
  apply PositionDirection_of_value in Ed.
  destruct sizing as [[base rule] |]; [| discriminate].
  destruct base as [base |]; [| discriminate].
  destruct rule as [rule |]; [| discriminate].
  cbn -[Bedrock.ConfidenceLevel_of SynthesizedStrategy.ScalingRule_of].
  destruct (SynthesizedStrategy.ScalingRule_of rule) as [scaling |] eqn:Er;
    [| discriminate].
  apply ScalingRule_of_value in Er.
  destruct controls as [[level edge size trades] |]; [| discriminate].
  destruct level as [level |]; [| discriminate].
  cbn -[Bedrock.ConfidenceLevel_of].
  destruct (Bedrock.ConfidenceLevel_of level) as [confidence |] eqn:El;
    [| discriminate].
  apply ConfidenceLevel_of_value in El.
  destruct edge as [edge |]; [| discriminate].
  cbn. intros H. injection H as <-.
  eexists. split; [reflexivity |].
  unfold SynthesizedStrategy.to_dict. cbn.
  rewrite Ec, Ed, Er, El. reflexivity.
Qed.

(** X23. Validation does not change what an agent does: when [from_dict]
    accepts a strategy document, the document that [to_dict] then stores
    selects the same markets, takes the same opening decisions, computes
    the same position sizes and gives the same request directions as the
    original document.  (The two defaults that [from_dict] fills in,
    maxPositionSize 0.20 and maxDailyTrades 10, are the values the
    orchestrator assumes for a missing key, or a key it never reads.) *)
Theorem validated_strategy_behaves_alike (data : Strategy.t) (raw : string)
    (strategy : SynthesizedStrategy.t)
    (Hvalid : SynthesizedStrategy.from_dict data raw = Ok strategy) :
  let stored := SynthesizedStrategy.to_dict strategy in
  (forall now markets,
     AgentOrchestrator.filter_markets_at now markets stored
     = AgentOrchestrator.filter_markets_at now markets data)
  /\ (forall prediction,
        AgentOrchestrator.should_open_position prediction stored
        = AgentOrchestrator.should_open_position prediction data)
  /\ (forall prediction agent,
        AgentOrchestrator.calculate_position_size prediction stored agent
        = AgentOrchestrator.calculate_position_size prediction data agent)
  /\ (forall prediction,
        Props.request_direction stored prediction
        = Props.request_direction data prediction).
Proof.
  intros stored.
  destruct (to_dict_from_dict data raw strategy Hvalid) as [controls [Hc Hs]].
  subst stored. rewrite Hs. clear Hs Hvalid.
  destruct data as [name thesis selection conditions direction sizing rc].
  cbn in Hc. subst rc.
  destruct controls as [level edge size trades].
  repeat split; reflexivity.
Qed.

Lemma validated_strategy_behaves_alike_witness :
  AgentOrchestrator.should_open_position Examples.prediction
    (SynthesizedStrategy.to_dict Cases.synthesized)
  = AgentOrchestrator.should_open_position Examples.prediction Examples.strategy.
Proof.
  refine (proj1 (proj2 (validated_strategy_behaves_alike Examples.strategy
                          "{...}" Cases.synthesized _)) Examples.prediction).
  reflexivity.
Defined.

End StrategyDocument.

(** ** Deploying, pausing and resuming an agent *)

Section AgentControl.
Import Effects.

Lemma insert_agent_perm (a : Dynamodb.Agent.t) (l : list Dynamodb.Agent.t) :
  Permutation (DynamoDBClient.insert_agent_by_created_at a l) (a :: l).
Proof.
  induction l as [| x l IH]; simpl; [reflexivity |].
  destruct (_ <=? _)%Z; [reflexivity |].
  rewrite IH. apply perm_swap.
Qed.

Lemma earliest_first_perm (l : list Dynamodb.Agent.t) :
  Permutation (DynamoDBClient.earliest_first l) l.
Proof.
  induction l as [| x l IH]; simpl; [reflexivity |].
  rewrite insert_agent_perm. constructor. exact IH.
Qed.

Lemma insert_agent_sorted (a : Dynamodb.Agent.t) (l : list Dynamodb.Agent.t) :
  Props.oldest_first l ->
  Props.oldest_first (DynamoDBClient.insert_agent_by_created_at a l).
Proof.
  induction l as [| x l IH]; simpl.
  - intros _. split; [constructor | exact I].
  - intros [Hx Hl].
    destruct (Z.leb_spec (Dynamodb.Agent.created_at a)
                         (Dynamodb.Agent.created_at x)) as [Hle | Hgt].
    + simpl. split; [| split; assumption].
      constructor 2; [exact Hle |].
      eapply List.Forall_impl; [| exact Hx]. intros y Hy. simpl in Hy. lia.
    + simpl. split; [| exact (IH Hl)].
      rewrite insert_agent_perm.
      constructor 2; [lia | exact Hx].
Qed.

Lemma earliest_first_sorted (l : list Dynamodb.Agent.t) :
  Props.oldest_first (DynamoDBClient.earliest_first l).
Proof.
  induction l as [| x l IH]; simpl; [exact I |].
  apply insert_agent_sorted. exact IH.
Qed.

(** The first agent that passes a test in a list sorted by creation time
    was created no later than any other that passes. *)
Lemma first_filtered_oldest (test : Dynamodb.Agent.t -> bool)
    (l : list Dynamodb.Agent.t) :
  Props.oldest_first l ->
  match List.filter test l with
  | [] => forall a, In a l -> test a = false
  | first :: _ =>
      In first l /\ test first = true
      /\ forall a, In a l -> test a = true ->
           (Dynamodb.Agent.created_at first <= Dynamodb.Agent.created_at a)%Z
  end.
Proof.
  induction l as [| x l IH]; simpl; [intros _ a [] |].
  intros [Hx Hl]. specialize (IH Hl).
  destruct (test x) eqn:Ex.
  - split; [left; reflexivity |]. split; [exact Ex |].
    intros a [<- | Ha] _; [lia |].
    rewrite List.Forall_forall in Hx. exact (Hx a Ha).
  - destruct (List.filter test l) as [| first rest].
    + intros a [<- | Ha]; [exact Ex | exact (IH a Ha)].
    + destruct IH as [Hin [Ht Hmin]].
      split; [right; exact Hin |]. split; [exact Ht |].
      intros a [<- | Ha] Hta; [congruence | exact (Hmin a Ha Hta)].
Qed.

Lemma has_status_iff (status : Dynamodb.AgentStatus) (a : Dynamodb.Agent.t) :
  BotWebhook.has_status status a = true <-> Dynamodb.Agent.status a = status.
Proof.
  unfold BotWebhook.has_status.
  destruct (Dynamodb.Agent.status a), status; simpl; split; congruence.
Qed.

(** Reading the records from their items does not change their status. *)
Lemma filter_has_status_from_item (status : Dynamodb.AgentStatus)
    (l : list Dynamodb.Agent.t) :
  List.filter (BotWebhook.has_status status)
    (map DynamoDBClient.Agent_from_dynamo_item l)
  = map DynamoDBClient.Agent_from_dynamo_item
      (List.filter (BotWebhook.has_status status) l).
Proof.
  induction l as [| x l IH]; [reflexivity |].
  cbn [map List.filter].
  change (BotWebhook.has_status status (DynamoDBClient.Agent_from_dynamo_item x))
    with (BotWebhook.has_status status x).
  destruct (BotWebhook.has_status status x); cbn [map]; rewrite IH; reflexivity.
Qed.

(** A reply is logged, then raises when the chat platform refuses it. *)
Lemma send_message_effects (env : Env) (chat_id : Z) (text : string)
    (w : World) :
  let r := BotWebhook.send_message env chat_id text w in
  snd r = set_telegram (fun log => log ++ [Reply (Py.Int chat_id) text]) w
  /\ fst r = (if telegram_accepts env (Reply (Py.Int chat_id) text) (snd r)
              then Ok tt else Raised (ServiceError "telegram")).
Proof.
  unfold BotWebhook.send_message, bind, modify, gets. cbn [fst snd].
  destruct (telegram_accepts env _ _) eqn:E; unfold ret, raise; cbn [fst snd];
    rewrite ?E; split; reflexivity.
Qed.

(** A command that changes the status of the first of the user's agents
    that has a given status, and replies. *)
Lemma status_command (from to : Dynamodb.AgentStatus) (none_text : string)
    (done_text : string -> string) (env : Env) (chat_id : Z)
    (user_id : string) (w : World) :
  Props.agents_keyed_by_id (agents_table w) ->
  let r :=
    bind (BotWebhook.get_bot env)
      (fun _ =>
         bind (DynamoDBClient.get_agents_by_user user_id)
           (fun agents =>
              match List.filter (BotWebhook.has_status from) agents with
              | [] => BotWebhook.send_message env chat_id none_text
              | agent :: _ =>
                  bind (DynamoDBClient.update_agent_status
                          (Dynamodb.Agent.agent_id agent) to)
                       (fun _ =>
                          BotWebhook.send_message env chat_id
                            (done_text (Dynamodb.Agent.strategy_name agent)))
              end)) w in
  match bot_client env w with
  | Raised e => r = (Raised e, w)
  | Ok _ =>
      exists text,
        telegram (snd r) = telegram w ++ [Reply (Py.Int chat_id) text]
        /\ fst r = (if telegram_accepts env (Reply (Py.Int chat_id) text) (snd r)
                    then Ok tt else Raised (ServiceError "telegram"))
        /\ positions_table (snd r) = positions_table w
        /\ predictions_table (snd r) = predictions_table w
        /\ position_queue (snd r) = position_queue w
        /\ ((text = none_text
             /\ agents_table (snd r) = agents_table w
             /\ clock (snd r) = clock w
             /\ forall key agent,
                  agents_table w !! key = Some agent ->
                  Dynamodb.Agent.user_id agent = user_id ->
                  Dynamodb.Agent.status agent <> from)
            \/ exists agent,
                 text = done_text (Dynamodb.Agent.strategy_name agent)
                 /\ agents_table w !! Dynamodb.Agent.agent_id agent = Some agent
                 /\ Dynamodb.Agent.user_id agent = user_id
                 /\ Dynamodb.Agent.status agent = from
                 /\ (forall key other,
                       agents_table w !! key = Some other ->
                       Dynamodb.Agent.user_id other = user_id ->
                       Dynamodb.Agent.status other = from ->
                       (Dynamodb.Agent.created_at agent
                        <= Dynamodb.Agent.created_at other)%Z)
                 /\ agents_table (snd r)
                    = <[Dynamodb.Agent.agent_id agent
                        := DynamoDBClient.Agent_with_status to (clock w) agent]>
                        (agents_table w)
                 /\ clock (snd r) = (clock w + 1)%Z)
  end.
Proof.
  intros Hkeys r.
  assert (Hr : r = bind (BotWebhook.get_bot env)
      (fun _ =>
         bind (DynamoDBClient.get_agents_by_user user_id)
           (fun agents =>
              match List.filter (BotWebhook.has_status from) agents with
              | [] => BotWebhook.send_message env chat_id none_text
              | agent :: _ =>
                  bind (DynamoDBClient.update_agent_status
                          (Dynamodb.Agent.agent_id agent) to)
                       (fun _ =>
                          BotWebhook.send_message env chat_id
                            (done_text (Dynamodb.Agent.strategy_name agent)))
              end)) w) by reflexivity.
  clearbody r.
  unfold bind at 1, BotWebhook.get_bot, ask in Hr. cbn [fst snd] in Hr.
  destruct (bot_client env w) as [[] | e]; [| exact Hr].
  unfold bind at 1, DynamoDBClient.get_agents_by_user, gets in Hr.
  cbn [fst snd] in Hr.
  set (mine := List.filter _ (map snd (map_to_list (agents_table w)))) in Hr.
  rewrite filter_has_status_from_item in Hr.
  pose proof (first_filtered_oldest (BotWebhook.has_status from) _
                (earliest_first_sorted mine)) as Hfirst.
  assert (Hmine : forall a, In a (DynamoDBClient.earliest_first mine) <->
                    (exists key, agents_table w !! key = Some a)
                    /\ Dynamodb.Agent.user_id a = user_id).
  { intros a. split.
    - intros Ha. apply (Permutation_in _ (earliest_first_perm mine)) in Ha.
      apply filter_In in Ha as [Hin He].
      split; [apply in_table_values; exact Hin | apply String.eqb_eq; exact He].
    - intros [Hk He].
      apply (Permutation_in _ (Permutation_sym (earliest_first_perm mine))).
      apply filter_In.
      split; [apply in_table_values; exact Hk | apply String.eqb_eq; exact He]. }
  destruct (List.filter (BotWebhook.has_status from)
              (DynamoDBClient.earliest_first mine)) as [| agent rest];
    cbn [map] in Hr.
  - destruct (send_message_effects env chat_id none_text w) as [Hw Hres].
    rewrite <- Hr in Hw, Hres.
    exists none_text. rewrite Hw in *.
    cbn [telegram set_telegram positions_table predictions_table
         position_queue agents_table clock].
    split; [reflexivity |]. split; [exact Hres |].
    split; [reflexivity |]. split; [reflexivity |]. split; [reflexivity |].
    left. split; [reflexivity |]. split; [reflexivity |].
    split; [reflexivity |].
    intros key agent Hk Hu Hs.
    assert (Hin : In agent (DynamoDBClient.earliest_first mine))
      by (apply Hmine; split; [exists key; exact Hk | exact Hu]).
    apply Hfirst in Hin. apply has_status_iff in Hs. congruence.
  - destruct Hfirst as [Hin [Ht Hmin]].
    apply Hmine in Hin as [[key Hk] Hu].
    pose proof (Hkeys _ _ Hk) as Hid. subst key.
    cbn [DynamoDBClient.Agent_from_dynamo_item Dynamodb.Agent.agent_id
         Dynamodb.Agent.strategy_name] in Hr.
    unfold bind at 1, DynamoDBClient.update_agent_status in Hr.
    unfold bind at 1, datetime_now, modify in Hr. cbn [fst snd] in Hr.
    match type of Hr with
    | r = BotWebhook.send_message _ _ ?text ?w1 =>
        destruct (send_message_effects env chat_id text w1) as [Hw Hres]
    end.
    rewrite <- Hr in Hw, Hres.
    exists (done_text (Dynamodb.Agent.strategy_name agent)). rewrite Hw in *.
    cbn [telegram set_telegram set_agents_table positions_table
         predictions_table position_queue agents_table clock].
    split; [reflexivity |]. split; [exact Hres |].
    split; [reflexivity |]. split; [reflexivity |]. split; [reflexivity |].
    right. exists agent.
    split; [reflexivity |]. split; [exact Hk |]. split; [exact Hu |].
    split; [apply has_status_iff; exact Ht |].
    split.
    { intros key other Hko Huo Hso. apply Hmin.
      - apply Hmine. split; [exists key; exact Hko | exact Huo].
      - apply has_status_iff. exact Hso. }
    split; [| reflexivity].
    apply map_eq. intros key.
    destruct (String.eqb_spec key (Dynamodb.Agent.agent_id agent)) as [-> | Hne].
    + rewrite lookup_alter_eq, lookup_insert_eq, Hk. reflexivity.
    + rewrite lookup_alter_ne, lookup_insert_ne by congruence. reflexivity.
Qed.

Lemma agents_keyed_insert (table : gmap string Dynamodb.Agent.t)
    (agent : Dynamodb.Agent.t) :
  Props.agents_keyed_by_id table ->
  Props.agents_keyed_by_id (<[Dynamodb.Agent.agent_id agent := agent]> table).
Proof.
  intros Hkeys key a Hk.
  destruct (String.eqb_spec key (Dynamodb.Agent.agent_id agent)) as [-> | Hne].
  - rewrite lookup_insert_eq in Hk. congruence.
  - rewrite lookup_insert_ne in Hk by congruence. exact (Hkeys _ _ Hk).
Qed.

(** X24. The /pause command pauses at most one agent and replies once.
    When the bot client cannot be built (the secrets lookup raises) the
    command raises before it reads or writes anything.  Otherwise, among
    the agents of the user that are active, one that no other was created
    before is paused: its record changes in status and updatedAt only, and
    no other agent changes; when the user has no active agent the agents
    table is left as it is.  No other table changes.  One reply is sent to
    the chat, after the write, naming the paused agent or saying there is
    none; the command raises when the chat platform refuses the reply, and
    the agent stays paused all the same. *)
Theorem pause_command_pauses_earliest (env : Env) (chat_id : Z)
    (user_id : string) (w : World)
    (Hkeys : Props.agents_keyed_by_id (agents_table w)) :
  let r := BotWebhook.handle_pause_command env chat_id user_id w in
  match bot_client env w with
  | Raised e => r = (Raised e, w)
  | Ok _ =>
      exists text,
        telegram (snd r) = telegram w ++ [Reply (Py.Int chat_id) text]
        /\ fst r = (if telegram_accepts env (Reply (Py.Int chat_id) text) (snd r)
                    then Ok tt else Raised (ServiceError "telegram"))
        /\ positions_table (snd r) = positions_table w
        /\ predictions_table (snd r) = predictions_table w
        /\ position_queue (snd r) = position_queue w
        /\ ((text = "No active agents to pause."%string
             /\ agents_table (snd r) = agents_table w
             /\ forall key agent,
                  agents_table w !! key = Some agent ->
                  Dynamodb.Agent.user_id agent = user_id ->
                  Dynamodb.Agent.status agent <> Dynamodb.ACTIVE)
            \/ exists agent,
                 text = ("Agent '" ++ Dynamodb.Agent.strategy_name agent
                         ++ "' has been paused. Use /resume to reactivate.")%string
                 /\ agents_table w !! Dynamodb.Agent.agent_id agent = Some agent
                 /\ Dynamodb.Agent.user_id agent = user_id
                 /\ Dynamodb.Agent.status agent = Dynamodb.ACTIVE
                 /\ (forall key other,
                       agents_table w !! key = Some other ->
                       Dynamodb.Agent.user_id other = user_id ->
                       Dynamodb.Agent.status other = Dynamodb.ACTIVE ->
                       (Dynamodb.Agent.created_at agent
                        <= Dynamodb.Agent.created_at other)%Z)
                 /\ agents_table (snd r)
                    = <[Dynamodb.Agent.agent_id agent
                        := DynamoDBClient.Agent_with_status Dynamodb.PAUSED
                             (clock w) agent]>
                        (agents_table w))
  end.
Proof.
  intros r.
  pose proof (status_command Dynamodb.ACTIVE Dynamodb.PAUSED
                "No active agents to pause."
                (fun name => ("Agent '" ++ name
                   ++ "' has been paused. Use /resume to reactivate.")%string)
                env chat_id user_id w Hkeys) as H.
  cbv zeta in H.
  change (bind _ _ w) with r in H.
  destruct (bot_client env w) as [[] | e]; [| exact H].
  destruct H as [text [H1 [H2 [H3 [H4 [H5 H6]]]]]].
  exists text. repeat (split; [assumption |]).
  destruct H6 as [[Ha [Hb [_ Hc]]] | [agent [Ha [Hb [Hc [Hd [He [Hf _]]]]]]]].
  - left. repeat (split; [assumption |]). exact Hc.
  - right. exists agent. repeat (split; [assumption |]). exact Hf.
Qed.

Lemma pause_command_pauses_earliest_witness :
  Props.agents_keyed_by_id (agents_table Cases.world_two_agents)
  /\ exists agent,
       Dynamodb.Agent.status agent = Dynamodb.ACTIVE
       /\ agents_table
            (snd (BotWebhook.handle_pause_command (Examples.env []) 4242
                    "user-1" Cases.world_two_agents))
          = <[Dynamodb.Agent.agent_id agent
              := DynamoDBClient.Agent_with_status Dynamodb.PAUSED
                   (clock Cases.world_two_agents) agent]>
              (agents_table Cases.world_two_agents).
Proof.
  assert (Hkeys : Props.agents_keyed_by_id (agents_table Cases.world_two_agents)).
  { intros key agent H.
    unfold Cases.world_two_agents, Examples.world_with in H.
    cbn [agents_table] in H.
    apply lookup_insert_Some in H as [[<- <-] | [_ H]]; [reflexivity |].
    apply lookup_singleton_Some in H as [<- <-]. reflexivity. }
  split; [exact Hkeys |].
  pose proof (pause_command_pauses_earliest (Examples.env []) 4242 "user-1"
                Cases.world_two_agents Hkeys) as H.
  cbv zeta in H.
  change (bot_client (Examples.env []) Cases.world_two_agents) with (Ok tt) in H.
  cbv iota in H.
  destruct H as [text [_ [_ [_ [_ [_ [[_ [_ H]] | [agent H]]]]]]]].
  - exfalso.
    apply (H "agent-a"%string (Cases.agent_created "agent-a" 20));
      [vm_compute | |]; reflexivity.
  - exists agent. destruct H as [_ [_ [_ [Hs [_ Ht]]]]].
    split; [exact Hs | exact Ht].
Defined.

(** X25. /pause followed by /resume is a round trip for a user who has an
    active agent and no paused one, when the bot client is available: the
    agent that /pause paused is the one that /resume resumes, and
    afterwards the agents table is as it was before the two commands but
    for the updatedAt of that agent.  Each command has sent its reply. *)
Theorem pause_then_resume (env : Env) (chat_id : Z) (user_id : string)
    (w : World)
    (Hkeys : Props.agents_keyed_by_id (agents_table w))
    (Hbot : forall w', bot_client env w' = Ok tt)
    (Hnone : forall key other,
               agents_table w !! key = Some other ->
               Dynamodb.Agent.user_id other = user_id ->
               Dynamodb.Agent.status other <> Dynamodb.PAUSED)
    (Hsome : exists key other,
               agents_table w !! key = Some other
               /\ Dynamodb.Agent.user_id other = user_id
               /\ Dynamodb.Agent.status other = Dynamodb.ACTIVE) :
  let w1 := snd (BotWebhook.handle_pause_command env chat_id user_id w) in
  let r2 := BotWebhook.handle_resume_command env chat_id user_id w1 in
  exists agent,
    agents_table w !! Dynamodb.Agent.agent_id agent = Some agent
    /\ Dynamodb.Agent.user_id agent = user_id
    /\ Dynamodb.Agent.status agent = Dynamodb.ACTIVE
    /\ agents_table w1
       = <[Dynamodb.Agent.agent_id agent
           := DynamoDBClient.Agent_with_status Dynamodb.PAUSED (clock w) agent]>
           (agents_table w)
    /\ agents_table (snd r2)
       = <[Dynamodb.Agent.agent_id agent
           := DynamoDBClient.Agent_with_status (Dynamodb.Agent.status agent)
                (clock w + 1) agent]> (agents_table w)
    /\ telegram (snd r2)
       = telegram w
         ++ [Reply (Py.Int chat_id)
               ("Agent '" ++ Dynamodb.Agent.strategy_name agent
                ++ "' has been paused. Use /resume to reactivate.")%string;
             Reply (Py.Int chat_id)
               ("Agent '" ++ Dynamodb.Agent.strategy_name agent
                ++ "' is now active and will resume trading.")%string].
Proof.
  intros w1 r2.
  pose proof (status_command Dynamodb.ACTIVE Dynamodb.PAUSED
                "No active agents to pause."
                (fun name => ("Agent '" ++ name
                   ++ "' has been paused. Use /resume to reactivate.")%string)
                env chat_id user_id w Hkeys) as H1.
  cbv zeta in H1.
  change (bind _ _ w)
    with (BotWebhook.handle_pause_command env chat_id user_id w) in H1.
  rewrite Hbot in H1. fold w1 in H1.
  match type of H1 with
  | context [fst ?r] => generalize dependent (fst r); intros res1 H1
  end.
  destruct H1 as [text1 [Hlog1 [_ [_ [_ [_ Hcase1]]]]]].
  destruct Hcase1 as [[_ [_ [_ Habsurd]]] | [agent [Htext1 [Hk [Hu [Hs [_ [Ht Hclock]]]]]]]].
  { exfalso. destruct Hsome as [key [other [Hko [Huo Hso]]]].
    exact (Habsurd _ _ Hko Huo Hso). }
  assert (Hkeys1 : Props.agents_keyed_by_id (agents_table w1)).
  { rewrite Ht.
    apply (agents_keyed_insert _
             (DynamoDBClient.Agent_with_status Dynamodb.PAUSED (clock w) agent)).
    exact Hkeys. }
  pose proof (status_command Dynamodb.PAUSED Dynamodb.ACTIVE
                "No paused agents to resume."
                (fun name => ("Agent '" ++ name
                   ++ "' is now active and will resume trading.")%string)
                env chat_id user_id w1 Hkeys1) as H2.
  cbv zeta in H2.
  change (bind _ _ w1) with r2 in H2.
  rewrite Hbot in H2.
  clearbody r2 w1.
  assert (Hthere : agents_table w1 !! Dynamodb.Agent.agent_id agent
                   = Some (DynamoDBClient.Agent_with_status Dynamodb.PAUSED
                             (clock w) agent))
    by (rewrite Ht; apply lookup_insert_eq).
  destruct H2 as [text2 [Hlog2 [_ [_ [_ [_ Hcase2]]]]]].
  destruct Hcase2 as [[_ [_ [_ Habsurd]]] | [resumed [Htext2 [Rk [Ru [Rs [_ [Rt _]]]]]]]].
  { exfalso. apply (Habsurd _ _ Hthere); [exact Hu | reflexivity]. }
  assert (Hsame : Dynamodb.Agent.agent_id resumed
                  = Dynamodb.Agent.agent_id agent).
  { destruct (String.eqb_spec (Dynamodb.Agent.agent_id resumed)
                (Dynamodb.Agent.agent_id agent)) as [E | Hne]; [exact E |].
    exfalso. rewrite Ht, lookup_insert_ne in Rk by congruence.
    exact (Hnone _ _ Rk Ru Rs). }
  rewrite Hsame in Rk, Rt. rewrite Hthere in Rk. injection Rk as <-.
  exists agent.
  split; [exact Hk |]. split; [exact Hu |]. split; [exact Hs |].
  split; [exact Ht |].
  split.
  - rewrite Rt, Ht, insert_insert_eq, Hclock, Hs. reflexivity.
  - rewrite Hlog2, Hlog1, Htext1, Htext2, <- app_assoc. reflexivity.
Qed.

Lemma pause_then_resume_witness :
  exists agent,
    agents_table Examples.world !! Dynamodb.Agent.agent_id agent = Some agent
    /\ agents_table
         (snd (BotWebhook.handle_resume_command (Examples.env []) 4242 "user-1"
                 (snd (BotWebhook.handle_pause_command (Examples.env []) 4242
                         "user-1" Examples.world))))
       = <[Dynamodb.Agent.agent_id agent
           := DynamoDBClient.Agent_with_status (Dynamodb.Agent.status agent)
                (clock Examples.world + 1) agent]> (agents_table Examples.world).
Proof.
  assert (Hkeys : Props.agents_keyed_by_id (agents_table Examples.world)).
  { intros key agent H.
    unfold Examples.world, Examples.world_with in H. cbn [agents_table] in H.
    apply lookup_singleton_Some in H as [<- <-]. reflexivity. }
  assert (Hnone : forall key other,
            agents_table Examples.world !! key = Some other ->
            Dynamodb.Agent.user_id other = "user-1"%string ->
            Dynamodb.Agent.status other <> Dynamodb.PAUSED).
  { intros key other H _.
    unfold Examples.world, Examples.world_with in H. cbn [agents_table] in H.
    apply lookup_singleton_Some in H as [_ <-]. discriminate. }
  assert (Hsome : exists key other,
            agents_table Examples.world !! key = Some other
            /\ Dynamodb.Agent.user_id other = "user-1"%string
            /\ Dynamodb.Agent.status other = Dynamodb.ACTIVE).
  { exists "agent-1"%string, Examples.agent.
    split; [vm_compute; reflexivity | split; reflexivity]. }
  destruct (pause_then_resume (Examples.env []) 4242 "user-1" Examples.world
              Hkeys (fun _ => eq_refl) Hnone Hsome)
    as [agent [H1 [_ [_ [_ [H2 _]]]]]].
  exists agent. split; [exact H1 | exact H2].
Defined.

(** X26. The pause button takes an agent out of the loop, whoever presses
    it: when the bot client is available, the callback agent:pause:<id>
    sets the stored agent's status to paused without reading the user.
    From then on the executor returns normally on every complete request
    for the agent, executing nothing, and a cycle of the orchestrator
    stores no prediction and queues no request for it. *)
Theorem paused_agent_is_skipped (env : Env) (chat_id : Z)
    (user_id agent_id : string) (agent : Dynamodb.Agent.t) (w : World)
    (Hkeys : Props.agents_keyed_by_id (agents_table w))
    (Hbot : bot_client env w = Ok tt)
    (Hstored : agents_table w !! agent_id = Some agent) :
  let w1 := snd (BotWebhook.handle_agent_callback env chat_id user_id "pause"
                   agent_id w) in
  agents_table w1
  = <[agent_id := DynamoDBClient.Agent_with_status Dynamodb.PAUSED (clock w) agent]>
      (agents_table w)
  /\ (forall message,
        Spec.complete_message message ->
        agentId message = Some agent_id ->
        PositionExecutor.process_position_message env message w1 = (Ok tt, w1))
  /\ (forall p,
        In p (predictions_table (snd (AgentOrchestrator.lambda_handler env w1))) ->
        Dynamodb.Prediction.agent_id p = agent_id ->
        In p (predictions_table w))
  /\ (forall m,
        In m (position_queue (snd (AgentOrchestrator.lambda_handler env w1))) ->
        agentId m = Some agent_id ->
        In m (position_queue w)).
Proof.
  intros w1.
  assert (Hw1 : w1 = snd (BotWebhook.send_message env chat_id
                      "Agent paused. Use /resume to reactivate."
                      (snd (DynamoDBClient.update_agent_status agent_id
                              Dynamodb.PAUSED w)))).
  { unfold w1, BotWebhook.handle_agent_callback.
    change ("pause" =? "pause")%string with true. cbv iota.
    unfold bind at 1, BotWebhook.get_bot, ask. rewrite Hbot. cbn [fst snd].
    unfold bind at 1.
    destruct (DynamoDBClient.update_agent_status agent_id Dynamodb.PAUSED w)
      as [[[] | e] w'] eqn:E; [reflexivity |].
    exfalso. unfold DynamoDBClient.update_agent_status, bind, datetime_now,
      modify in E. cbn [fst snd] in E. discriminate E. }
  rewrite (proj1 (send_message_effects env chat_id _ _)) in Hw1.
  assert (Ht : agents_table w1
               = <[agent_id := DynamoDBClient.Agent_with_status Dynamodb.PAUSED
                                 (clock w) agent]> (agents_table w)).
  { rewrite Hw1. unfold DynamoDBClient.update_agent_status.
    unfold bind, datetime_now, modify. cbn.
    apply map_eq. intros key.
    destruct (String.eqb_spec key agent_id) as [-> | Hne].
    - rewrite lookup_alter_eq, lookup_insert_eq, Hstored. reflexivity.
    - rewrite lookup_alter_ne, lookup_insert_ne by congruence. reflexivity. }
  assert (Hp : predictions_table w1 = predictions_table w)
    by (rewrite Hw1; reflexivity).
  assert (Hq : position_queue w1 = position_queue w)
    by (rewrite Hw1; reflexivity).
  clear Hw1. clearbody w1.
  assert (Hthere : agents_table w1 !! agent_id
                   = Some (DynamoDBClient.Agent_with_status Dynamodb.PAUSED
                             (clock w) agent))
    by (rewrite Ht; apply lookup_insert_eq).
  assert (Hinactive : forall a,
            Props.active_in w1 a -> Dynamodb.Agent.agent_id a <> agent_id).
  { intros a [key [Hk Hs]] Hid.
    assert (Hkeys1 : Props.agents_keyed_by_id (agents_table w1)).
    { rewrite Ht. rewrite <- (Hkeys _ _ Hstored).
      apply (agents_keyed_insert _
               (DynamoDBClient.Agent_with_status Dynamodb.PAUSED (clock w) agent)).
      exact Hkeys. }
    rewrite <- (Hkeys1 _ _ Hk) in Hk. rewrite Hid, Hthere in Hk.
    injection Hk as <-. discriminate Hs. }
  split; [exact Ht |]. split; [| split].
  - intros message Hc Hid.
    pose proof (process_position_message_executed env message w1) as H.
    destruct (PositionExecutor.process_position_message env message w1)
      as [res w2].
    cbn [fst snd] in H.
    inversion H as [key Hm Er Ew | id Hc' Hid' Hl Er Ew
                   | id ag Hc' Hid' Hl Hs Er Ew
                   | id ag order Hc' Hid' Hl Hs Hrefused Er Ew
                   | id ag order position w' Hc' Hid' Hl Hs]; subst;
      try reflexivity; try contradiction;
      exfalso; rewrite Hid in Hid'; injection Hid' as <-;
      rewrite Hthere in Hl; injection Hl as <-; discriminate Hs.
  - intros p Hin Hid.
    destruct (orchestrator_cycle_effects env w1)
      as [stored [queued [H1 [_ [_ [Hs _]]]]]].
    rewrite H1, Hp in Hin. apply in_app_or in Hin as [Hin | Hin]; [exact Hin |].
    exfalso. rewrite List.Forall_forall in Hs.
    destruct (Hs p Hin) as [a [Ha Hpa]].
    apply (Hinactive a Ha). congruence.
  - intros m Hin Hid.
    destruct (orchestrator_cycle_effects env w1)
      as [stored [queued [_ [H2 [_ [_ [Hs _]]]]]]].
    rewrite H2, Hq in Hin. apply in_app_or in Hin as [Hin | Hin]; [exact Hin |].
    exfalso. rewrite List.Forall_forall in Hs.
    destruct (Hs m Hin) as [a [Ha Hma]].
    apply (Hinactive a Ha). congruence.
Qed.

Lemma paused_agent_is_skipped_witness :
  fst (PositionExecutor.process_position_message (Examples.env [])
         Examples.message
         (snd (BotWebhook.handle_agent_callback (Examples.env []) 4242
                 "user-2" "pause" "agent-1" Examples.world)))
  = Ok tt.
Proof.
  assert (Hkeys : Props.agents_keyed_by_id (agents_table Examples.world)).
  { intros key agent H.
    unfold Examples.world, Examples.world_with in H. cbn [agents_table] in H.
    apply lookup_singleton_Some in H as [<- <-]. reflexivity. }
  pose proof (paused_agent_is_skipped (Examples.env []) 4242
                "user-2" "agent-1" Examples.agent Examples.world Hkeys
                eq_refl ltac:(vm_compute; reflexivity)) as H.
  cbv zeta in H. destruct H as [_ [H _]].
  rewrite (H Examples.message); [reflexivity | | reflexivity].
  repeat split; eexists; reflexivity.
Defined.

End AgentControl.

(** ** Edge cases of the opening decision, the sizing and the filter *)

Section EdgeCases.
Import Effects.
Local Open Scope Q_scope.

Lemma evaluate_operator_result (operator : string) (actual : Q)
    (value : option Strategy.Value) :
  (forall q, value = Some (Strategy.VNum q) ->
     exists b, AgentOrchestrator.evaluate_operator operator actual value = Ok b)
  /\ (forall e, AgentOrchestrator.evaluate_operator operator actual value
                = Raised e -> e = TypeError).
Proof.
  unfold AgentOrchestrator.evaluate_operator, AgentOrchestrator.ordered.
  split.
  - intros q ->.
    repeat match goal with
    | |- context [if ?b then _ else _] => destruct b
    end; eexists; reflexivity.
  - intros e.
    repeat match goal with
    | |- context [if ?b then _ else _] => destruct b
    end; destruct value as [[q | s] |]; intros H; inversion H; reflexivity.
Qed.

Lemma evaluate_entry_condition_result (condition : Strategy.EntryCondition)
    (prediction : Dynamodb.Prediction.t) :
  (forall q, Strategy.value condition = Some (Strategy.VNum q) ->
     exists b,
       AgentOrchestrator.evaluate_entry_condition condition prediction = Ok b)
  /\ (forall e, AgentOrchestrator.evaluate_entry_condition condition prediction
                = Raised e -> e = TypeError).
Proof.
  unfold AgentOrchestrator.evaluate_entry_condition.
  split.
  - intros q Hq. rewrite Hq.
    repeat match goal with
    | |- context [if String.eqb ?a ?b then _ else _] => destruct (String.eqb a b)
    end;
    first [ eapply (proj1 (evaluate_operator_result _ _ _)); reflexivity
          | eexists; reflexivity ].
  - intros e.
    repeat match goal with
    | |- context [if String.eqb ?a ?b then _ else _] => destruct (String.eqb a b)
    end;
    first [ apply (proj2 (evaluate_operator_result _ _ _))
          | intros H; discriminate H ].
Qed.

Lemma check_entry_conditions_result (conditions : list Strategy.EntryCondition)
    (prediction : Dynamodb.Prediction.t) :
  (Forall (fun c => exists q, Strategy.value c = Some (Strategy.VNum q))
          conditions ->
   exists b, AgentOrchestrator.check_entry_conditions conditions prediction = Ok b)
  /\ (forall e, AgentOrchestrator.check_entry_conditions conditions prediction
                = Raised e -> e = TypeError).
Proof.
  induction conditions as [| c conditions [IH1 IH2]]; simpl.
  - split; [intros _; eexists; reflexivity | intros e H; discriminate H].
  - destruct (evaluate_entry_condition_result c prediction) as [H1 H2].
    split.
    + intros Hall. inversion Hall as [| ? ? [q Hq] Hrest]; subst.
      destruct (H1 q Hq) as [b ->].
      destruct b; [exact (IH1 Hrest) | eexists; reflexivity].
    + intros e.
      destruct (AgentOrchestrator.evaluate_entry_condition c prediction)
        as [[|] | e'] eqn:E.
      * apply IH2.
      * intros H. discriminate H.
      * intros H. injection H as <-. exact (H2 e' eq_refl).
Qed.

(** X28. [should_open_position] can only fail with a TypeError, the one
    of ordering a number against a value that is not a number; when the
    value of every entry condition is a number it returns a decision.
    With a condition that orders the edge against a text, a prediction
    that passes the two thresholds does raise it. *)
Theorem should_open_position_type_error (prediction : Dynamodb.Prediction.t)
    (strategy : Strategy.t) :
  (Forall (fun c => exists q, Strategy.value c = Some (Strategy.VNum q))
          (Py.get (Strategy.entryConditions strategy) []) ->
   exists decision,
     AgentOrchestrator.should_open_position prediction strategy = Ok decision)
  /\ (forall e,
        AgentOrchestrator.should_open_position prediction strategy = Raised e ->
        e = TypeError)
  /\ AgentOrchestrator.should_open_position Examples.prediction
       Cases.strategy_comparing_text
     = Raised TypeError.
Proof.
  unfold AgentOrchestrator.should_open_position.
  destruct (check_entry_conditions_result
              (Py.get (Strategy.entryConditions strategy) []) prediction)
    as [H1 H2].
  split; [| split; [| reflexivity]].
  - intros Hall. cbv zeta.
    destruct (_ <? _)%Z; [eexists; reflexivity |].
    destruct (Py.Qlt_bool _ _); [eexists; reflexivity |].
    exact (H1 Hall).
  - intros e. cbv zeta.
    destruct (_ <? _)%Z; [intros H; discriminate H |].
    destruct (Py.Qlt_bool _ _); [intros H; discriminate H |].
    apply H2.
Qed.

(** X29. The size of a position is never negative when the strategy's
    base size and maximum are not (the defaults 0.05 and 0.20 when absent)
    and the prediction's edge is not; under the kelly rule it is exactly 0
    for every prediction whose predicted probability is at most one
    half. *)
Theorem calculate_position_size_nonneg (prediction : Dynamodb.Prediction.t)
    (strategy : Strategy.t) (agent : Dynamodb.Agent.t)
    (Hbase : 0 <= Py.get (Strategy.baseSize
                            (Py.get (Strategy.positionSizing strategy)
                                    Strategy.no_PositionSizing)) (5 # 100))
    (Hmax : 0 <= AgentOrchestrator.max_position strategy)
    (Hedge : 0 <= Dynamodb.Prediction.edge prediction) :
  0 <= AgentOrchestrator.calculate_position_size prediction strategy agent
  /\ (Py.get (Strategy.scalingRule
                (Py.get (Strategy.positionSizing strategy)
                        Strategy.no_PositionSizing)) "fixed" = "kelly"%string ->
      Dynamodb.Prediction.predicted_probability prediction <= 1 # 2 ->
      AgentOrchestrator.calculate_position_size prediction strategy agent == 0).
Proof.
  unfold AgentOrchestrator.calculate_position_size.
  set (base := Py.get (Strategy.baseSize _) _) in *.
  set (rule := Py.get (Strategy.scalingRule _) _).
  set (limit := AgentOrchestrator.max_position strategy) in *.
  cbv zeta.
  assert (Hkelly : 0 <= Py.max 0
                          (Dynamodb.Prediction.predicted_probability prediction
                           - (1 - Dynamodb.Prediction.predicted_probability
                                    prediction))).
  { rewrite py_max_Qmax. apply Q.le_max_l. }
  split.
  - rewrite py_min_Qmin. apply Q.min_glb; [| exact Hmax].
    destruct (rule =? "confidence_scaled")%string.
    { unfold AgentOrchestrator.confidence_multipliers.
      repeat match goal with
      | |- context [if ?b then _ else _] => destruct b
      end; cbn [Py.get]; nra. }
    destruct (rule =? "edge_scaled")%string.
    { assert (0 <= Py.min (Dynamodb.Prediction.edge prediction * 10) 2)
        by (rewrite py_min_Qmin; apply Q.min_glb; lra).
      nra. }
    destruct (rule =? "kelly")%string; [nra | exact Hbase].
  - intros -> Hp. cbn [String.eqb Ascii.eqb Bool.eqb].
    change ("kelly" =? "confidence_scaled")%string with false.
    change ("kelly" =? "edge_scaled")%string with false.
    change ("kelly" =? "kelly")%string with true. cbv iota.
    assert (Hz : Py.max 0
                   (Dynamodb.Prediction.predicted_probability prediction
                    - (1 - Dynamodb.Prediction.predicted_probability prediction))
                 == 0).
    { rewrite py_max_Qmax. apply Q.max_l. lra. }
    rewrite py_min_Qmin. rewrite Hz.
    rewrite Q.min_l; [ring | lra].
Qed.

Lemma calculate_position_size_nonneg_witness :
  0 <= AgentOrchestrator.calculate_position_size Examples.prediction
         Examples.strategy Examples.agent.
Proof.
  apply (calculate_position_size_nonneg Examples.prediction Examples.strategy
           Examples.agent); vm_compute; discriminate.
Defined.

(** X30. Edges of the market filter.  A strategy without marketSelection
    keeps every market, in order.  With a non-empty timeHorizon a market
    that resolves more than 168 hours ahead is dropped whichever buckets
    are listed, and a list that names none of same_day, next_day and weekly
    drops every market; a market whose resolution time has already passed
    counts as same_day. *)
Theorem filter_markets_edges (now : Z) (markets : list WhetherApi.Market.t)
    (strategy : Strategy.t) :
  (Strategy.marketSelection strategy = None ->
   AgentOrchestrator.filter_markets_at now markets strategy = markets)
  /\ (Spec.time_horizons strategy <> [] ->
      forall market,
        168 < AgentOrchestrator.hours_until_resolution market now ->
        ~ In market (AgentOrchestrator.filter_markets_at now markets strategy))
  /\ (Spec.time_horizons strategy <> [] ->
      ~ In "same_day"%string (Spec.time_horizons strategy) ->
      ~ In "next_day"%string (Spec.time_horizons strategy) ->
      ~ In "weekly"%string (Spec.time_horizons strategy) ->
      AgentOrchestrator.filter_markets_at now markets strategy = [])
  /\ (Spec.allowed_types strategy = [] ->
      Spec.allowed_locations strategy = [] ->
      In "same_day"%string (Spec.time_horizons strategy) ->
      forall market,
        In market markets ->
        (WhetherApi.Market.resolution_time market <= now)%Z ->
        In market (AgentOrchestrator.filter_markets_at now markets strategy)).
Proof.
  split; [| split; [| split]].
  - intros Hnone. unfold AgentOrchestrator.filter_markets_at.
    rewrite filter_loop_filter, Hnone. simpl.
    induction markets as [| m markets IH]; [reflexivity |].
    simpl. rewrite IH. reflexivity.
  - intros Hh market Hfar Hin.
    rewrite hours_until_resolution_spec in Hfar.
    apply filter_markets_at_iff in Hin as [_ [_ [_ Hb]]].
    destruct (Hb Hh) as [bucket [_ [[_ H] | [[_ [_ H]] | [_ [_ H]]]]]]; lra.
  - intros Hh H1 H2 H3.
    destruct (AgentOrchestrator.filter_markets_at now markets strategy)
      as [| market rest] eqn:E; [reflexivity | exfalso].
    assert (Hin : In market
                    (AgentOrchestrator.filter_markets_at now markets strategy))
      by (rewrite E; left; reflexivity).
    apply filter_markets_at_iff in Hin as [_ [_ [_ Hb]]].
    destruct (Hb Hh) as [bucket [Hbin [[-> _] | [[-> _] | [-> _]]]]];
      contradiction.
  - intros Ht Hl Hs market Hin Hpast.
    apply filter_markets_at_iff. split; [exact Hin |].
    split; [left; exact Ht |]. split; [left; exact Hl |].
    intros _. exists "same_day"%string. split; [exact Hs |].
    left. split; [reflexivity |].
    rewrite <- hours_until_resolution_spec.
    unfold AgentOrchestrator.hours_until_resolution.
    assert (Hz : inject_Z (WhetherApi.Market.resolution_time market - now) <= 0).
    { change 0 with (inject_Z 0). rewrite <- Zle_Qle. lia. }
    set (d := inject_Z _) in *.
    apply Qle_shift_div_r; [reflexivity |].
    apply Qle_shift_div_r; [reflexivity |].
    apply Qle_trans with 0; [exact Hz | vm_compute; discriminate].
Qed.

End EdgeCases.
